(** * confluence_upload.py: a shallow embedding and its properties

    The program walks a local directory tree and mirrors it as a tree of
    pages in a remote space.  It is sequential; its effects are HTTP
    requests, console lines, sleeps, process exit and four counters held by
    the client object.  The embedding threads one [state] through a small
    state-and-exit monad.  What the program does not define itself (the
    answers of the remote service, the [markdown] package, the process
    environment and the file system) is gathered in the record [externals];
    what the argument parser makes of the command line is the argument of
    [main].

    The program is embedded twice.  Section [Program] follows the runs in
    which every operation on the outside comes back: each request is
    answered with a status, each file that is opened is read as UTF-8 text,
    each directory is listed, each line is written.  Module [Raising] adds
    what happens otherwise: the program catches no exception of these
    operations, and one that is raised ends the process where it stands,
    with a traceback and exit status 1.  The two agree on every run in
    which nothing is raised ([main_follows], [main_never_raises]).  Unless
    a statement names [Raising], it speaks of the runs that no uncaught
    exception ends.  Signals, an interrupt from the keyboard among them,
    are outside both. *)

From Stdlib Require Import List String Ascii ZArith Arith Lia Bool DecimalString.
Set Warnings "-register-all".
Import ListNotations.
Open Scope string_scope.
Open Scope nat_scope.

(* ------------------------------------------------------------------ *)
(** ** Python strings (ASCII model)

    Strings are byte strings.  Case mapping and white space are Python's on
    strings of ASCII characters ([isascii] below) and on no others: bytes
    above 127 are left alone here and count as neither cased nor white
    space, whereas Python maps the letters of every script.  Statements
    about the characters of a title are therefore made for ASCII names. *)

Definition code (c : ascii) : nat := nat_of_ascii c.

Definition is_upper (c : ascii) : bool := (65 <=? code c) && (code c <=? 90).
Definition is_lower (c : ascii) : bool := (97 <=? code c) && (code c <=? 122).
Definition is_cased (c : ascii) : bool := is_upper c || is_lower c.

Definition to_upper (c : ascii) : ascii :=
  if is_lower c then ascii_of_nat (code c - 32) else c.
Definition to_lower (c : ascii) : ascii :=
  if is_upper c then ascii_of_nat (code c + 32) else c.

(** [str.isspace] on ASCII: TAB..CR, FS..US and the blank. *)
Definition is_space (c : ascii) : bool :=
  ((9 <=? code c) && (code c <=? 13)) || ((28 <=? code c) && (code c <=? 32)).

(** [s.replace(a, b)] for one-character [a] and [b]. *)
Fixpoint replace_char (a b : ascii) (s : string) : string :=
  match s with
  | EmptyString => EmptyString
  | String c r => String (if Ascii.eqb c a then b else c) (replace_char a b r)
  end.

(** [s.title()] on ASCII text: a cased character is upper-cased when the
    character before it is not cased, lower-cased otherwise. *)
Fixpoint title_from (previous_is_cased : bool) (s : string) : string :=
  match s with
  | EmptyString => EmptyString
  | String c r =>
      String (if previous_is_cased then to_lower c else to_upper c)
             (title_from (is_cased c) r)
  end.

Definition py_title (s : string) : string := title_from false s.

(** [s.strip() == ""]: every character is white space. *)
Fixpoint all_space (s : string) : bool :=
  match s with
  | EmptyString => true
  | String c r => is_space c && all_space r
  end.

Definition startswith (p s : string) : bool := String.prefix p s.

Definition endswith (suf s : string) : bool :=
  (String.length suf <=? String.length s) &&
  String.eqb (substring (String.length s - String.length suf) (String.length suf) s) suf.

(** [name.rfind('.')], counting positions from [i]. *)
Fixpoint rfind_dot (s : string) (i : nat) : option nat :=
  match s with
  | EmptyString => None
  | String c r =>
      match rfind_dot r (S i) with
      | Some j => Some j
      | None => if Ascii.eqb c "."%char then Some i else None
      end
  end.

(** [PurePath(name).stem] for a name without separators. *)
Definition stem (name : string) : string :=
  match rfind_dot name 0 with
  | Some i =>
      if (0 <? i) && (i <? String.length name - 1)
      then substring 0 i name else name
  | None => name
  end.

(** Truth value of a Python string, and of a value that is a string or
    [None]. *)
Definition nonempty (s : string) : bool := negb (String.eqb s "").

Definition truthy (o : option string) : bool :=
  match o with
  | Some s => nonempty s
  | None => false
  end.

(** The string a value that is a string or [None] stands for in an f-string
    or a URL. *)
Definition shown (o : option string) : string :=
  match o with
  | Some s => s
  | None => "None"
  end.

(** [a or b] where [a] is a string or [None]. *)
Definition py_or (a : option string) (b : string) : string :=
  match a with
  | Some s => if nonempty s then s else b
  | None => b
  end.

(* ------------------------------------------------------------------ *)
(** ** The local tree *)

Inductive node :=
| File (name content : string)
| Dir (name : string) (entries : list node)
| Other (name : string).

Definition node_name (n : node) : string :=
  match n with
  | File name _ => name
  | Dir name _ => name
  | Other name => name
  end.

Definition is_dir (n : node) : bool :=
  match n with Dir _ _ => true | _ => false end.

Definition is_file (n : node) : bool :=
  match n with File _ _ => true | _ => false end.

Definition file_content (n : node) : string :=
  match n with File _ content => content | _ => "" end.

Definition dir_entries (n : node) : list node :=
  match n with Dir _ entries => entries | _ => [] end.

(** Nesting depth of directories below a node. *)
Fixpoint height (n : node) : nat :=
  match n with
  | Dir _ entries => S (list_max (map height entries))
  | _ => 0
  end.

(** [sorted(os.listdir(p))]: the listing ordered by name, code point by code
    point. *)
Fixpoint insert_by_name (n : node) (l : list node) : list node :=
  match l with
  | [] => [n]
  | m :: r =>
      if String.leb (node_name n) (node_name m) then n :: m :: r
      else m :: insert_by_name n r
  end.

Fixpoint sorted (l : list node) : list node :=
  match l with
  | [] => []
  | n :: r => insert_by_name n (sorted r)
  end.

(** Lines 182 and 266: visible subdirectories.  Lines 183 and 270: regular
    files whose name ends in [.md]. *)
Definition visible_dir (e : node) : bool :=
  is_dir e && negb (startswith "." (node_name e)).

Definition md_file (e : node) : bool :=
  endswith ".md" (node_name e) && is_file e.

(* ------------------------------------------------------------------ *)
(** ** The remote space, the counters and the trace *)

Record page := mkPage {
  page_id : string;
  page_title : string;
  page_parent : string
}.

(** [self.stats]: a dict with four fixed keys. *)
Record stats := mkStats {
  created : nat;
  skipped : nat;
  failed : nat;
  deleted : nat
}.

Definition no_stats : stats := mkStats 0 0 0 0.

(** Console lines, one constructor per [print] of the source. *)
Inductive line :=
| LAuthError
| LExists (title id : string)
| LWouldCreate (title parent : string)
| LCreated (title id : string)
| LFailed (title : string) (status : Z)
| LNotFound (title : string)
| LWouldDelete (title id : string)
| LDeleted (title id : string)
| LDeleteFailed (title : string) (status : Z)
| LResults (c s f : nat) (d : option nat)
| LDir (depth : nat) (name : string)
| LFile (depth : nat) (name : string)
| LTopFile (name : string)
| LBanner
| LDryRunMode
| LDeleting (title : string)
| LUsage
| LHelp
| LNotADirectory (path : string)
| LUploading (path : string)
| LTarget (instance space parent : string)
| LRootPage (title : string)
| LAbort
| LTraceback.

(** The three places that call [create_page]: line 258, lines 194 and 281,
    lines 202 and 289. *)
Inductive site := RootSite | LeafSite | IndexSite.

(** What a run does, newest event first.  [Call] and [Visit] are ghost
    events: [Call] records one return of [create_page] to a call site,
    [Visit] records that the entries of a directory are being processed. *)
Inductive event :=
| HttpGet (title : string)
| HttpPost (title parent body : string)
| HttpDelete (id : string)
| Print (l : line)
| Sleep
| Call (s : site) (title parent : string) (result : option string)
| Visit (dir : node).

Record state := mkState {
  st_stats : stats;
  st_pages : list page;
  st_clock : nat;
  st_trace : list event
}.

(** What the program takes from outside.  The answers of the service are
    indexed by the number of requests made so far, so that the same request
    may be answered differently at different times. *)
Record externals := mkExternals {
  get_status : nat -> string -> Z;
  post_status : nat -> string -> Z;
  delete_status : nat -> string -> Z;
  new_id : nat -> string;
  markdown : string -> string;
  environ_email : option string;
  environ_token : option string;
  fs_lookup : string -> option node
}.

(* ------------------------------------------------------------------ *)
(** ** The monad: state, with [sys.exit] *)

Inductive outcome (A : Type) :=
| Ret (a : A) (s : state)
| Exit (exit_code : Z) (s : state)
| OutOfFuel.

Arguments Ret {A} a s.
Arguments Exit {A} exit_code s.
Arguments OutOfFuel {A}.

Definition M (A : Type) : Type := state -> outcome A.

Definition ret {A} (a : A) : M A := fun s => Ret a s.

Definition bind {A B} (m : M A) (f : A -> M B) : M B :=
  fun s =>
    match m s with
    | Ret a s' => f a s'
    | Exit c s' => Exit c s'
    | OutOfFuel => OutOfFuel
    end.

Notation "x <- m ;; k" := (bind m (fun x => k))
  (at level 61, m at next level, right associativity).
Notation "m ;; k" := (bind m (fun _ => k))
  (at level 61, right associativity).

Definition sys_exit {A} (c : Z) : M A := fun s => Exit c s.

Definition emit (e : event) : M unit :=
  fun s => Ret tt (mkState (st_stats s) (st_pages s) (st_clock s) (e :: st_trace s)).

Definition print (l : line) : M unit := emit (Print l).

Definition update_stats (f : stats -> stats) : M unit :=
  fun s => Ret tt (mkState (f (st_stats s)) (st_pages s) (st_clock s) (st_trace s)).

Definition incr_created (t : stats) : stats :=
  mkStats (S (created t)) (skipped t) (failed t) (deleted t).
Definition incr_skipped (t : stats) : stats :=
  mkStats (created t) (S (skipped t)) (failed t) (deleted t).
Definition incr_failed (t : stats) : stats :=
  mkStats (created t) (skipped t) (S (failed t)) (deleted t).
Definition incr_deleted (t : stats) : stats :=
  mkStats (created t) (skipped t) (failed t) (S (deleted t)).

(** [for x in l: body(x)] *)
Fixpoint for_ {A} (l : list A) (body : A -> M unit) : M unit :=
  match l with
  | [] => ret tt
  | x :: r => body x ;; for_ r body
  end.

(** The process exit status of a finished run. *)
Definition exit_status {A} (o : outcome A) : option Z :=
  match o with
  | Ret _ _ => Some 0%Z
  | Exit c _ => Some c
  | OutOfFuel => None
  end.

Definition final_state {A} (o : outcome A) : option state :=
  match o with
  | Ret _ s => Some s
  | Exit _ s => Some s
  | OutOfFuel => None
  end.

(* ------------------------------------------------------------------ *)
(** ** The program *)

Record args := mkArgs {
  arg_instance : string;
  arg_space : string;
  arg_parent_id : string;
  arg_dir : option string;
  arg_root_title : option string;
  arg_delete : option string;
  arg_dry_run : bool
}.

(** What [parser.parse_args()] (line 224) makes of the command line.  The
    parser either returns the namespace, or ends the process itself: after
    the usage message with code 2 when a required option is missing or an
    argument is not understood, after the help text with code 0 when [-h]
    or [--help] is given. *)
Inductive command_line :=
| Parsed (a : args)
| Unparsable
| HelpRequested.

Definition parse_args (c : command_line) : M args :=
  match c with
  | Parsed a => ret a
  | Unparsable => print LUsage ;; sys_exit 2%Z
  | HelpRequested => print LHelp ;; sys_exit 0%Z
  end.

Section Program.

Variable X : externals.

(** *** The service

    One request advances the clock by one.  A search answers with the pages
    of the space that carry the title asked for, in creation order.  A
    create that is answered 200 or 201 has stored the page, under the id the
    service chose; any other answer leaves the space as it was.  A delete
    that is answered 200 or 204 has removed the page and what hangs below
    it. *)

Definition tick (e : event) (pages : list page) (s : state) : state :=
  mkState (st_stats s) pages (S (st_clock s)) (e :: st_trace s).

Definition http_get (title : string) : M (Z * list page) :=
  fun s =>
    Ret (get_status X (st_clock s) title,
         filter (fun p => String.eqb (page_title p) title) (st_pages s))
        (tick (HttpGet title) (st_pages s) s).

Definition created_status (status : Z) : bool :=
  (status =? 200)%Z || (status =? 201)%Z.

Definition deleted_status (status : Z) : bool :=
  (status =? 200)%Z || (status =? 204)%Z.

Definition http_post (title body parent : string) : M (Z * page) :=
  fun s =>
    let status := post_status X (st_clock s) title in
    let p := mkPage (new_id X (st_clock s)) title parent in
    Ret (status, p)
        (tick (HttpPost title parent body)
              (if created_status status then st_pages s ++ [p] else st_pages s)
              s).

Fixpoint descendants (n : nat) (ids : list string) (pages : list page) : list string :=
  match n with
  | 0 => ids
  | S n' =>
      descendants n'
        (ids ++ map page_id
           (filter (fun p => existsb (String.eqb (page_parent p)) ids) pages))
        pages
  end.

Definition remove_tree (id : string) (pages : list page) : list page :=
  let gone := descendants (List.length pages) [id] pages in
  filter (fun p => negb (existsb (String.eqb (page_id p)) gone)) pages.

Definition http_delete (id : string) : M Z :=
  fun s =>
    let status := delete_status X (st_clock s) id in
    Ret status
        (tick (HttpDelete id)
              (if deleted_status status then remove_tree id (st_pages s)
               else st_pages s)
              s).

(** *** The client (lines 56-147) *)

Definition find_page (title : string) : M (option string) :=
  resp <- http_get title ;;
  if (fst resp =? 200)%Z then
    ret (match find (fun r => String.eqb (page_title r) title) (snd resp) with
         | Some r => Some (page_id r)
         | None => None
         end)
  else ret None.

Definition create_page (dry_run : bool) (title body_html parent_id : string)
  : M (option string) :=
  existing <- find_page title ;;
  if truthy existing then
    print (LExists title (shown existing)) ;;
    update_stats incr_skipped ;;
    ret existing
  else if dry_run then
    print (LWouldCreate title parent_id) ;;
    update_stats incr_created ;;
    ret (Some "dry-run-id")
  else
    resp <- http_post title body_html parent_id ;;
    if created_status (fst resp) then
      print (LCreated (page_title (snd resp)) (page_id (snd resp))) ;;
      update_stats incr_created ;;
      ret (Some (page_id (snd resp)))
    else
      print (LFailed title (fst resp)) ;;
      update_stats incr_failed ;;
      ret None.

Definition delete_page (dry_run : bool) (title : string) : M bool :=
  page_id <- find_page title ;;
  if negb (truthy page_id) then
    print (LNotFound title) ;;
    ret false
  else
    let id := shown page_id in
    if dry_run then
      print (LWouldDelete title id) ;;
      ret true
    else
      status <- http_delete id ;;
      if deleted_status status then
        print (LDeleted title id) ;;
        update_stats incr_deleted ;;
        ret true
      else
        print (LDeleteFailed title status) ;;
        ret false.

Definition print_stats : M unit :=
  fun s =>
    let t := st_stats s in
    print (LResults (created t) (skipped t) (failed t)
                    (if deleted t =? 0 then None else Some (deleted t))) s.

(** *** Markdown conversion (lines 154-160) *)

Definition md_to_storage (md_content : string) : string :=
  let html := markdown X md_content in
  if negb (all_space html) then html else "<p><em>Empty document</em></p>".

(** *** The directory walker (lines 170-205) *)

Definition pretty_title (filename_stem : string) : string :=
  py_title (replace_char "-" " " (replace_char "_" " " filename_stem)).

(** A call of [create_page] from one of its call sites; the ghost event
    records the site and what came back. *)
Definition call_create_page (dry_run : bool) (from : site)
    (title body parent_id : string) : M (option string) :=
  r <- create_page dry_run title body parent_id ;;
  emit (Call from title parent_id r) ;;
  ret r.

(** Lines 187-195 and 275-282: one markdown file. *)
Definition upload_file (dry_run : bool) (announce : string -> line)
    (parent_id title_prefix : string) (f : node) : M unit :=
  let readable := pretty_title (stem (node_name f)) in
  let title := title_prefix ++ " - " ++ readable in
  print (announce (node_name f)) ;;
  let body := md_to_storage (file_content f) in
  call_create_page dry_run LeafSite title body parent_id ;;
  emit Sleep.

(** Lines 202-204 and 289-291: the index page of a subdirectory and, if it
    has an id, the subdirectory itself. *)
Definition upload_subdir (dry_run : bool)
    (recurse : node -> string -> string -> M unit)
    (title body parent_id : string) (d : node) : M unit :=
  folder_id <- call_create_page dry_run IndexSite title body parent_id ;;
  if truthy folder_id then recurse d (shown folder_id) title else ret tt.

Fixpoint upload_directory (fuel : nat) (dry_run : bool) (dir : node)
    (parent_id title_prefix : string) (depth : nat) : M unit :=
  match fuel with
  | 0 => fun _ => OutOfFuel
  | S fuel' =>
      emit (Visit dir) ;;
      print (LDir depth (node_name dir)) ;;
      let entries := sorted (dir_entries dir) in
      let dirs := filter visible_dir entries in
      let files := filter md_file entries in
      for_ files (upload_file dry_run (LFile depth) parent_id title_prefix) ;;
      for_ dirs (fun d =>
        let sub_prefix := title_prefix ++ " / " ++ node_name d in
        let body := "<p>Index page for <strong>" ++ node_name d ++ "</strong>.</p>" in
        upload_subdir dry_run
          (fun sub folder_id prefix =>
             upload_directory fuel' dry_run sub folder_id prefix (S depth))
          sub_prefix body parent_id d ;;
        emit Sleep)
  end.

(** *** The entry point (lines 40-49 and 212-293) *)

Definition get_auth : M (string * string) :=
  let email := environ_email X in
  let token := environ_token X in
  if negb (truthy email) || negb (truthy token) then
    print LAuthError ;;
    sys_exit 1%Z
  else ret (shown email, shown token).

(** Lines 263-291 of [main]: the entries of the source directory, below the
    root page. *)
Definition upload_tree (dry_run : bool) (root : node)
    (root_id root_title : string) : M unit :=
  emit (Visit root) ;;
  let top_dirs := sorted (filter visible_dir (dir_entries root)) in
  let top_files := sorted (filter md_file (dir_entries root)) in
  for_ top_files (upload_file dry_run LTopFile root_id root_title) ;;
  for_ top_dirs (fun d =>
    let folder_body := "<p>Artefacts for <strong>" ++ node_name d ++ "</strong>.</p>" in
    upload_subdir dry_run
      (fun sub folder_id prefix =>
         upload_directory (height sub) dry_run sub folder_id prefix 1)
      (node_name d) folder_body root_id d).

(** Extracting the source directory and the root title is shared with the
    statements below. *)
Definition source_dir (a : args) : option node :=
  match fs_lookup X (shown (arg_dir a)) with
  | Some (Dir name listing) => Some (Dir name listing)
  | _ => None
  end.

Definition root_title_of (a : args) (root : node) : string :=
  py_or (arg_root_title a) (py_title (node_name root)).

(** Lines 225-293 of [main]: the run of a command line that the parser has
    turned into the namespace [a]. *)
Definition run (a : args) : M unit :=
  auth <- get_auth ;;
  update_stats (fun _ => no_stats) ;;
  print LBanner ;;
  (if arg_dry_run a then print LDryRunMode else ret tt) ;;
  if truthy (arg_delete a) then
    print (LDeleting (shown (arg_delete a))) ;;
    print LBanner ;;
    delete_page (arg_dry_run a) (shown (arg_delete a)) ;;
    print_stats
  else if negb (truthy (arg_dir a)) then
    print LUsage ;;
    sys_exit 2%Z
  else
    match source_dir a with
    | None =>
        print (LNotADirectory (shown (arg_dir a))) ;;
        sys_exit 1%Z
    | Some root =>
        let root_title := root_title_of a root in
        print (LUploading (shown (arg_dir a))) ;;
        print (LTarget (arg_instance a) (arg_space a) (arg_parent_id a)) ;;
        print (LRootPage root_title) ;;
        print LBanner ;;
        let root_body := "<p>Root page for <strong>" ++ root_title ++ "</strong>.</p>" in
        root_id <- call_create_page (arg_dry_run a) RootSite root_title root_body
                     (arg_parent_id a) ;;
        if negb (truthy root_id) then
          print LAbort ;;
          sys_exit 1%Z
        else
          upload_tree (arg_dry_run a) root (shown root_id) root_title ;;
          print_stats
    end.

(** [main] (lines 212-293). *)
Definition main (c : command_line) : M unit :=
  a <- parse_args c ;;
  run a.

(** *** What the statements speak about *)

(** The answer of a lookup made in state [s]: the id of the first page that
    carries the title, if the search is answered 200. *)
Definition first_with_title (title : string) (pages : list page) : option string :=
  match find (fun r => String.eqb (page_title r) title) pages with
  | Some r => Some (page_id r)
  | None => None
  end.

Definition lookup (s : state) (title : string) : option string :=
  if (get_status X (st_clock s) title =? 200)%Z
  then first_with_title title (st_pages s) else None.

(** The titles a walk attempts when no subtree is pruned, in the order of
    the walk. *)
Definition leaf_title (title_prefix : string) (f : node) : string :=
  title_prefix ++ " - " ++ pretty_title (stem (node_name f)).

Definition index_title (title_prefix : string) (d : node) : string :=
  title_prefix ++ " / " ++ node_name d.

Fixpoint plan (fuel : nat) (dir : node) (title_prefix : string) : list string :=
  match fuel with
  | 0 => []
  | S fuel' =>
      let entries := sorted (dir_entries dir) in
      map (leaf_title title_prefix) (filter md_file entries) ++
      flat_map (fun d => index_title title_prefix d
                         :: plan fuel' d (index_title title_prefix d))
               (filter visible_dir entries)
  end.

Definition plan_tree (root : node) (root_title : string) : list string :=
  map (leaf_title root_title) (sorted (filter md_file (dir_entries root))) ++
  flat_map (fun d => node_name d :: plan (height d) d (node_name d))
           (sorted (filter visible_dir (dir_entries root))).

Definition plan_main (a : args) (root : node) : list string :=
  root_title_of a root :: plan_tree root (root_title_of a root).

(** The four ways a call of [create_page] ends. *)
Inductive create_outcome (dry_run : bool) (t b p : string) (s : state)
  : option string -> state -> Prop :=
| co_skipped id :
    lookup s t = Some id -> nonempty id = true ->
    create_outcome dry_run t b p s (Some id)
      (mkState (incr_skipped (st_stats s)) (st_pages s) (S (st_clock s))
               (Print (LExists t id) :: HttpGet t :: st_trace s))
| co_simulated :
    truthy (lookup s t) = false -> dry_run = true ->
    create_outcome dry_run t b p s (Some "dry-run-id")
      (mkState (incr_created (st_stats s)) (st_pages s) (S (st_clock s))
               (Print (LWouldCreate t p) :: HttpGet t :: st_trace s))
| co_created :
    truthy (lookup s t) = false -> dry_run = false ->
    created_status (post_status X (S (st_clock s)) t) = true ->
    create_outcome dry_run t b p s (Some (new_id X (S (st_clock s))))
      (mkState (incr_created (st_stats s))
               (st_pages s ++ [mkPage (new_id X (S (st_clock s))) t p])
               (S (S (st_clock s)))
               (Print (LCreated t (new_id X (S (st_clock s))))
                :: HttpPost t p b :: HttpGet t :: st_trace s))
| co_failed :
    truthy (lookup s t) = false -> dry_run = false ->
    created_status (post_status X (S (st_clock s)) t) = false ->
    create_outcome dry_run t b p s None
      (mkState (incr_failed (st_stats s)) (st_pages s) (S (S (st_clock s)))
               (Print (LFailed t (post_status X (S (st_clock s)) t))
                :: HttpPost t p b :: HttpGet t :: st_trace s)).

(** The state after one more event. *)
Definition emitted (e : event) (s : state) : state :=
  mkState (st_stats s) (st_pages s) (st_clock s) (e :: st_trace s).

(** The states at which [main] reaches its branches: after the client is
    built (line 230), before [delete_page] (line 236) and before the root
    page is created (line 258). *)
Definition has_auth : bool :=
  truthy (environ_email X) && truthy (environ_token X).

Definition after_startup (a : args) (s : state) : state :=
  mkState no_stats (st_pages s) (st_clock s)
    ((if arg_dry_run a then [Print LDryRunMode] else []) ++
     Print LBanner :: st_trace s).

Definition before_delete (a : args) (s : state) : state :=
  emitted (Print LBanner)
    (emitted (Print (LDeleting (shown (arg_delete a)))) (after_startup a s)).

Definition before_root (a : args) (root : node) (s : state) : state :=
  emitted (Print LBanner)
    (emitted (Print (LRootPage (root_title_of a root)))
       (emitted (Print (LTarget (arg_instance a) (arg_space a) (arg_parent_id a)))
          (emitted (Print (LUploading (shown (arg_dir a)))) (after_startup a s)))).

Definition root_body (a : args) (root : node) : string :=
  "<p>Root page for <strong>" ++ root_title_of a root ++ "</strong>.</p>".

(** The call that creates the root page, as [main] makes it. *)
Definition create_root (a : args) (root : node) (s : state) : outcome (option string) :=
  call_create_page (arg_dry_run a) RootSite (root_title_of a root)
    (root_body a root) (arg_parent_id a) (before_root a root s).



End Program.

(* ------------------------------------------------------------------ *)
(** ** Reading a trace *)

Definition is_call (e : event) : bool :=
  match e with Call _ _ _ _ => true | _ => false end.

Definition is_leaf_call (e : event) : bool :=
  match e with Call LeafSite _ _ _ => true | _ => false end.

(** A call for a root or index page that came back with an id. *)
Definition is_dir_call_ok (e : event) : bool :=
  match e with
  | Call RootSite _ _ r => truthy r
  | Call IndexSite _ _ r => truthy r
  | _ => false
  end.

Definition is_visit (e : event) : bool :=
  match e with Visit _ => true | _ => false end.

(** Requests that change the remote space. *)
Definition is_mutating (e : event) : bool :=
  match e with
  | HttpPost _ _ _ => true
  | HttpDelete _ => true
  | _ => false
  end.

Definition count (p : event -> bool) (tr : list event) : nat :=
  List.length (filter p tr).

Definition md_count (dir : node) : nat :=
  List.length (filter md_file (dir_entries dir)).

(** The markdown files of the directories visited in a trace. *)
Fixpoint visited_md (tr : list event) : nat :=
  match tr with
  | [] => 0
  | Visit dir :: r => md_count dir + visited_md r
  | _ :: r => visited_md r
  end.

(** Events the walker emits itself, between calls of [create_page]. *)
Definition walker_event (e : event) : bool :=
  match e with
  | Visit _ => true
  | Sleep => true
  | Print (LDir _ _) => true
  | Print (LFile _ _) => true
  | Print (LTopFile _) => true
  | _ => false
  end.

Definition attempts (t : stats) : nat := created t + skipped t + failed t.

(** [s'] was reached from [s] by the events [new], newest first. *)
Definition since (s s' : state) (new : list event) : Prop :=
  st_trace s' = (new ++ st_trace s)%list.

Definition stats_le (t t' : stats) : Prop :=
  created t <= created t' /\ skipped t <= skipped t' /\
  failed t <= failed t' /\ deleted t <= deleted t'.

(** Between [s] and [s'] no counter went down, and created + skipped +
    failed gained one per call of [create_page]. *)
Definition counted (s s' : state) : Prop :=
  exists new, since s s' new /\
    attempts (st_stats s') = attempts (st_stats s) + count is_call new /\
    stats_le (st_stats s) (st_stats s').

(** The events between [s] and [s'] hold [l] calls for leaf pages, visits
    of directories with [m] markdown files in all, [v] visits, and [k] calls
    for root or index pages that came back with an id. *)
Definition segment (l m v k : nat) (s s' : state) : Prop :=
  exists new, since s s' new /\
    count is_leaf_call new = l /\ visited_md new = m /\
    count is_visit new = v /\ count is_dir_call_ok new = k.

(** Between [s] and [s'] no request that changes the space was sent, and
    the space is as it was. *)
Definition read_only (s s' : state) : Prop :=
  exists new, since s s' new /\ count is_mutating new = 0 /\
              st_pages s' = st_pages s.

(** The same command line with [--dry-run]. *)
Definition dry_run_of (a : args) : args :=
  mkArgs (arg_instance a) (arg_space a) (arg_parent_id a) (arg_dir a)
         (arg_root_title a) (arg_delete a) true.


Definition is_post (e : event) : bool :=
  match e with HttpPost _ _ _ => true | _ => false end.

Definition is_delete_request (e : event) : bool :=
  match e with HttpDelete _ => true | _ => false end.

Definition is_sleep (e : event) : bool :=
  match e with Sleep => true | _ => false end.

Definition is_tally (e : event) : bool :=
  match e with Print (LResults _ _ _ _) => true | _ => false end.

(** The same command line without [--delete]. *)
Definition without_delete (a : args) : args :=
  mkArgs (arg_instance a) (arg_space a) (arg_parent_id a) (arg_dir a)
         (arg_root_title a) None (arg_dry_run a).

(** Events that a call of [create_page] leaves. *)
Definition create_event (e : event) : bool :=
  match e with
  | HttpGet _ => true
  | HttpPost _ _ _ => true
  | Call _ _ _ _ => true
  | Print (LExists _ _) => true
  | Print (LWouldCreate _ _) => true
  | Print (LCreated _ _) => true
  | Print (LFailed _ _) => true
  | _ => false
  end.

(** Lines that [main] prints itself in upload mode, before the tally. *)
Definition entry_event (e : event) : bool :=
  match e with
  | Print LBanner => true
  | Print LDryRunMode => true
  | Print LUsage => true
  | Print (LNotADirectory _) => true
  | Print (LUploading _) => true
  | Print (LTarget _ _ _) => true
  | Print (LRootPage _) => true
  | Print LAbort => true
  | _ => false
  end.

(** Between [s] and [s'] no event of the kind [p] occurred. *)
Definition never (p : event -> bool) (s s' : state) : Prop :=
  exists new, since s s' new /\ count p new = 0.

(** Between [s] and [s'] pages were at most added, at the end. *)
Definition appended (s s' : state) : Prop :=
  exists extra, st_pages s' = (st_pages s ++ extra)%list.

(** The visible subdirectories of a directory. *)
Definition subdir_count (dir : node) : nat :=
  List.length (filter visible_dir (dir_entries dir)).

(** Between [s] and [s'] there were [k] more calls of [create_page] than
    pauses. *)
Definition paced (k : nat) (s s' : state) : Prop :=
  exists new, since s s' new /\ count is_call new = count is_sleep new + k.

(** Characters of a string: whether one occurs, and mapping over them. *)
Fixpoint contains (c : ascii) (s : string) : bool :=
  match s with
  | EmptyString => false
  | String d r => Ascii.eqb d c || contains c r
  end.

Fixpoint string_map (f : ascii -> ascii) (s : string) : string :=
  match s with
  | EmptyString => EmptyString
  | String c r => String (f c) (string_map f r)
  end.

(** [s.isascii()]: every character is below 128.  On such strings the
    case mapping above is Python's. *)
Fixpoint isascii (s : string) : bool :=
  match s with
  | EmptyString => true
  | String c r => (code c <? 128) && isascii r
  end.

(** Title-casing as the specification words it, read off the alphabet one
    character at a time.  An underscore or a hyphen gives a blank.  A letter
    gives its capital when it starts a word (no character stands before it,
    or the character before it is not a letter) and its small letter inside
    a word.  Every other character stays as it is. *)
Definition small_letters : string := "abcdefghijklmnopqrstuvwxyz".
Definition capital_letters : string := "ABCDEFGHIJKLMNOPQRSTUVWXYZ".




Definition is_letter (c : ascii) : bool :=
  contains c small_letters || contains c capital_letters.




(** A create request with a body that is not blank; other events pass. *)
Definition body_not_blank (e : event) : Prop :=
  match e with
  | HttpPost _ _ b => all_space b = false
  | _ => True
  end.

Definition bodies_not_blank (s s' : state) : Prop :=
  exists new, since s s' new /\ Forall body_not_blank new.

(* ------------------------------------------------------------------ *)
(** The calls of [create_page] and the visits in a trace, oldest first. *)
Definition is_step (e : event) : bool :=
  match e with
  | Call _ _ _ _ => true
  | Visit _ => true
  | _ => false
  end.

Definition steps (new : list event) : list event := filter is_step (rev new).

(** A call of [create_page] that came back with [None]. *)
Definition is_failed_call (e : event) : bool :=
  match e with Call _ _ _ None => true | _ => false end.

(** What a walk is to look like, told by its calls and visits.

    [leaves parent prefix fs l]: [l] holds one call for a leaf page for each
    file of [fs], in the order of [fs], below [parent].

    [walk dir parent prefix l]: [l] starts with the visit of [dir], goes on
    with the leaves of its markdown files in the order of their names, and
    ends with its visible subdirectories in the order of their names.

    [subdirs parent title ds l]: for each directory of [ds], in the order
    of [ds], [l] holds one call for its index page below [parent]; when the
    call came back without an id, the next directory follows at once; when
    it came back with an id, the walk of the directory below that id comes
    first. *)
Inductive leaves (parent prefix : string) : list node -> list event -> Prop :=
| leaves_nil : leaves parent prefix [] []
| leaves_cons f fs r l :
    leaves parent prefix fs l ->
    leaves parent prefix (f :: fs)
      (Call LeafSite (leaf_title prefix f) parent r :: l).

Inductive walk : node -> string -> string -> list event -> Prop :=
| walk_dir dir parent prefix lf ld :
    leaves parent prefix (filter md_file (sorted (dir_entries dir))) lf ->
    subdirs parent (index_title prefix)
      (filter visible_dir (sorted (dir_entries dir))) ld ->
    walk dir parent prefix (Visit dir :: lf ++ ld)
with subdirs : string -> (node -> string) -> list node -> list event -> Prop :=
| subdirs_nil parent title : subdirs parent title [] []
| subdirs_pruned parent title d ds r l :
    truthy r = false ->
    subdirs parent title ds l ->
    subdirs parent title (d :: ds) (Call IndexSite (title d) parent r :: l)
| subdirs_entered parent title d ds r w l :
    truthy r = true ->
    walk d (shown r) (title d) w ->
    subdirs parent title ds l ->
    subdirs parent title (d :: ds)
      (Call IndexSite (title d) parent r :: w ++ l).

(** Between [s] and [s'] the counter "failed" gained one for every call of
    [create_page] that came back with [None]. *)
Definition failures_counted (s s' : state) : Prop :=
  exists new, since s s' new /\
    failed (st_stats s') = failed (st_stats s) + count is_failed_call new.

(** The calls and visits of an upload whose root page came back as [r]:
    the call for the root page and, if it has an id, the source directory
    below it, its subdirectories under their own names. *)
Definition upload_steps (a : args) (root : node) (r : option string)
    (l : list event) : Prop :=
  if truthy r then
    exists lf ld,
      l = (Call RootSite (root_title_of a root) (arg_parent_id a) r
           :: Visit root :: lf ++ ld)%list /\
      leaves (shown r) (root_title_of a root)
        (sorted (filter md_file (dir_entries root))) lf /\
      subdirs (shown r) node_name
        (sorted (filter visible_dir (dir_entries root))) ld
  else l = [Call RootSite (root_title_of a root) (arg_parent_id a) r].

(** ** Walks without pruning *)

Section Walks.

Variable X : externals.

(** A walk in which no subtree is pruned, seen as the sequence of its calls
    of [create_page]: from [s] to [s'] the titles [ts] are attempted in
    order, every call comes back with an id, and between the calls only
    events of the walker's own occur. *)
Inductive chain (dry_run : bool) : list string -> state -> state -> Prop :=
| chain_nil s : chain dry_run [] s s
| chain_quiet e ts s s' :
    walker_event e = true -> chain dry_run ts (emitted e s) s' ->
    chain dry_run ts s s'
| chain_call t ts from b p s r s1 s' :
    call_create_page X dry_run from t b p s = Ret r s1 -> truthy r = true ->
    chain dry_run ts s1 s' ->
    chain dry_run (t :: ts) s s'.

(** What a block of the program does when every call in it comes back with
    an id: run from a state that satisfies [Inv], with titles among [T], and
    ending so that [Good] holds between start and end, the block is a chain
    over [ts] and keeps [Inv]. *)
Definition unpruned (dry_run : bool) (Inv : state -> Prop)
    (Good : state -> state -> Prop) (T ts : list string) (m : M unit) : Prop :=
  forall s s', incl ts T -> Inv s -> m s = Ret tt s' -> Good s s' ->
    chain dry_run ts s s' /\ Inv s'.

(** Every page of the space has an id that Python takes for true. *)
Definition ids_nonempty (pages : list page) : Prop :=
  Forall (fun p => nonempty (page_id p) = true) pages.

Definition titles (pages : list page) : list string := map page_title pages.

Definition has_title (pages : list page) (t : string) : bool :=
  existsb (String.eqb t) (titles pages).

(** The titles of a list that the space does not hold yet. *)
Definition missing (pages : list page) (ts : list string) : nat :=
  List.length (filter (fun t => negb (has_title pages t)) ts).

End Walks.

(* ------------------------------------------------------------------ *)
(** ** Exceptions

    The program catches no exception but the one of the failure branch of
    [create_page] (lines 112-115).  An exception that an operation on the
    outside raises (a request that gets no answer, an answer that is not
    the JSON the client reads, a file that is not UTF-8 text, a directory
    that cannot be listed, a line that cannot be written) ends the process
    where it stands, with a traceback and exit status 1.

    [Raising] is the program once more, with this outcome: every operation
    on the outside first asks [raises] whether it raises in the state in
    which it is attempted.  With a [raises] that never answers yes it is the
    program of the section above. *)

Inductive operation :=
| OpGet (title : string)
| OpPost (title parent body : string)
| OpDelete (id : string)
| OpDecode (status : Z)
| OpRead (f : node)
| OpList (d : node)
| OpPrint (l : line).

(** An uncaught exception: the traceback, and exit status 1. *)
Definition crash {A} : M A :=
  fun s => Exit 1%Z (emitted (Print LTraceback) s).

(** A run that an uncaught exception ended. *)
Definition crashed {A} (o : outcome A) : bool :=
  match o with
  | Exit c s =>
      (c =? 1)%Z &&
      match st_trace s with
      | Print LTraceback :: _ => true
      | _ => false
      end
  | _ => false
  end.

Module Raising.

Section Program.

Variable X : externals.
Variable raises : state -> operation -> bool.

(** Asked before an operation: does it raise here? *)
Definition guard (op : operation) : M unit :=
  fun s => if raises s op then crash s else Ret tt s.

(** [print]: writing to the console may raise. *)
Definition print (l : line) : M unit :=
  guard (OpPrint l) ;; emit (Print l).

(** [requests.get], [requests.post] and [requests.delete] (lines 67, 99
    and 130) raise when the request gets no answer. *)
Definition http_get (title : string) : M (Z * list page) :=
  guard (OpGet title) ;; http_get X title.

Definition http_post (title body parent : string) : M (Z * page) :=
  guard (OpPost title parent body) ;; http_post X title body parent.

Definition http_delete (id : string) : M Z :=
  guard (OpDelete id) ;; http_delete X id.

(** *** The client (lines 56-147)

    [OpDecode] stands for [resp.json()] and the fields read from it, at
    lines 69-71 and 106-109; the same in the failure branch (line 113) is
    inside [try]. *)

Definition find_page (title : string) : M (option string) :=
  resp <- http_get title ;;
  if (fst resp =? 200)%Z then
    guard (OpDecode (fst resp)) ;;
    ret (match find (fun r => String.eqb (page_title r) title) (snd resp) with
         | Some r => Some (page_id r)
         | None => None
         end)
  else ret None.

Definition create_page (dry_run : bool) (title body_html parent_id : string)
  : M (option string) :=
  existing <- find_page title ;;
  if truthy existing then
    print (LExists title (shown existing)) ;;
    update_stats incr_skipped ;;
    ret existing
  else if dry_run then
    print (LWouldCreate title parent_id) ;;
    update_stats incr_created ;;
    ret (Some "dry-run-id")
  else
    resp <- http_post title body_html parent_id ;;
    if created_status (fst resp) then
      guard (OpDecode (fst resp)) ;;
      print (LCreated (page_title (snd resp)) (page_id (snd resp))) ;;
      update_stats incr_created ;;
      ret (Some (page_id (snd resp)))
    else
      print (LFailed title (fst resp)) ;;
      update_stats incr_failed ;;
      ret None.

Definition delete_page (dry_run : bool) (title : string) : M bool :=
  page_id <- find_page title ;;
  if negb (truthy page_id) then
    print (LNotFound title) ;;
    ret false
  else
    let id := shown page_id in
    if dry_run then
      print (LWouldDelete title id) ;;
      ret true
    else
      status <- http_delete id ;;
      if deleted_status status then
        print (LDeleted title id) ;;
        update_stats incr_deleted ;;
        ret true
      else
        print (LDeleteFailed title status) ;;
        ret false.

Definition print_stats : M unit :=
  fun s =>
    let t := st_stats s in
    print (LResults (created t) (skipped t) (failed t)
                    (if deleted t =? 0 then None else Some (deleted t))) s.

(** *** The directory walker (lines 170-205)

    [OpRead] stands for [open] and [fh.read()] at lines 192-193 and
    279-280, [OpList] for [os.listdir] at lines 181 and 265-270. *)

Definition call_create_page (dry_run : bool) (from : site)
    (title body parent_id : string) : M (option string) :=
  r <- create_page dry_run title body parent_id ;;
  emit (Call from title parent_id r) ;;
  ret r.

Definition upload_file (dry_run : bool) (announce : string -> line)
    (parent_id title_prefix : string) (f : node) : M unit :=
  let readable := pretty_title (stem (node_name f)) in
  let title := title_prefix ++ " - " ++ readable in
  print (announce (node_name f)) ;;
  guard (OpRead f) ;;
  let body := md_to_storage X (file_content f) in
  call_create_page dry_run LeafSite title body parent_id ;;
  emit Sleep.

Definition upload_subdir (dry_run : bool)
    (recurse : node -> string -> string -> M unit)
    (title body parent_id : string) (d : node) : M unit :=
  folder_id <- call_create_page dry_run IndexSite title body parent_id ;;
  if truthy folder_id then recurse d (shown folder_id) title else ret tt.

Fixpoint upload_directory (fuel : nat) (dry_run : bool) (dir : node)
    (parent_id title_prefix : string) (depth : nat) : M unit :=
  match fuel with
  | 0 => fun _ => OutOfFuel
  | S fuel' =>
      emit (Visit dir) ;;
      print (LDir depth (node_name dir)) ;;
      guard (OpList dir) ;;
      let entries := sorted (dir_entries dir) in
      let dirs := filter visible_dir entries in
      let files := filter md_file entries in
      for_ files (upload_file dry_run (LFile depth) parent_id title_prefix) ;;
      for_ dirs (fun d =>
        let sub_prefix := title_prefix ++ " / " ++ node_name d in
        let body := "<p>Index page for <strong>" ++ node_name d ++ "</strong>.</p>" in
        upload_subdir dry_run
          (fun sub folder_id prefix =>
             upload_directory fuel' dry_run sub folder_id prefix (S depth))
          sub_prefix body parent_id d ;;
        emit Sleep)
  end.

(** *** The entry point (lines 40-49 and 212-293) *)

Definition get_auth : M (string * string) :=
  let email := environ_email X in
  let token := environ_token X in
  if negb (truthy email) || negb (truthy token) then
    print LAuthError ;;
    sys_exit 1%Z
  else ret (shown email, shown token).

Definition upload_tree (dry_run : bool) (root : node)
    (root_id root_title : string) : M unit :=
  emit (Visit root) ;;
  guard (OpList root) ;;
  let top_dirs := sorted (filter visible_dir (dir_entries root)) in
  let top_files := sorted (filter md_file (dir_entries root)) in
  for_ top_files (upload_file dry_run LTopFile root_id root_title) ;;
  for_ top_dirs (fun d =>
    let folder_body := "<p>Artefacts for <strong>" ++ node_name d ++ "</strong>.</p>" in
    upload_subdir dry_run
      (fun sub folder_id prefix =>
         upload_directory (height sub) dry_run sub folder_id prefix 1)
      (node_name d) folder_body root_id d).

Definition run (a : args) : M unit :=
  auth <- get_auth ;;
  update_stats (fun _ => no_stats) ;;
  print LBanner ;;
  (if arg_dry_run a then print LDryRunMode else ret tt) ;;
  if truthy (arg_delete a) then
    print (LDeleting (shown (arg_delete a))) ;;
    print LBanner ;;
    delete_page (arg_dry_run a) (shown (arg_delete a)) ;;
    print_stats
  else if negb (truthy (arg_dir a)) then
    emit (Print LUsage) ;;
    sys_exit 2%Z
  else
    match source_dir X a with
    | None =>
        print (LNotADirectory (shown (arg_dir a))) ;;
        sys_exit 1%Z
    | Some root =>
        let root_title := root_title_of a root in
        print (LUploading (shown (arg_dir a))) ;;
        print (LTarget (arg_instance a) (arg_space a) (arg_parent_id a)) ;;
        print (LRootPage root_title) ;;
        print LBanner ;;
        let root_body := "<p>Root page for <strong>" ++ root_title ++ "</strong>.</p>" in
        root_id <- call_create_page (arg_dry_run a) RootSite root_title root_body
                     (arg_parent_id a) ;;
        if negb (truthy root_id) then
          print LAbort ;;
          sys_exit 1%Z
        else
          upload_tree (arg_dry_run a) root (shown root_id) root_title ;;
          print_stats
    end.

Definition main (c : command_line) : M unit :=
  a <- parse_args c ;;
  run a.

End Program.

End Raising.

(** An operation never raises. *)
Definition never_raises : state -> operation -> bool := fun _ _ => false.

(** C2 as the specification states it, of a run that started in [s] and
    ended as [o]: the calls made for the content of a file are as many as
    the [.md] files of the directories visited. *)
Definition leaf_attempts_equal_visited_files (s : state) (o : outcome unit)
  : Prop :=
  forall s' new,
    final_state o = Some s' -> since s s' new ->
    count is_leaf_call new = visited_md new.

(** [m_r] does what [m] does, unless an uncaught exception ends it. *)
Definition follows {A} (m_r m : M A) : Prop :=
  forall s, m_r s = m s \/ crashed (m_r s) = true.

(* ------------------------------------------------------------------ *)
(** ** Sample data

    A service that answers every search with 200, every create with [post]
    and every delete with [del], and numbers its pages; the identity stands
    for the [markdown] package; both secrets are set and the source
    directory is found under its own name. *)

Definition decimal (n : nat) : string := NilEmpty.string_of_uint (Nat.to_uint n).

Definition sample_externals (post del : Z) (root : node) : externals :=
  mkExternals (fun _ _ => 200%Z) (fun _ _ => post) (fun _ _ => del)
    (fun n => "p" ++ decimal n) (fun md => md)
    (Some "me@example.com") (Some "token")
    (fun path => if String.eqb path (node_name root) then Some root else None).

(** The directory [docs/] with [intro.md] and [guides/setup.md]. *)
Definition docs_tree (intro setup : string) : node :=
  Dir "docs" [File "intro.md" intro; Dir "guides" [File "setup.md" setup]].

Definition sample_docs : node := docs_tree "# Intro" "Setup".

Definition sample_args (dir delete : option string) (dry_run : bool) : args :=
  mkArgs "example.atlassian.net" "PM" "71499794" dir None delete dry_run.

Definition fresh : state := mkState no_stats [] 0 [].

Definition with_pages (pages : list page) : state := mkState no_stats pages 0 [].

(** A directory in which two file names yield one title. *)
Definition sample_twins : node :=
  Dir "docs" [File "a_b.md" "one"; File "a-b.md" "two"].

Definition accepting : externals := sample_externals 201 204 sample_docs.

Definition refusing : externals := sample_externals 500 500 sample_docs.

Definition accepting_twins : externals := sample_externals 201 204 sample_twins.

Definition upload_docs : args := sample_args (Some "docs") None false.

Definition delete_artefacts : args := sample_args None (Some "Artefacts") false.

Definition artefacts_page : page := mkPage "p1" "Artefacts" "71499794".

(** A service whose search is out of order, and a process without a token. *)
Definition search_down : externals :=
  mkExternals (fun _ _ => 503%Z) (fun _ _ => 201%Z) (fun _ _ => 204%Z)
    (fun n => "p" ++ decimal n) (fun md => md)
    (Some "me@example.com") (Some "token")
    (fun path => if String.eqb path "docs" then Some sample_docs else None).

Definition empty_token : externals :=
  mkExternals (fun _ _ => 200%Z) (fun _ _ => 201%Z) (fun _ _ => 204%Z)
    (fun n => "p" ++ decimal n) (fun md => md)
    (Some "me@example.com") (Some "")
    (fun path => if String.eqb path "docs" then Some sample_docs else None).

Definition docs_page : page := mkPage "p1" "Docs" "71499794".



(** Three documents in one directory, and a process in which the file
    [b.md], respectively [x.md], cannot be read as UTF-8 text. *)
Definition sample_trio : node :=
  Dir "docs" [File "a.md" "one"; File "b.md" "two"; File "c.md" "three"].

Definition accepting_trio : externals := sample_externals 201 204 sample_trio.

Definition unreadable (name : string) : state -> operation -> bool :=
  fun _ op =>
    match op with
    | OpRead f => String.eqb (node_name f) name
    | _ => false
    end.

(** A tree with two levels of subdirectories and a hidden directory, and a
    service that refuses the index pages of [notes] and of [guides/deep]
    and accepts every other page. *)
Definition sample_library : node :=
  Dir "docs"
    [ File "intro.md" "# Intro";
      Dir "guides"
        [ File "setup.md" "Setup";
          Dir "deep" [File "x.md" "x"];
          Dir "more" [File "y.md" "y"] ];
      Dir ".git" [File "config.md" "c"];
      Dir "notes" [File "todo.md" "todo"];
      Dir "zeta" [File "last.md" "z"] ].

Definition picky : externals :=
  mkExternals (fun _ _ => 200%Z)
    (fun _ t =>
       if String.eqb t "notes" || String.eqb t "guides / deep"
       then 500%Z else 201%Z)
    (fun _ _ => 204%Z)
    (fun n => "p" ++ decimal n) (fun md => md)
    (Some "me@example.com") (Some "token")
    (fun path => if String.eqb path "docs" then Some sample_library else None).

(* ------------------------------------------------------------------ *)
(** * Properties *)

Section Facts.

Variable X : externals.

(** ** The monad *)

Lemma bind_ret_inv {A B} (m : M A) (f : A -> M B) s b s' :
  bind m f s = Ret b s' ->
  exists a s1, m s = Ret a s1 /\ f a s1 = Ret b s'.
Proof.
  unfold bind. destruct (m s) as [a s1| |]; try discriminate.
  intros H. exists a, s1. split; [reflexivity | exact H].
Qed.

Lemma bind_ret {A B} (m : M A) (f : A -> M B) s a s1 :
  m s = Ret a s1 -> bind m f s = f a s1.
Proof. unfold bind. intros ->. reflexivity. Qed.

Lemma emit_eq e s : emit e s = Ret tt (emitted e s).
Proof. reflexivity. Qed.

Lemma emit_inv e s u s' : emit e s = Ret u s' -> s' = emitted e s.
Proof. intros [= _ <-]. reflexivity. Qed.

Lemma print_inv l s u s' : print l s = Ret u s' -> s' = emitted (Print l) s.
Proof. apply emit_inv. Qed.

Lemma for_cons_inv {A} (x : A) l body s s' :
  for_ (x :: l) body s = Ret tt s' ->
  exists s1, body x s = Ret tt s1 /\ for_ l body s1 = Ret tt s'.
Proof.
  simpl. intros H. apply bind_ret_inv in H. destruct H as ([] & s1 & H1 & H2).
  exists s1. split; assumption.
Qed.

(** ** Lookup and create *)

Lemma find_filter {A} (f : A -> bool) l : find f (filter f l) = find f l.
Proof.
  induction l as [|x l IH]; simpl; [reflexivity|].
  destruct (f x) eqn:E; simpl; [rewrite E; reflexivity | exact IH].
Qed.

Lemma find_page_eq t s :
  find_page X t s = Ret (lookup X s t) (tick (HttpGet t) (st_pages s) s).
Proof.
  unfold find_page, bind, http_get, lookup, first_with_title. simpl.
  destruct (get_status X (st_clock s) t =? 200)%Z; [|reflexivity].
  unfold ret. rewrite find_filter. reflexivity.
Qed.

Lemma truthy_some o : truthy o = true -> exists id, o = Some id /\ nonempty id = true.
Proof. destruct o as [id|]; simpl; [eauto | discriminate]. Qed.

Lemma create_page_spec dry t b p s :
  exists r s', create_page X dry t b p s = Ret r s' /\
               create_outcome X dry t b p s r s'.
Proof.
  unfold create_page. rewrite (bind_ret _ _ _ _ _ (find_page_eq t s)).
  destruct (truthy (lookup X s t)) eqn:Ht.
  - destruct (truthy_some _ Ht) as (id & E & Hid). rewrite E.
    eexists _, _. split; [reflexivity|]. simpl. now apply co_skipped.
  - destruct dry.
    + eexists _, _. split; [reflexivity|]. now apply co_simulated.
    + unfold bind at 1. unfold http_post. cbn [fst snd st_clock tick].
      destruct (created_status (post_status X (S (st_clock s)) t)) eqn:Hs.
      * eexists _, _. split; [reflexivity|]. cbn. now apply co_created.
      * eexists _, _. split; [reflexivity|]. cbn. now apply co_failed.
Qed.

Lemma create_page_inv dry t b p s r s' :
  create_page X dry t b p s = Ret r s' -> create_outcome X dry t b p s r s'.
Proof.
  destruct (create_page_spec dry t b p s) as (r0 & s0 & E & H).
  rewrite E. intros [= <- <-]. exact H.
Qed.

Lemma call_create_page_inv dry site t b p s r s' :
  call_create_page X dry site t b p s = Ret r s' ->
  exists s1, create_outcome X dry t b p s r s1 /\
             s' = emitted (Call site t p r) s1.
Proof.
  unfold call_create_page. intros H.
  apply bind_ret_inv in H. destruct H as (r0 & s1 & H1 & H2).
  cbn in H2. injection H2 as <- <-.
  exists s1. split; [now apply create_page_inv | reflexivity].
Qed.

Lemma call_create_page_total dry site t b p s :
  exists r s', call_create_page X dry site t b p s = Ret r s'.
Proof.
  destruct (create_page_spec dry t b p s) as (r & s1 & E & _).
  unfold call_create_page. rewrite (bind_ret _ _ _ _ _ E). cbn. eauto.
Qed.

(** ** Deleting *)

Lemma delete_page_cases dry title s :
  let s1 := tick (HttpGet title) (st_pages s) s in
  let found := lookup X s title in
  delete_page X dry title s =
    if negb (truthy found) then Ret false (emitted (Print (LNotFound title)) s1)
    else if dry then Ret true (emitted (Print (LWouldDelete title (shown found))) s1)
    else
      let status := delete_status X (S (st_clock s)) (shown found) in
      let s2 := tick (HttpDelete (shown found))
                     (if deleted_status status
                      then remove_tree (shown found) (st_pages s) else st_pages s)
                     s1 in
      if deleted_status status
      then Ret true
             (mkState (incr_deleted (st_stats s)) (st_pages s2) (st_clock s2)
                      (Print (LDeleted title (shown found)) :: st_trace s2))
      else Ret false (emitted (Print (LDeleteFailed title status)) s2).
Proof.
  cbv zeta. unfold delete_page.
  rewrite (bind_ret _ _ _ _ _ (find_page_eq title s)).
  destruct (negb (truthy (lookup X s title))); [reflexivity|].
  destruct dry; [reflexivity|].
  unfold bind at 1. unfold http_delete. cbn [st_clock st_pages tick].
  destruct (deleted_status _); reflexivity.
Qed.

(** ** The branches of [main] *)

Lemma run_no_auth a s :
  has_auth X = false -> run X a s = Exit 1%Z (emitted (Print LAuthError) s).
Proof.
  unfold has_auth, run, get_auth. intros H.
  apply andb_false_iff in H.
  assert (E : negb (truthy (environ_email X)) || negb (truthy (environ_token X)) = true)
    by (destruct H as [-> | ->]; [reflexivity | apply orb_true_r]).
  unfold bind at 1. rewrite E. reflexivity.
Qed.

Lemma run_startup a s :
  has_auth X = true ->
  run X a s =
    (if truthy (arg_delete a) then
       fun s1 => (delete_page X (arg_dry_run a) (shown (arg_delete a)) ;; print_stats)
                   (emitted (Print LBanner)
                      (emitted (Print (LDeleting (shown (arg_delete a)))) s1))
     else if negb (truthy (arg_dir a)) then
       fun s1 => Exit 2%Z (emitted (Print LUsage) s1)
     else
       match source_dir X a with
       | None => fun s1 =>
           Exit 1%Z (emitted (Print (LNotADirectory (shown (arg_dir a)))) s1)
       | Some root => fun _ =>
           match create_root X a root s with
           | Ret root_id s2 =>
               if negb (truthy root_id) then Exit 1%Z (emitted (Print LAbort) s2)
               else (upload_tree X (arg_dry_run a) root (shown root_id)
                       (root_title_of a root) ;; print_stats) s2
           | Exit c s2 => Exit c s2
           | OutOfFuel => OutOfFuel
           end
       end) (after_startup a s).
Proof.
  unfold has_auth, run, get_auth. intros H.
  apply andb_true_iff in H. destruct H as [H1 H2].
  unfold bind at 1. rewrite H1, H2. cbn [negb orb ret].
  unfold create_root, before_root, root_body, after_startup, emitted.
  destruct (arg_dry_run a) eqn:Hd.
  - destruct (truthy (arg_delete a)); [reflexivity|].
    destruct (negb (truthy (arg_dir a))); [reflexivity|].
    destruct (source_dir X a) as [root|]; [|reflexivity].
    cbn [bind ret update_stats print emit app st_stats st_pages st_clock st_trace].
    unfold bind at 1.
    destruct (call_create_page _ _ _ _ _ _ _) as [r s2| |]; try reflexivity.
    destruct (negb (truthy r)); reflexivity.
  - destruct (truthy (arg_delete a)); [reflexivity|].
    destruct (negb (truthy (arg_dir a))); [reflexivity|].
    destruct (source_dir X a) as [root|]; [|reflexivity].
    cbn [bind ret update_stats print emit app st_stats st_pages st_clock st_trace].
    unfold bind at 1.
    destruct (call_create_page _ _ _ _ _ _ _) as [r s2| |]; try reflexivity.
    destruct (negb (truthy r)); reflexivity.
Qed.

Lemma print_stats_eq s :
  print_stats s =
  Ret tt (emitted (Print (LResults (created (st_stats s)) (skipped (st_stats s))
                            (failed (st_stats s))
                            (if deleted (st_stats s) =? 0 then None
                             else Some (deleted (st_stats s))))) s).
Proof. reflexivity. Qed.

(** C8.  When the lookup finds no page, [delete_page] prints the "not
    found" line, returns [False], sends nothing but the lookup and leaves
    the four counters and the space as they were; a delete run in which
    this happens ends normally, with all counters at zero. *)
Theorem delete_page_not_found :
  (forall dry title s r s1,
      find_page X title s = Ret r s1 -> truthy r = false ->
      exists s',
        delete_page X dry title s = Ret false s' /\
        st_stats s' = st_stats s /\ st_pages s' = st_pages s /\
        st_trace s' = Print (LNotFound title) :: HttpGet title :: st_trace s) /\
  (forall a s r s1,
      has_auth X = true -> truthy (arg_delete a) = true ->
      find_page X (shown (arg_delete a)) (before_delete a s) = Ret r s1 ->
      truthy r = false ->
      exists s',
        main X (Parsed a) s = Ret tt s' /\ exit_status (main X (Parsed a) s) = Some 0%Z /\
        st_stats s' = no_stats /\ count is_mutating (st_trace s') = count is_mutating (st_trace s)).
Proof.
  cbv beta iota delta [main parse_args bind ret].
  assert (A : forall dry title s r s1,
      find_page X title s = Ret r s1 -> truthy r = false ->
      delete_page X dry title s =
        Ret false (emitted (Print (LNotFound title)) (tick (HttpGet title) (st_pages s) s))).
  { intros dry title s r s1 Hf Hr. rewrite find_page_eq in Hf.
    injection Hf as <- _. rewrite delete_page_cases. cbv zeta.
    rewrite Hr. reflexivity. }
  split.
  - intros dry title s r s1 Hf Hr. eexists. split; [eapply A; eassumption|].
    repeat split.
  - intros a s r s1 Ha Hd Hf Hr.
    rewrite (run_startup a s Ha), Hd.
    fold (before_delete a s).
    rewrite (bind_ret _ _ _ _ _ (A _ _ _ _ _ Hf Hr)), print_stats_eq.
    eexists. split; [reflexivity|]. split; [reflexivity|].
    split; [reflexivity|].
    cbn. unfold count. unfold after_startup. cbn.
    destruct (arg_dry_run a); reflexivity.
Qed.

(** C9.  When the delete request is answered with a status other than 200
    and 204, [delete_page] returns [False] and changes no counter: the
    failure is not counted as "failed", and the tally printed at the end of
    such a delete run shows zero created, skipped and failed and no deleted
    line. *)
Theorem delete_page_request_fails :
  (forall title s id s1 status s2,
      find_page X title s = Ret (Some id) s1 -> nonempty id = true ->
      http_delete X id s1 = Ret status s2 -> deleted_status status = false ->
      exists s',
        delete_page X false title s = Ret false s' /\
        st_stats s' = st_stats s /\
        failed (st_stats s') = failed (st_stats s) /\
        st_trace s' = Print (LDeleteFailed title status) :: HttpDelete id
                        :: HttpGet title :: st_trace s) /\
  (forall a s id s1 status s2,
      has_auth X = true -> truthy (arg_delete a) = true -> arg_dry_run a = false ->
      find_page X (shown (arg_delete a)) (before_delete a s) = Ret (Some id) s1 ->
      nonempty id = true ->
      http_delete X id s1 = Ret status s2 -> deleted_status status = false ->
      exists s',
        main X (Parsed a) s = Ret tt s' /\ st_stats s' = no_stats /\
        hd_error (st_trace s') = Some (Print (LResults 0 0 0 None))).
Proof.
  cbv beta iota delta [main parse_args bind ret].
  assert (A : forall title s id s1 status s2,
      find_page X title s = Ret (Some id) s1 -> nonempty id = true ->
      http_delete X id s1 = Ret status s2 -> deleted_status status = false ->
      delete_page X false title s =
        Ret false (emitted (Print (LDeleteFailed title status)) s2) /\
      st_stats s2 = st_stats s /\
      st_trace s2 = HttpDelete id :: HttpGet title :: st_trace s).
  { intros title s id s1 status s2 Hf Hid Hd Hs. rewrite find_page_eq in Hf.
    injection Hf as Hl <-. rewrite delete_page_cases. cbv zeta.
    rewrite Hl. cbn [truthy negb shown]. rewrite Hid. cbn [negb].
    unfold http_delete in Hd. cbn [tick st_clock st_pages st_stats st_trace] in Hd.
    injection Hd as Hst <-. rewrite Hst, Hs. repeat split. }
  split.
  - intros title s id s1 status s2 Hf Hid Hd Hs.
    destruct (A _ _ _ _ _ _ Hf Hid Hd Hs) as (E & E1 & E2).
    eexists. split; [exact E|]. cbn. rewrite E1, E2. repeat split.
  - intros a s id s1 status s2 Ha Hdel Hdry Hf Hid Hd Hs.
    destruct (A _ _ _ _ _ _ Hf Hid Hd Hs) as (E & E1 & E2).
    rewrite (run_startup a s Ha), Hdel. fold (before_delete a s).
    rewrite Hdry. rewrite (bind_ret _ _ _ _ _ E), print_stats_eq.
    eexists. split; [reflexivity|]. cbn. rewrite E1. cbn. repeat split.
Qed.

(** ** The walker ends *)

Lemma in_insert_by_name n x l : In x (insert_by_name n l) <-> x = n \/ In x l.
Proof.
  induction l as [|m l IH]; simpl.
  - intuition congruence.
  - destruct (String.leb _ _); simpl; [intuition congruence|].
    rewrite IH. intuition.
Qed.

Lemma in_sorted x l : In x (sorted l) <-> In x l.
Proof.
  induction l as [|n l IH]; simpl; [reflexivity|].
  rewrite in_insert_by_name, IH. intuition congruence.
Qed.

Lemma height_entry d dir : In d (dir_entries dir) -> height d < height dir.
Proof.
  destruct dir as [| name es |]; simpl; try contradiction.
  intros Hin. apply Nat.lt_succ_r.
  assert (H : forall l, In d l -> height d <= list_max (map height l)).
  { induction l as [|x l IH]; simpl; [contradiction|].
    intros [-> | Hl]; [lia | specialize (IH Hl); lia]. }
  now apply H.
Qed.

Lemma visible_dir_entry d dir :
  In d (filter visible_dir (sorted (dir_entries dir))) ->
  is_dir d = true /\ height d < height dir.
Proof.
  rewrite filter_In, in_sorted. intros [Hin Hv]. split.
  - unfold visible_dir in Hv. now apply andb_true_iff in Hv.
  - now apply height_entry.
Qed.

Lemma top_dir_entry d root :
  In d (sorted (filter visible_dir (dir_entries root))) ->
  is_dir d = true /\ height d < height root.
Proof.
  rewrite in_sorted, filter_In. intros [Hin Hv]. split.
  - unfold visible_dir in Hv. now apply andb_true_iff in Hv.
  - now apply height_entry.
Qed.

Lemma for_total {A} (l : list A) body :
  (forall x s, In x l -> exists s', body x s = Ret tt s') ->
  forall s, exists s', for_ l body s = Ret tt s'.
Proof.
  induction l as [|x l IH]; intros Hb s; simpl.
  - eexists. reflexivity.
  - destruct (Hb x s (or_introl eq_refl)) as (s1 & E1).
    destruct (IH (fun y s0 Hy => Hb y s0 (or_intror Hy)) s1) as (s2 & E2).
    exists s2. rewrite (bind_ret _ _ _ _ _ E1). exact E2.
Qed.

Lemma upload_file_total dry announce parent prefix f s :
  exists s', upload_file X dry announce parent prefix f s = Ret tt s'.
Proof.
  unfold upload_file. unfold bind at 1. cbn [print emit].
  match goal with |- context [call_create_page X dry ?a ?b ?c ?d] =>
    destruct (call_create_page_total dry a b c d
                (emitted (Print (announce (node_name f))) s)) as (r & s1 & E) end.
  fold (emitted (Print (announce (node_name f))) s).
  rewrite (bind_ret _ _ _ _ _ E). eexists. reflexivity.
Qed.

Lemma upload_subdir_total dry recurse title body parent d s :
  (forall id prefix s0, exists s', recurse d id prefix s0 = Ret tt s') ->
  exists s', upload_subdir X dry recurse title body parent d s = Ret tt s'.
Proof.
  intros Hr. unfold upload_subdir.
  destruct (call_create_page_total dry IndexSite title body parent s) as (r & s1 & E).
  rewrite (bind_ret _ _ _ _ _ E).
  destruct (truthy r); [apply Hr | eexists; reflexivity].
Qed.

Lemma upload_directory_total fuel : forall dry dir parent prefix depth s,
  is_dir dir = true -> height dir <= fuel ->
  exists s', upload_directory X fuel dry dir parent prefix depth s = Ret tt s'.
Proof.
  induction fuel as [|fuel IH]; intros dry dir parent prefix depth s Hd Hh.
  - destruct dir; simpl in *; try discriminate; lia.
  - cbn [upload_directory]. cbv zeta.
    rewrite (bind_ret _ _ _ _ _ (emit_eq _ _)).
    unfold print. rewrite (bind_ret _ _ _ _ _ (emit_eq _ _)).
    match goal with |- context [bind (for_ ?l ?b) _ ?s0] =>
      destruct (for_total l b (fun x s1 _ =>
        upload_file_total dry (LFile depth) parent prefix x s1) s0) as (s3 & E3) end.
    rewrite (bind_ret _ _ _ _ _ E3).
    apply for_total. intros d s4 Hin.
    apply visible_dir_entry in Hin. destruct Hin as [Hd' Hh'].
    match goal with |- context [bind ?m _ s4] =>
      assert (E : exists s5, m s4 = Ret tt s5) end.
    { apply upload_subdir_total. intros id p s0. apply IH; [assumption | lia]. }
    destruct E as (s5 & E). rewrite (bind_ret _ _ _ _ _ E). eexists. reflexivity.
Qed.

Lemma upload_tree_total dry root root_id root_title s :
  exists s', upload_tree X dry root root_id root_title s = Ret tt s'.
Proof.
  unfold upload_tree. rewrite (bind_ret _ _ _ _ _ (emit_eq _ _)).
  match goal with |- context [bind (for_ ?l ?b) _ ?s0] =>
    destruct (for_total l b (fun x s1 _ =>
      upload_file_total dry LTopFile root_id root_title x s1) s0) as (s3 & E3) end.
  rewrite (bind_ret _ _ _ _ _ E3).
  apply for_total. intros d s4 Hin.
  apply top_dir_entry in Hin. destruct Hin as [Hd' _].
  apply upload_subdir_total. intros id p s0.
  now apply upload_directory_total.
Qed.

(** ** Properties that hold step by step

    A reflexive and transitive relation between states that every event of
    the walker's own and every call of [create_page] respects holds between
    the start and the end of a walk. *)

Section Closure.

Variable dry : bool.
Variable R : state -> state -> Prop.
Hypothesis R_refl : forall s, R s s.
Hypothesis R_trans : forall s1 s2 s3, R s1 s2 -> R s2 s3 -> R s1 s3.
Hypothesis R_emit : forall e s, walker_event e = true -> R s (emitted e s).
Hypothesis R_call : forall site t b p s r s',
  call_create_page X dry site t b p s = Ret r s' -> R s s'.

Lemma R_after e s s' : walker_event e = true -> R (emitted e s) s' -> R s s'.
Proof. intros He H. eapply R_trans; [apply R_emit, He | exact H]. Qed.

Lemma R_before e s s' : walker_event e = true -> R s s' -> R s (emitted e s').
Proof. intros He H. eapply R_trans; [exact H | apply R_emit, He]. Qed.

Lemma for_closed {A} (l : list A) body :
  (forall x s s1, In x l -> body x s = Ret tt s1 -> R s s1) ->
  forall s s', for_ l body s = Ret tt s' -> R s s'.
Proof.
  induction l as [|x l IH]; intros Hb s s' H.
  - injection H as <-. apply R_refl.
  - apply for_cons_inv in H. destruct H as (s1 & H1 & H2).
    eapply R_trans; [eapply Hb; [left; reflexivity | exact H1]|].
    eapply IH; [|exact H2]. intros y s0 s2 Hy. apply Hb. now right.
Qed.

Lemma upload_file_closed announce parent prefix f s s' :
  walker_event (Print (announce (node_name f))) = true ->
  upload_file X dry announce parent prefix f s = Ret tt s' -> R s s'.
Proof.
  intros Ha H. unfold upload_file in H.
  apply bind_ret_inv in H. destruct H as ([] & s1 & H1 & H).
  apply bind_ret_inv in H. destruct H as (r & s2 & H2 & H).
  apply print_inv in H1. apply emit_inv in H. subst s1 s'.
  eapply R_trans; [apply R_emit, Ha|].
  eapply R_trans; [eapply R_call, H2|]. now apply R_emit.
Qed.

Lemma upload_subdir_closed recurse title body parent d s s' :
  (forall id prefix s0 s1, recurse d id prefix s0 = Ret tt s1 -> R s0 s1) ->
  upload_subdir X dry recurse title body parent d s = Ret tt s' -> R s s'.
Proof.
  intros Hr H. unfold upload_subdir in H.
  apply bind_ret_inv in H. destruct H as (r & s1 & H1 & H).
  eapply R_trans; [eapply R_call, H1|].
  destruct (truthy r); [eapply Hr, H | injection H as <-; apply R_refl].
Qed.

Lemma upload_directory_closed fuel : forall dir parent prefix depth s s',
  upload_directory X fuel dry dir parent prefix depth s = Ret tt s' -> R s s'.
Proof.
  induction fuel as [|fuel IH]; intros dir parent prefix depth s s' H.
  - discriminate.
  - cbn [upload_directory] in H. cbv zeta in H.
    apply bind_ret_inv in H. destruct H as ([] & s1 & H1 & H).
    apply bind_ret_inv in H. destruct H as ([] & s2 & H2 & H).
    apply bind_ret_inv in H. destruct H as ([] & s3 & H3 & H).
    apply emit_inv in H1. apply print_inv in H2. subst s1 s2.
    apply (R_after (Visit dir)); [reflexivity|].
    apply (R_after (Print (LDir depth (node_name dir)))); [reflexivity|].
    eapply R_trans.
    + eapply for_closed; [|exact H3]. intros f s0 s4 _.
      now apply upload_file_closed.
    + eapply for_closed; [|exact H]. intros d s0 s4 _ Hd.
      apply bind_ret_inv in Hd. destruct Hd as ([] & s5 & H5 & Hd).
      apply emit_inv in Hd. subst s4.
      apply R_before; [reflexivity|].
      eapply upload_subdir_closed; [|exact H5].
      intros id p s6 s7. apply IH.
Qed.

Lemma upload_tree_closed root root_id root_title s s' :
  upload_tree X dry root root_id root_title s = Ret tt s' -> R s s'.
Proof.
  intros H. unfold upload_tree in H.
  apply bind_ret_inv in H. destruct H as ([] & s1 & H1 & H).
  apply bind_ret_inv in H. destruct H as ([] & s3 & H3 & H).
  apply emit_inv in H1. subst s1.
  apply (R_after (Visit root)); [reflexivity|].
  eapply R_trans.
  - eapply for_closed; [|exact H3]. intros f s0 s4 _.
    now apply upload_file_closed.
  - eapply for_closed; [|exact H]. intros d s0 s4 _.
    apply upload_subdir_closed. intros id p s6 s7. apply upload_directory_closed.
Qed.

End Closure.

(** ** Counting *)

Lemma count_app p (a b : list event) : count p (a ++ b) = count p a + count p b.
Proof. unfold count. now rewrite filter_app, length_app. Qed.

Lemma count_cons p e (l : list event) :
  count p (e :: l) = (if p e then 1 else 0) + count p l.
Proof. unfold count. simpl. destruct (p e); reflexivity. Qed.

Lemma since_refl s : since s s [].
Proof. reflexivity. Qed.

Lemma since_trans s1 s2 s3 n1 n2 :
  since s1 s2 n1 -> since s2 s3 n2 -> since s1 s3 (n2 ++ n1).
Proof. unfold since. intros H1 H2. now rewrite H2, H1, app_assoc. Qed.

Lemma since_emitted e s : since s (emitted e s) [e].
Proof. reflexivity. Qed.

Lemma stats_le_refl t : stats_le t t.
Proof. unfold stats_le. lia. Qed.

Lemma stats_le_trans t1 t2 t3 : stats_le t1 t2 -> stats_le t2 t3 -> stats_le t1 t3.
Proof. unfold stats_le. lia. Qed.

Lemma create_outcome_stats dry t b p s r s' :
  create_outcome X dry t b p s r s' ->
  st_stats s' = incr_created (st_stats s) \/
  st_stats s' = incr_skipped (st_stats s) \/
  st_stats s' = incr_failed (st_stats s).
Proof. intros H. destruct H; cbn; auto. Qed.

Lemma create_outcome_since dry t b p s r s' :
  create_outcome X dry t b p s r s' ->
  exists new, since s s' new /\ count is_call new = 0.
Proof.
  intros H. destruct H.
  - exists [Print (LExists t id); HttpGet t]. split; reflexivity.
  - exists [Print (LWouldCreate t p); HttpGet t]. split; reflexivity.
  - exists [Print (LCreated t (new_id X (S (st_clock s)))); HttpPost t p b; HttpGet t].
    split; reflexivity.
  - exists [Print (LFailed t (post_status X (S (st_clock s)) t)); HttpPost t p b; HttpGet t].
    split; reflexivity.
Qed.

Lemma counted_refl s : counted s s.
Proof.
  exists []. split; [apply since_refl|]. cbn.
  split; [lia | apply stats_le_refl].
Qed.

Lemma counted_trans s1 s2 s3 : counted s1 s2 -> counted s2 s3 -> counted s1 s3.
Proof.
  intros (n1 & S1 & A1 & L1) (n2 & S2 & A2 & L2).
  exists (n2 ++ n1)%list. split; [eapply since_trans; eassumption|].
  rewrite count_app. split; [lia|].
  eapply stats_le_trans; eassumption.
Qed.

Lemma counted_emit e s : is_call e = false -> counted s (emitted e s).
Proof.
  intros He. exists [e]. split; [apply since_emitted|].
  rewrite count_cons, He. cbn. split; [lia | apply stats_le_refl].
Qed.

Lemma counted_call dry site t b p s r s' :
  call_create_page X dry site t b p s = Ret r s' -> counted s s'.
Proof.
  intros H. apply call_create_page_inv in H. destruct H as (s1 & Ho & ->).
  destruct (create_outcome_since _ _ _ _ _ _ _ Ho) as (new & Hs & Hc).
  exists (Call site t p r :: new). split; [unfold since in *; cbn; now rewrite Hs|].
  rewrite count_cons, Hc. cbn [is_call emitted st_stats].
  destruct (create_outcome_stats _ _ _ _ _ _ _ Ho) as [E | [E | E]];
    rewrite E; unfold attempts, stats_le; cbn; repeat split; lia.
Qed.

Lemma walker_event_not_call e : walker_event e = true -> is_call e = false.
Proof. destruct e as [| | |l| | |]; try destruct l; cbn; congruence. Qed.

Lemma upload_directory_counted fuel dry dir parent prefix depth s s' :
  upload_directory X fuel dry dir parent prefix depth s = Ret tt s' -> counted s s'.
Proof.
  apply upload_directory_closed.
  - apply counted_refl.
  - apply counted_trans.
  - intros e s0 He. apply counted_emit, walker_event_not_call, He.
  - intros site t b p s0 r s1. apply counted_call.
Qed.

Lemma upload_tree_counted dry root root_id root_title s s' :
  upload_tree X dry root root_id root_title s = Ret tt s' -> counted s s'.
Proof.
  apply upload_tree_closed.
  - apply counted_refl.
  - apply counted_trans.
  - intros e s0 He. apply counted_emit, walker_event_not_call, He.
  - intros site t b p s0 r s1. apply counted_call.
Qed.

Lemma delete_page_counted dry title s b s' :
  delete_page X dry title s = Ret b s' ->
  counted s s' /\
  created (st_stats s') = created (st_stats s) /\
  skipped (st_stats s') = skipped (st_stats s) /\
  failed (st_stats s') = failed (st_stats s).
Proof.
  rewrite delete_page_cases. cbv zeta.
  destruct (negb (truthy (lookup X s title))).
  { intros [= _ <-]. split; [|repeat split].
    exists [Print (LNotFound title); HttpGet title].
    split; [reflexivity|]. cbn. split; [lia | apply stats_le_refl]. }
  destruct dry.
  { intros [= _ <-]. split; [|repeat split].
    exists [Print (LWouldDelete title (shown (lookup X s title))); HttpGet title].
    split; [reflexivity|]. cbn. split; [lia | apply stats_le_refl]. }
  destruct (deleted_status _).
  - intros [= _ <-]. split; [|repeat split].
    exists [Print (LDeleted title (shown (lookup X s title)));
            HttpDelete (shown (lookup X s title)); HttpGet title].
    split; [reflexivity|]. cbn. unfold attempts, stats_le. cbn. lia.
  - intros [= _ <-]. split; [|repeat split].
    eexists [Print (LDeleteFailed title _);
             HttpDelete (shown (lookup X s title)); HttpGet title].
    split; [reflexivity|]. cbn. split; [lia | apply stats_le_refl].
Qed.




(** ** The exit code *)

(** The three outcomes of parsing the command line. *)
Lemma main_parsed a s : main X (Parsed a) s = run X a s.
Proof. reflexivity. Qed.

Lemma main_unparsable s :
  main X Unparsable s = Exit 2%Z (emitted (Print LUsage) s).
Proof. reflexivity. Qed.

Lemma main_help s :
  main X HelpRequested s = Exit 0%Z (emitted (Print LHelp) s).
Proof. reflexivity. Qed.

Lemma delete_page_total dry title s :
  exists b s', delete_page X dry title s = Ret b s'.
Proof.
  rewrite delete_page_cases. cbv zeta.
  repeat match goal with |- context [if ?c then _ else _] => destruct c end;
    eexists _, _; reflexivity.
Qed.




(** ** A failed index page *)



(** ** Leaf pages and visited directories *)

Lemma visited_md_app a b : visited_md (a ++ b) = visited_md a + visited_md b.
Proof.
  induction a as [|e a IH]; [reflexivity|].
  destruct e; cbn; rewrite ?IH; lia.
Qed.

Lemma segment_refl s : segment 0 0 0 0 s s.
Proof. exists []. repeat split. Qed.

Lemma segment_trans l1 m1 v1 k1 l2 m2 v2 k2 s1 s2 s3 :
  segment l1 m1 v1 k1 s1 s2 -> segment l2 m2 v2 k2 s2 s3 ->
  segment (l1 + l2) (m1 + m2) (v1 + v2) (k1 + k2) s1 s3.
Proof.
  intros (n1 & S1 & L1 & M1 & V1 & K1) (n2 & S2 & L2 & M2 & V2 & K2).
  exists (n2 ++ n1)%list. split; [eapply since_trans; eassumption|].
  rewrite !count_app, visited_md_app. repeat split; lia.
Qed.

Lemma segment_eq l m v k l' m' v' k' s s' :
  segment l m v k s s' -> l = l' -> m = m' -> v = v' -> k = k' ->
  segment l' m' v' k' s s'.
Proof. intros H <- <- <- <-. exact H. Qed.

Lemma segment_emit e s :
  segment (count is_leaf_call [e]) (visited_md [e]) (count is_visit [e])
          (count is_dir_call_ok [e]) s (emitted e s).
Proof. exists [e]. repeat split. Qed.

Lemma segment_quiet e s s' l m v k :
  is_call e = false -> is_visit e = false ->
  segment l m v k (emitted e s) s' -> segment l m v k s s'.
Proof.
  intros Hc Hv H.
  eapply segment_eq; [eapply segment_trans; [apply (segment_emit e s) | exact H]|..];
    destruct e; cbn in *; try discriminate; reflexivity.
Qed.

Lemma segment_quiet_end e s s' l m v k :
  is_call e = false -> is_visit e = false ->
  segment l m v k s s' -> segment l m v k s (emitted e s').
Proof.
  intros Hc Hv H.
  eapply segment_eq; [eapply segment_trans; [exact H | apply (segment_emit e s')]|..];
    destruct e; cbn in *; try discriminate; lia.
Qed.

Lemma segment_call dry site t b p s r s' :
  call_create_page X dry site t b p s = Ret r s' ->
  segment (count is_leaf_call [Call site t p r]) 0 0
          (count is_dir_call_ok [Call site t p r]) s s'.
Proof.
  intros H. apply call_create_page_inv in H. destruct H as (s1 & Ho & ->).
  assert (Q : segment 0 0 0 0 s s1).
  { destruct Ho.
    - exists [Print (LExists t id); HttpGet t]. repeat split.
    - exists [Print (LWouldCreate t p); HttpGet t]. repeat split.
    - exists [Print (LCreated t (new_id X (S (st_clock s)))); HttpPost t p b; HttpGet t].
      repeat split.
    - exists [Print (LFailed t (post_status X (S (st_clock s)) t)); HttpPost t p b;
              HttpGet t].
      repeat split. }
  eapply segment_eq;
    [eapply segment_trans; [exact Q | apply (segment_emit (Call site t p r) s1)]|..];
    reflexivity.
Qed.

Lemma upload_file_segment dry announce parent prefix f s s' :
  upload_file X dry announce parent prefix f s = Ret tt s' -> segment 1 0 0 0 s s'.
Proof.
  intros H. unfold upload_file in H.
  apply bind_ret_inv in H. destruct H as ([] & s1 & H1 & H).
  apply bind_ret_inv in H. destruct H as (r & s2 & H2 & H).
  apply print_inv in H1. apply emit_inv in H. subst s1 s'.
  apply (segment_quiet (Print (announce (node_name f)))); [reflexivity..|].
  apply segment_quiet_end; [reflexivity..|].
  apply segment_call in H2. exact H2.
Qed.

Lemma files_segment dry announce parent prefix files : forall s s',
  for_ files (upload_file X dry announce parent prefix) s = Ret tt s' ->
  segment (List.length files) 0 0 0 s s'.
Proof.
  induction files as [|f files IH]; intros s s' H.
  - injection H as <-. apply segment_refl.
  - apply for_cons_inv in H. destruct H as (s1 & H1 & H2).
    apply upload_file_segment in H1. apply IH in H2.
    eapply segment_eq; [eapply segment_trans; eassumption|..]; reflexivity.
Qed.

Lemma upload_subdir_segment dry recurse title body parent d s s' :
  (forall id prefix s0 s1, recurse d id prefix s0 = Ret tt s1 ->
     exists l k, segment l l (S k) k s0 s1) ->
  upload_subdir X dry recurse title body parent d s = Ret tt s' ->
  exists l k, segment l l k k s s'.
Proof.
  intros Hr H. unfold upload_subdir in H.
  apply bind_ret_inv in H. destruct H as (r & s1 & H1 & H).
  apply segment_call in H1. cbn in H1.
  destruct (truthy r) eqn:Hr'.
  - apply Hr in H. destruct H as (l & k & H). exists l, (S k).
    eapply segment_eq; [eapply segment_trans; eassumption|..];
      unfold count; cbn; rewrite ?Hr'; cbn; lia.
  - injection H as <-. exists 0, 0.
    eapply segment_eq; [exact H1|..]; unfold count; cbn; rewrite ?Hr'; reflexivity.
Qed.

Lemma dirs_segment {A} (l : list A) body :
  (forall x s s1, body x s = Ret tt s1 -> exists l k, segment l l k k s s1) ->
  forall s s', for_ l body s = Ret tt s' -> exists l k, segment l l k k s s'.
Proof.
  intros Hb. induction l as [|x l IH]; intros s s' H.
  - injection H as <-. exists 0, 0. apply segment_refl.
  - apply for_cons_inv in H. destruct H as (s1 & H1 & H2).
    apply Hb in H1. apply IH in H2.
    destruct H1 as (l1 & k1 & H1). destruct H2 as (l2 & k2 & H2).
    exists (l1 + l2), (k1 + k2). eapply segment_trans; eassumption.
Qed.

Lemma length_filter_insert p n l :
  List.length (filter p (insert_by_name n l)) = List.length (filter p (n :: l)).
Proof.
  induction l as [|m l IH]; [reflexivity|].
  simpl. destruct (String.leb _ _); [reflexivity|].
  simpl in *. destruct (p m), (p n); simpl in *; lia.
Qed.

Lemma length_filter_sorted p l :
  List.length (filter p (sorted l)) = List.length (filter p l).
Proof.
  induction l as [|n l IH]; [reflexivity|].
  simpl. rewrite length_filter_insert. simpl. destruct (p n); simpl; lia.
Qed.

Lemma length_sorted l : List.length (sorted l) = List.length l.
Proof.
  assert (T : forall k : list node, filter (fun _ => true) k = k)
    by (induction k as [|x k IH]; simpl; congruence).
  rewrite <- (T (sorted l)), length_filter_sorted, T. reflexivity.
Qed.

Lemma upload_directory_segment fuel : forall dry dir parent prefix depth s s',
  upload_directory X fuel dry dir parent prefix depth s = Ret tt s' ->
  exists l k, segment l l (S k) k s s'.
Proof.
  induction fuel as [|fuel IH]; intros dry dir parent prefix depth s s' H.
  - discriminate.
  - cbn [upload_directory] in H. cbv zeta in H.
    apply bind_ret_inv in H. destruct H as ([] & s1 & H1 & H).
    apply bind_ret_inv in H. destruct H as ([] & s2 & H2 & H).
    apply bind_ret_inv in H. destruct H as ([] & s3 & H3 & H).
    apply emit_inv in H1. apply print_inv in H2. subst s1 s2.
    apply files_segment in H3. rewrite length_filter_sorted in H3.
    apply dirs_segment in H.
    + destruct H as (l & k & H). exists (md_count dir + l), k.
      eapply segment_eq.
      * eapply segment_trans; [apply (segment_emit (Visit dir) s)|].
        eapply segment_trans; [|exact H].
        eapply segment_quiet; [| |exact H3]; reflexivity.
      * unfold count. cbn. unfold md_count. lia.
      * cbn. lia.
      * reflexivity.
      * reflexivity.
    + intros d s0 s4 Hd.
      apply bind_ret_inv in Hd. destruct Hd as ([] & s5 & H5 & Hd).
      apply emit_inv in Hd. subst s4.
      apply upload_subdir_segment in H5.
      * destruct H5 as (l & k & H5). exists l, k.
        apply segment_quiet_end; [reflexivity..|exact H5].
      * intros id p s6 s7. apply IH.
Qed.

Lemma upload_tree_segment dry root root_id root_title s s' :
  upload_tree X dry root root_id root_title s = Ret tt s' ->
  exists l k, segment l l (S k) k s s'.
Proof.
  intros H. unfold upload_tree in H.
  apply bind_ret_inv in H. destruct H as ([] & s1 & H1 & H).
  apply bind_ret_inv in H. destruct H as ([] & s3 & H3 & H).
  apply emit_inv in H1. subst s1.
  apply files_segment in H3. rewrite length_sorted in H3.
  apply dirs_segment in H.
  - destruct H as (l & k & H). exists (md_count root + l), k.
    eapply segment_eq.
    + eapply segment_trans; [apply (segment_emit (Visit root) s)|].
      eapply segment_trans; [exact H3 | exact H].
    + unfold count. cbn. unfold md_count. lia.
    + cbn. lia.
    + reflexivity.
    + reflexivity.
  - intros d s0 s4. apply upload_subdir_segment.
    intros id p s6 s7. apply upload_directory_segment.
Qed.

Lemma segment_plain new s s' :
  since s s' new ->
  forallb (fun e => negb (is_call e) && negb (is_visit e)) new = true ->
  segment 0 0 0 0 s s'.
Proof.
  intros Hs Hp. exists new. split; [exact Hs|]. clear Hs.
  induction new as [|e new IH]; [repeat split|].
  cbn [forallb] in Hp. apply andb_true_iff in Hp. destruct Hp as [He Hp].
  specialize (IH Hp). destruct IH as (I1 & I2 & I3 & I4).
  rewrite !count_cons, I1, I3, I4.
  destruct e as [| | | | |[]|]; cbn in *; try discriminate; auto.
Qed.

Lemma delete_page_segment dry title s b s' :
  delete_page X dry title s = Ret b s' -> segment 0 0 0 0 s s'.
Proof.
  rewrite delete_page_cases. cbv zeta.
  destruct (negb (truthy (lookup X s title))).
  { intros [= _ <-].
    now apply (segment_plain [Print (LNotFound title); HttpGet title]). }
  destruct dry.
  { intros [= _ <-].
    now apply (segment_plain
                 [Print (LWouldDelete title (shown (lookup X s title))); HttpGet title]). }
  destruct (deleted_status _); intros [= _ <-].
  - now apply (segment_plain
                 [Print (LDeleted title (shown (lookup X s title)));
                  HttpDelete (shown (lookup X s title)); HttpGet title]).
  - now eapply (segment_plain
                  [Print (LDeleteFailed title _);
                   HttpDelete (shown (lookup X s title)); HttpGet title]).
Qed.

Lemma segment_startup a s s' l m v k :
  segment l m v k (after_startup a s) s' -> segment l m v k s s'.
Proof.
  intros H.
  assert (Q : segment 0 0 0 0 s (after_startup a s)).
  { apply (segment_plain
             ((if arg_dry_run a then [Print LDryRunMode] else []) ++ [Print LBanner])).
    - unfold since, after_startup. cbn [st_trace]. now rewrite <- app_assoc.
    - destruct (arg_dry_run a); reflexivity. }
  eapply segment_eq; [eapply segment_trans; [exact Q | exact H]|..]; reflexivity.
Qed.

Lemma run_segment a s :
  exists s' l k, final_state (run X a s) = Some s' /\ segment l l k k s s'.
Proof.
  destruct (has_auth X) eqn:Ha.
  2:{ rewrite run_no_auth by assumption. eexists _, 0, 0. split; [reflexivity|].
      now apply (segment_plain [Print LAuthError]). }
  rewrite (run_startup a s Ha).
  destruct (truthy (arg_delete a)).
  { match goal with |- context [bind (delete_page X ?d ?t) _ ?s0] =>
      destruct (delete_page_total d t s0) as (b & s1 & E) end.
    rewrite (bind_ret _ _ _ _ _ E), print_stats_eq.
    eexists _, 0, 0. split; [reflexivity|].
    apply segment_startup with (a := a).
    apply segment_quiet_end; [reflexivity..|].
    apply delete_page_segment in E.
    apply (segment_quiet (Print (LDeleting (shown (arg_delete a))))); [reflexivity..|].
    apply (segment_quiet (Print LBanner)); [reflexivity..|]. exact E. }
  destruct (negb (truthy (arg_dir a))).
  { eexists _, 0, 0. split; [reflexivity|]. apply segment_startup with (a := a).
    apply segment_quiet_end; [reflexivity..|]. apply segment_refl. }
  destruct (source_dir X a) as [root|].
  2:{ eexists _, 0, 0. split; [reflexivity|]. apply segment_startup with (a := a).
      apply segment_quiet_end; [reflexivity..|]. apply segment_refl. }
  unfold create_root.
  destruct (call_create_page_total (arg_dry_run a) RootSite (root_title_of a root)
              (root_body a root) (arg_parent_id a) (before_root a root s))
    as (r & s2 & E).
  rewrite E. pose proof (segment_call _ _ _ _ _ _ _ _ E) as C.
  assert (C' : segment 0 0 0 (if truthy r then 1 else 0) (after_startup a s) s2).
  { unfold before_root in C.
    apply (segment_quiet (Print (LUploading (shown (arg_dir a))))); [reflexivity..|].
    apply (segment_quiet (Print (LTarget (arg_instance a) (arg_space a)
                                   (arg_parent_id a)))); [reflexivity..|].
    apply (segment_quiet (Print (LRootPage (root_title_of a root)))); [reflexivity..|].
    apply (segment_quiet (Print LBanner)); [reflexivity..|].
    eapply segment_eq; [exact C|..]; try reflexivity.
    unfold count. cbn. destruct (truthy r); reflexivity. }
  destruct (truthy r) eqn:Hr; cbn [negb].
  2:{ eexists _, 0, 0. split; [reflexivity|]. apply segment_startup with (a := a).
      apply segment_quiet_end; [reflexivity..|]. exact C'. }
  destruct (upload_tree_total (arg_dry_run a) root (shown r) (root_title_of a root) s2)
    as (s3 & E3).
  rewrite (bind_ret _ _ _ _ _ E3), print_stats_eq.
  apply upload_tree_segment in E3. destruct E3 as (l & k & E3).
  eexists _, l, (S k). split; [reflexivity|]. apply segment_startup with (a := a).
  apply segment_quiet_end; [reflexivity..|].
  eapply segment_eq; [eapply segment_trans; [exact C' | exact E3]|..]; lia.
Qed.

(** ** The shape of a walk *)

Lemma steps_app n2 n1 : steps (n2 ++ n1) = (steps n1 ++ steps n2)%list.
Proof. unfold steps. now rewrite rev_app_distr, filter_app. Qed.

Lemma steps_cons e n :
  steps (e :: n) = (steps n ++ (if is_step e then [e] else []))%list.
Proof.
  unfold steps. cbn [rev]. rewrite filter_app. cbn [filter].
  destruct (is_step e); reflexivity.
Qed.

Lemma call_steps dry site t b p s r s' :
  call_create_page X dry site t b p s = Ret r s' ->
  exists new, since s s' new /\ steps new = [Call site t p r].
Proof.
  intros H. apply call_create_page_inv in H. destruct H as (s1 & Ho & ->).
  destruct Ho.
  - eexists [_; _; _]. split; reflexivity.
  - eexists [_; _; _]. split; reflexivity.
  - eexists [_; _; _; _]. split; reflexivity.
  - eexists [_; _; _; _]. split; reflexivity.
Qed.

Lemma upload_file_steps dry announce parent prefix f s s' :
  upload_file X dry announce parent prefix f s = Ret tt s' ->
  exists new r, since s s' new /\
    steps new = [Call LeafSite (leaf_title prefix f) parent r].
Proof.
  intros H. unfold upload_file in H.
  apply bind_ret_inv in H. destruct H as ([] & s1 & H1 & H).
  apply bind_ret_inv in H. destruct H as (r & s2 & H2 & H).
  apply print_inv in H1. apply emit_inv in H. subst s1 s'.
  apply call_steps in H2. destruct H2 as (n & Hs & Hn).
  exists (Sleep :: n ++ [Print (announce (node_name f))])%list, r. split.
  - unfold since in *. cbn [emitted st_trace] in *. rewrite Hs.
    cbn. now rewrite <- app_assoc.
  - rewrite steps_cons, steps_app, Hn. reflexivity.
Qed.

Lemma files_steps dry announce parent prefix fs : forall s s',
  for_ fs (upload_file X dry announce parent prefix) s = Ret tt s' ->
  exists new, since s s' new /\ leaves parent prefix fs (steps new).
Proof.
  induction fs as [|f fs IH]; intros s s' H.
  - injection H as <-. exists []. split; [apply since_refl | constructor].
  - apply for_cons_inv in H. destruct H as (s1 & H1 & H2).
    apply upload_file_steps in H1. destruct H1 as (n1 & r & S1 & E1).
    apply IH in H2. destruct H2 as (n2 & S2 & L2).
    exists (n2 ++ n1)%list. split; [eapply since_trans; eassumption|].
    rewrite steps_app, E1. cbn [app]. now constructor.
Qed.

Lemma upload_subdir_steps dry recurse title body parent d s s' :
  (forall id prefix s0 s1, recurse d id prefix s0 = Ret tt s1 ->
     exists new, since s0 s1 new /\ walk d id prefix (steps new)) ->
  upload_subdir X dry recurse title body parent d s = Ret tt s' ->
  exists new r w, since s s' new /\
    steps new = (Call IndexSite title parent r :: w)%list /\
    (if truthy r then walk d (shown r) title w else w = []).
Proof.
  intros Hr H. unfold upload_subdir in H.
  apply bind_ret_inv in H. destruct H as (r & s1 & H1 & H).
  apply call_steps in H1. destruct H1 as (n1 & S1 & E1).
  destruct (truthy r) eqn:Ht.
  - apply Hr in H. destruct H as (n2 & S2 & W).
    exists (n2 ++ n1)%list, r, (steps n2).
    split; [eapply since_trans; eassumption|].
    split; [rewrite steps_app, E1; reflexivity|]. rewrite Ht. exact W.
  - injection H as <-. exists n1, r, []. rewrite Ht. auto.
Qed.

Lemma dirs_steps parent title ds body :
  (forall d s s1, In d ds -> body d s = Ret tt s1 ->
     exists new r w, since s s1 new /\
       steps new = (Call IndexSite (title d) parent r :: w)%list /\
       (if truthy r then walk d (shown r) (title d) w else w = [])) ->
  forall s s', for_ ds body s = Ret tt s' ->
  exists new, since s s' new /\ subdirs parent title ds (steps new).
Proof.
  induction ds as [|d ds IH]; intros Hb s s' H.
  - injection H as <-. exists []. split; [apply since_refl | constructor].
  - apply for_cons_inv in H. destruct H as (s1 & H1 & H2).
    apply Hb in H1; [|now left]. destruct H1 as (n1 & r & w & S1 & E1 & W1).
    apply IH in H2; [|intros x s0 s2 Hx; apply Hb; now right].
    destruct H2 as (n2 & S2 & D2).
    exists (n2 ++ n1)%list. split; [eapply since_trans; eassumption|].
    rewrite steps_app, E1. cbn [app].
    destruct (truthy r) eqn:Ht.
    + now apply subdirs_entered.
    + subst w. now apply subdirs_pruned.
Qed.

Lemma upload_directory_walk fuel : forall dry dir parent prefix depth s s',
  upload_directory X fuel dry dir parent prefix depth s = Ret tt s' ->
  exists new, since s s' new /\ walk dir parent prefix (steps new).
Proof.
  induction fuel as [|fuel IH]; intros dry dir parent prefix depth s s' H.
  - discriminate.
  - cbn [upload_directory] in H. cbv zeta in H.
    apply bind_ret_inv in H. destruct H as ([] & s1 & H1 & H).
    apply bind_ret_inv in H. destruct H as ([] & s2 & H2 & H).
    apply bind_ret_inv in H. destruct H as ([] & s3 & H3 & H).
    apply emit_inv in H1. apply print_inv in H2. subst s1 s2.
    apply files_steps in H3. destruct H3 as (n3 & S3 & L3).
    apply (dirs_steps parent (index_title prefix)) in H.
    2:{ intros d s0 s4 _ Hd.
        apply bind_ret_inv in Hd. destruct Hd as ([] & s5 & H5 & Hd).
        apply emit_inv in Hd. subst s4.
        eapply upload_subdir_steps in H5; [|intros id p s6 s7; apply IH].
        destruct H5 as (n & r & w & S5 & E5 & W5).
        exists (Sleep :: n), r, w.
        split; [unfold since in *; cbn; now rewrite S5|].
        split; [|exact W5].
        rewrite steps_cons. cbn [is_step]. rewrite app_nil_r. exact E5. }
    destruct H as (n4 & S4 & D4).
    exists (n4 ++ n3 ++ [Print (LDir depth (node_name dir)); Visit dir])%list.
    split.
    + unfold since in *. rewrite S4, S3. cbn. now rewrite <- !app_assoc.
    + rewrite !steps_app. change (steps [Print (LDir depth (node_name dir)); Visit dir])
        with [Visit dir]. cbn [app]. now apply walk_dir.
Qed.

Lemma upload_tree_walk dry root root_id root_title s s' :
  upload_tree X dry root root_id root_title s = Ret tt s' ->
  exists new lf ld,
    since s s' new /\ steps new = (Visit root :: lf ++ ld)%list /\
    leaves root_id root_title (sorted (filter md_file (dir_entries root))) lf /\
    subdirs root_id node_name (sorted (filter visible_dir (dir_entries root))) ld.
Proof.
  intros H. unfold upload_tree in H.
  apply bind_ret_inv in H. destruct H as ([] & s1 & H1 & H).
  apply bind_ret_inv in H. destruct H as ([] & s3 & H3 & H).
  apply emit_inv in H1. subst s1.
  apply files_steps in H3. destruct H3 as (n3 & S3 & L3).
  apply (dirs_steps root_id node_name) in H.
  2:{ intros d s0 s4 _ Hd.
      eapply upload_subdir_steps in Hd;
        [|intros id p s6 s7; apply upload_directory_walk].
      exact Hd. }
  destruct H as (n4 & S4 & D4).
  exists (n4 ++ n3 ++ [Visit root])%list, (steps n3), (steps n4).
  split; [|split; [|split; assumption]].
  - unfold since in *. rewrite S4, S3. cbn. now rewrite <- !app_assoc.
  - rewrite !steps_app. reflexivity.
Qed.

(** Failures are counted. *)
Lemma failures_refl s : failures_counted s s.
Proof. exists []. split; [apply since_refl | cbn; lia]. Qed.

Lemma failures_trans s1 s2 s3 :
  failures_counted s1 s2 -> failures_counted s2 s3 -> failures_counted s1 s3.
Proof.
  intros (n1 & S1 & F1) (n2 & S2 & F2). exists (n2 ++ n1)%list.
  split; [eapply since_trans; eassumption|]. rewrite count_app. lia.
Qed.

Lemma failures_emit e s : is_call e = false -> failures_counted s (emitted e s).
Proof.
  intros He. exists [e]. split; [reflexivity|].
  rewrite count_cons. destruct e; try discriminate; cbn; lia.
Qed.

Lemma failures_call dry site t b p s r s' :
  call_create_page X dry site t b p s = Ret r s' -> failures_counted s s'.
Proof.
  intros H. apply call_create_page_inv in H. destruct H as (s1 & Ho & ->).
  destruct Ho.
  - eexists [_; _; _]. split; [reflexivity|]. cbn. lia.
  - eexists [_; _; _]. split; [reflexivity|]. cbn. lia.
  - eexists [_; _; _; _]. split; [reflexivity|]. cbn. lia.
  - eexists [_; _; _; _]. split; [reflexivity|]. cbn. lia.
Qed.


Lemma upload_tree_failures dry root root_id root_title s s' :
  upload_tree X dry root root_id root_title s = Ret tt s' ->
  failures_counted s s'.
Proof.
  apply (upload_tree_closed dry failures_counted failures_refl failures_trans).
  - intros e s0 He. now apply failures_emit, walker_event_not_call.
  - intros site t b p s0 r s1. apply failures_call.
Qed.

Lemma before_root_since a root s :
  exists n, since s (before_root a root s) n /\ steps n = [] /\
    count is_failed_call n = 0 /\
    st_stats (before_root a root s) = no_stats.
Proof.
  exists ([Print LBanner; Print (LRootPage (root_title_of a root));
           Print (LTarget (arg_instance a) (arg_space a) (arg_parent_id a));
           Print (LUploading (shown (arg_dir a)))] ++
          (if arg_dry_run a then [Print LDryRunMode] else []) ++ [Print LBanner])%list.
  unfold since, before_root, after_startup. cbn [emitted st_trace st_stats].
  destruct (arg_dry_run a); repeat split.
Qed.

Lemma run_upload_walk a s root r s2 :
  has_auth X = true -> truthy (arg_delete a) = false ->
  truthy (arg_dir a) = true -> source_dir X a = Some root ->
  create_root X a root s = Ret r s2 ->
  exists s' new,
    final_state (run X a s) = Some s' /\ since s s' new /\
    upload_steps a root r (steps new) /\
    failed (st_stats s') = count is_failed_call new /\
    run X a s = (if truthy r then Ret tt s' else Exit 1%Z s') /\
    (truthy r = true ->
     hd_error new =
       Some (Print (LResults (created (st_stats s')) (skipped (st_stats s'))
                      (failed (st_stats s'))
                      (if deleted (st_stats s') =? 0 then None
                       else Some (deleted (st_stats s')))))).
Proof.
  intros Ha Hdel Hdir Hsrc Hc.
  rewrite (run_startup a s Ha), Hdel, Hdir, Hsrc, Hc. cbn [negb].
  destruct (before_root_since a root s) as (n0 & S0 & E0 & F0 & T0).
  unfold create_root in Hc.
  pose proof (call_steps _ _ _ _ _ _ _ _ Hc) as (n1 & S1 & E1).
  pose proof (failures_call _ _ _ _ _ _ _ _ Hc) as (n1' & S1' & F1).
  assert (n1' = n1) by (unfold since in *; rewrite S1 in S1';
                        now apply app_inv_tail in S1').
  subst n1'. rewrite T0 in F1. cbn [no_stats failed] in F1.
  unfold upload_steps.
  destruct (truthy r) eqn:Hr; cbn [negb].
  - destruct (upload_tree_total (arg_dry_run a) root (shown r) (root_title_of a root) s2)
      as (s3 & E3).
    rewrite (bind_ret _ _ _ _ _ E3), print_stats_eq.
    pose proof (upload_tree_walk _ _ _ _ _ _ E3) as (n3 & lf & ld & S3 & W3 & L3 & D3).
    pose proof (upload_tree_failures _ _ _ _ _ _ E3) as (n3' & S3' & F3).
    assert (n3' = n3) by (unfold since in *; rewrite S3 in S3';
                          now apply app_inv_tail in S3').
    subst n3'.
    eexists _, (_ :: n3 ++ n1 ++ n0)%list.
    split; [reflexivity|]. split; [|split; [|split; [|split]]].
    + unfold since in *. cbn [emitted st_trace]. rewrite S3, S1, S0.
      cbn [app]. now rewrite <- !app_assoc.
    + exists lf, ld. split; [|split; assumption].
      rewrite steps_cons, !steps_app, E0, E1, W3.
      cbn [is_step app]. now rewrite app_nil_r.
    + cbn [emitted st_stats]. rewrite count_cons, !count_app, F0, F3, F1.
      cbn [is_failed_call]. lia.
    + reflexivity.
    + intros _. reflexivity.
  - eexists _, (_ :: n1 ++ n0)%list.
    split; [reflexivity|]. split; [|split; [|split; [|split]]].
    + unfold since in *. cbn [emitted st_trace]. rewrite S1, S0.
      cbn [app]. now rewrite <- !app_assoc.
    + rewrite steps_cons, !steps_app, E0, E1. reflexivity.
    + cbn [emitted st_stats]. rewrite count_cons, !count_app, F0, F1.
      cbn [is_failed_call]. lia.
    + reflexivity.
    + discriminate.
Qed.

(** The calls and visits of the runs that no exception ends. *)
Lemma walks_laid_out :
  (forall fuel dry dir parent prefix depth s,
      is_dir dir = true -> height dir <= fuel ->
      exists s' new,
        upload_directory X fuel dry dir parent prefix depth s = Ret tt s' /\
        since s s' new /\ walk dir parent prefix (steps new)) /\
  (forall a s root,
      has_auth X = true -> truthy (arg_delete a) = false ->
      truthy (arg_dir a) = true -> source_dir X a = Some root ->
      exists r s2 s' new,
        create_root X a root s = Ret r s2 /\
        final_state (main X (Parsed a) s) = Some s' /\ since s s' new /\
        upload_steps a root r (steps new)) /\
  (forall c s,
      exists s' new,
        final_state (main X c s) = Some s' /\ since s s' new /\
        count is_leaf_call new = visited_md new /\
        count is_visit new = count is_dir_call_ok new).
Proof.
  split; [|split].
  - intros fuel dry dir parent prefix depth s Hd Hh.
    destruct (upload_directory_total fuel dry dir parent prefix depth s Hd Hh)
      as (s' & E).
    destruct (upload_directory_walk _ _ _ _ _ _ _ _ E) as (new & Hs & W).
    exists s', new. auto.
  - intros a s root Ha Hdel Hdir Hsrc.
    destruct (call_create_page_total (arg_dry_run a) RootSite (root_title_of a root)
                (root_body a root) (arg_parent_id a) (before_root a root s))
      as (r & s2 & E).
    destruct (run_upload_walk a s root r s2 Ha Hdel Hdir Hsrc E)
      as (s' & new & F & Hs & W & _).
    exists r, s2, s', new. auto.
  - intros [a| |] s.
    + destruct (run_segment a s) as (s' & l & k & Hf & new & Hs & L & M & V & K).
      exists s', new. repeat split; try assumption; congruence.
    + exists (emitted (Print LUsage) s), [Print LUsage]. repeat split.
    + exists (emitted (Print LHelp) s), [Print LHelp]. repeat split.
Qed.


(** ** Titles *)

Lemma since_in s1 s2 s3 n1 n2 e :
  since s1 s2 n1 -> since s2 s3 n2 -> In e n1 -> In e (n2 ++ n1).
Proof. intros _ _ H. apply in_or_app. now right. Qed.

Lemma for_since {A} (l : list A) body :
  (forall x s s1, body x s = Ret tt s1 -> exists new, since s s1 new) ->
  forall s s', for_ l body s = Ret tt s' -> exists new, since s s' new.
Proof.
  intros Hb. induction l as [|x l IH]; intros s s' H.
  - injection H as <-. exists []. apply since_refl.
  - apply for_cons_inv in H. destruct H as (s1 & H1 & H2).
    apply Hb in H1. apply IH in H2. destruct H1 as (n1 & H1). destruct H2 as (n2 & H2).
    exists (n2 ++ n1)%list. eapply since_trans; eassumption.
Qed.

(** Every element of a loop leaves in the trace what its own turn leaves. *)
Lemma for_each_event {A} (l : list A) body (ev : A -> event -> Prop) :
  (forall x s s1, body x s = Ret tt s1 ->
     exists new e, since s s1 new /\ In e new /\ ev x e) ->
  forall s s', for_ l body s = Ret tt s' ->
  exists new, since s s' new /\
    forall x, In x l -> exists e, In e new /\ ev x e.
Proof.
  intros Hb. induction l as [|x l IH]; intros s s' H.
  - injection H as <-. exists []. split; [apply since_refl | contradiction].
  - apply for_cons_inv in H. destruct H as (s1 & H1 & H2).
    apply Hb in H1. apply IH in H2.
    destruct H1 as (n1 & e1 & S1 & I1 & E1). destruct H2 as (n2 & S2 & I2).
    exists (n2 ++ n1)%list. split; [eapply since_trans; eassumption|].
    intros y [<- | Hy].
    + exists e1. split; [apply in_or_app; now right | exact E1].
    + destruct (I2 y Hy) as (e & He & Hev). exists e.
      split; [apply in_or_app; now left | exact Hev].
Qed.


Lemma upload_file_event dry announce parent prefix f s s' :
  upload_file X dry announce parent prefix f s = Ret tt s' ->
  exists new e, since s s' new /\ In e new /\
    exists r, e = Call LeafSite (leaf_title prefix f) parent r.
Proof.
  intros H. unfold upload_file in H.
  apply bind_ret_inv in H. destruct H as ([] & s1 & H1 & H).
  apply bind_ret_inv in H. destruct H as (r & s2 & H2 & H).
  apply print_inv in H1. apply emit_inv in H. subst s1 s'.
  apply call_create_page_inv in H2. destruct H2 as (s3 & Ho & ->).
  destruct (create_outcome_since _ _ _ _ _ _ _ Ho) as (new & Hs & _).
  exists (Sleep :: Call LeafSite (leaf_title prefix f) parent r :: new
          ++ [Print (announce (node_name f))])%list,
         (Call LeafSite (leaf_title prefix f) parent r).
  split; [|split; [right; left; reflexivity | now exists r]].
  unfold since in *. cbn [emitted st_trace] in *. rewrite Hs.
  cbn. now rewrite <- app_assoc.
Qed.






(** ** Walks in which every call comes back with an id *)

Lemma chain_app dry l1 l2 s1 s2 s3 :
  chain X dry l1 s1 s2 -> chain X dry l2 s2 s3 -> chain X dry (l1 ++ l2) s1 s3.
Proof.
  intros H1 H2. induction H1.
  - exact H2.
  - eapply chain_quiet; [eassumption | now apply IHchain].
  - cbn. eapply chain_call; [eassumption.. | now apply IHchain].
Qed.

Lemma chain_quiet_end dry e l s s' :
  walker_event e = true -> chain X dry l s s' -> chain X dry l s (emitted e s').
Proof.
  intros He H. rewrite <- (app_nil_r l). eapply chain_app; [exact H|].
  apply (chain_quiet X dry e); [exact He | apply chain_nil].
Qed.

Lemma for_counted {A} (l : list A) body s s' :
  (forall x s0 s1, body x s0 = Ret tt s1 -> counted s0 s1) ->
  for_ l body s = Ret tt s' -> counted s s'.
Proof.
  intros Hb. apply (for_closed counted counted_refl counted_trans).
  intros x s0 s1 _. apply Hb.
Qed.

Lemma upload_file_counted dry announce parent prefix f s s' :
  upload_file X dry announce parent prefix f s = Ret tt s' -> counted s s'.
Proof.
  intros H. unfold upload_file in H.
  apply bind_ret_inv in H. destruct H as ([] & s1 & H1 & H).
  apply bind_ret_inv in H. destruct H as (r & s2 & H2 & H).
  apply print_inv in H1. apply emit_inv in H. subst s1 s'.
  apply (counted_trans _ (emitted (Print (announce (node_name f))) s));
    [apply counted_emit; reflexivity|].
  eapply counted_trans; [eapply counted_call, H2|].
  apply counted_emit. reflexivity.
Qed.

Lemma upload_subdir_counted dry recurse title body parent d s s' :
  (forall id prefix s0 s1, recurse d id prefix s0 = Ret tt s1 -> counted s0 s1) ->
  upload_subdir X dry recurse title body parent d s = Ret tt s' -> counted s s'.
Proof.
  intros Hr H. unfold upload_subdir in H.
  apply bind_ret_inv in H. destruct H as (r & s1 & H1 & H).
  eapply counted_trans; [eapply counted_call, H1|].
  destruct (truthy r); [eapply Hr, H | injection H as <-; apply counted_refl].
Qed.

Section Unpruned.

Variable dry : bool.
Variable Inv : state -> Prop.
Variable Good : state -> state -> Prop.
Variable T : list string.

Hypothesis Inv_emit : forall e s, Inv s -> Inv (emitted e s).
Hypothesis Good_split : forall s s1 s2,
  counted s s1 -> counted s1 s2 -> Good s s2 -> Good s s1 /\ Good s1 s2.
Hypothesis call_ok : forall site t b p s r s1,
  In t T -> Inv s -> call_create_page X dry site t b p s = Ret r s1 ->
  Good s s1 -> truthy r = true /\ Inv s1.

Local Abbreviation walks := (unpruned X dry Inv Good T).

Lemma upload_file_chain announce parent prefix f :
  walker_event (Print (announce (node_name f))) = true ->
  walks [leaf_title prefix f] (upload_file X dry announce parent prefix f).
Proof.
  intros Ha s s' Hin HI H HG. unfold upload_file in H.
  apply bind_ret_inv in H. destruct H as ([] & s1 & H1 & H).
  apply bind_ret_inv in H. destruct H as (r & s2 & H2 & H).
  apply print_inv in H1. apply emit_inv in H. subst s1 s'.
  pose proof (counted_call _ _ _ _ _ _ _ _ H2) as C2.
  destruct (Good_split s (emitted (Print (announce (node_name f))) s)
              (emitted Sleep s2)) as [_ G1]; [| |exact HG|].
  { apply counted_emit. reflexivity. }
  { eapply counted_trans; [exact C2 | apply counted_emit; reflexivity]. }
  destruct (Good_split _ s2 _ C2 (counted_emit Sleep s2 eq_refl) G1) as [G2 _].
  destruct (call_ok _ _ _ _ _ _ _ (Hin _ (or_introl eq_refl)) (Inv_emit _ _ HI) H2 G2)
    as [Hr HI2].
  split; [|now apply Inv_emit].
  eapply chain_quiet; [exact Ha|].
  eapply chain_call; [exact H2 | exact Hr|].
  apply chain_quiet_end; [reflexivity | apply chain_nil].
Qed.

Lemma loop_chain {A} (plan_of : A -> list string) body (l : list A) :
  (forall x, In x l -> walks (plan_of x) (body x)) ->
  (forall x s0 s1, body x s0 = Ret tt s1 -> counted s0 s1) ->
  walks (flat_map plan_of l) (for_ l body).
Proof.
  intros Hw Hc. induction l as [|x l IH]; intros s s' Hin HI H HG.
  - injection H as <-. split; [apply chain_nil | exact HI].
  - apply for_cons_inv in H. destruct H as (s1 & H1 & H2).
    cbn [flat_map] in Hin.
    destruct (Good_split s s1 s' (Hc _ _ _ H1)
                (for_counted _ _ _ _ Hc H2) HG) as [G1 G2].
    destruct (Hw x (or_introl eq_refl) s s1) as [C1 I1]; try assumption.
    { intros t Ht. apply Hin, in_or_app. now left. }
    destruct (IH (fun y Hy => Hw y (or_intror Hy)) s1 s') as [C2 I2]; try assumption.
    { intros t Ht. apply Hin, in_or_app. now right. }
    split; [|exact I2]. cbn [flat_map]. eapply chain_app; eassumption.
Qed.

Lemma upload_subdir_chain recurse title body parent d below :
  (forall id, walks below (recurse d id title)) ->
  (forall id prefix s0 s1, recurse d id prefix s0 = Ret tt s1 -> counted s0 s1) ->
  walks (title :: below) (upload_subdir X dry recurse title body parent d).
Proof.
  intros Hw Hc s s' Hin HI H HG. unfold upload_subdir in H.
  apply bind_ret_inv in H. destruct H as (r & s1 & H1 & H).
  pose proof (counted_call _ _ _ _ _ _ _ _ H1) as C1.
  assert (C2 : counted s1 s').
  { destruct (truthy r); [eapply Hc, H | injection H as <-; apply counted_refl]. }
  destruct (Good_split s s1 s' C1 C2 HG) as [G1 G2].
  destruct (call_ok _ _ _ _ _ _ _ (Hin _ (or_introl eq_refl)) HI H1 G1) as [Hr I1].
  rewrite Hr in H.
  destruct (Hw (shown r) s1 s') as [C I2]; try assumption.
  { intros t Ht. apply Hin. now right. }
  split; [|exact I2]. eapply chain_call; eassumption.
Qed.

Lemma flat_map_single {A B} (f : A -> B) l : flat_map (fun x => [f x]) l = map f l.
Proof. induction l as [|x l IH]; cbn; congruence. Qed.

Lemma walks_seq ts1 ts2 (m1 m2 : M unit) :
  walks ts1 m1 -> walks ts2 m2 ->
  (forall s s', m1 s = Ret tt s' -> counted s s') ->
  (forall s s', m2 s = Ret tt s' -> counted s s') ->
  walks (ts1 ++ ts2) (m1 ;; m2).
Proof.
  intros W1 W2 C1 C2 s s' Hin HI H HG.
  apply bind_ret_inv in H. destruct H as ([] & s1 & H1 & H2).
  destruct (Good_split s s1 s' (C1 _ _ H1) (C2 _ _ H2) HG) as [G1 G2].
  destruct (W1 s s1) as [Ch1 I1]; try assumption.
  { intros t Ht. apply Hin, in_or_app. now left. }
  destruct (W2 s1 s') as [Ch2 I2]; try assumption.
  { intros t Ht. apply Hin, in_or_app. now right. }
  split; [eapply chain_app; eassumption | exact I2].
Qed.

Lemma walks_emit_before e ts (m : M unit) :
  walker_event e = true -> walks ts m ->
  (forall s s', m s = Ret tt s' -> counted s s') ->
  walks ts (emit e ;; m).
Proof.
  intros He W C s s' Hin HI H HG.
  apply bind_ret_inv in H. destruct H as ([] & s1 & H1 & H2).
  apply emit_inv in H1. subst s1.
  destruct (Good_split s (emitted e s) s'
              (counted_emit e s (walker_event_not_call e He)) (C _ _ H2) HG) as [_ G2].
  destruct (W (emitted e s) s') as [Ch I]; try assumption.
  { now apply Inv_emit. }
  split; [eapply chain_quiet; eassumption | exact I].
Qed.

Lemma walks_emit_after e ts (m : M unit) :
  walker_event e = true -> walks ts m ->
  (forall s s', m s = Ret tt s' -> counted s s') ->
  walks ts (m ;; emit e).
Proof.
  intros He W C s s' Hin HI H HG.
  apply bind_ret_inv in H. destruct H as ([] & s1 & H1 & H2).
  apply emit_inv in H2. subst s'.
  destruct (Good_split s s1 (emitted e s1) (C _ _ H1)
              (counted_emit e s1 (walker_event_not_call e He)) HG) as [G1 _].
  destruct (W s s1) as [Ch I]; try assumption.
  split; [now apply chain_quiet_end | now apply Inv_emit].
Qed.

Lemma file_loop_chain announce parent prefix files :
  (forall f, walker_event (Print (announce (node_name f))) = true) ->
  walks (map (leaf_title prefix) files)
        (for_ files (upload_file X dry announce parent prefix)).
Proof.
  intros Ha. rewrite <- flat_map_single. apply loop_chain.
  - intros f _. apply upload_file_chain, Ha.
  - intros f s0 s1. apply upload_file_counted.
Qed.

Lemma upload_directory_chain fuel : forall dir parent prefix depth,
  walks (plan fuel dir prefix) (upload_directory X fuel dry dir parent prefix depth).
Proof.
  induction fuel as [|fuel IH]; intros dir parent prefix depth.
  - intros s s' _ _ H. discriminate.
  - cbn [upload_directory plan]. cbv zeta.
    assert (CF : forall s s',
      for_ (filter md_file (sorted (dir_entries dir)))
           (upload_file X dry (LFile depth) parent prefix) s = Ret tt s' ->
      counted s s').
    { intros s s'. apply for_counted. intros f s0 s1. apply upload_file_counted. }
    assert (CS : forall d s s',
      (upload_subdir X dry
         (fun sub folder_id prefix0 =>
            upload_directory X fuel dry sub folder_id prefix0 (S depth))
         (prefix ++ " / " ++ node_name d)
         ("<p>Index page for <strong>" ++ node_name d ++ "</strong>.</p>")
         parent d ;; emit Sleep) s = Ret tt s' -> counted s s').
    { intros d s s' H. apply bind_ret_inv in H. destruct H as ([] & s1 & H1 & H).
      apply emit_inv in H. subst s'.
      eapply counted_trans; [|apply counted_emit; reflexivity].
      eapply upload_subdir_counted; [|exact H1].
      intros id p s0 s2. apply upload_directory_counted. }
    assert (CD : forall s s',
      for_ (filter visible_dir (sorted (dir_entries dir)))
           (fun d =>
              upload_subdir X dry
                (fun sub folder_id prefix0 =>
                   upload_directory X fuel dry sub folder_id prefix0 (S depth))
                (prefix ++ " / " ++ node_name d)
                ("<p>Index page for <strong>" ++ node_name d ++ "</strong>.</p>")
                parent d ;; emit Sleep) s = Ret tt s' ->
      counted s s').
    { intros s s'. apply for_counted. intros d s0 s1. apply CS. }
    assert (CB : forall s s',
      (for_ (filter md_file (sorted (dir_entries dir)))
            (upload_file X dry (LFile depth) parent prefix) ;;
       for_ (filter visible_dir (sorted (dir_entries dir)))
            (fun d =>
               upload_subdir X dry
                 (fun sub folder_id prefix0 =>
                    upload_directory X fuel dry sub folder_id prefix0 (S depth))
                 (prefix ++ " / " ++ node_name d)
                 ("<p>Index page for <strong>" ++ node_name d ++ "</strong>.</p>")
                 parent d ;; emit Sleep)) s = Ret tt s' ->
      counted s s').
    { intros s s' H. apply bind_ret_inv in H. destruct H as ([] & s1 & H1 & H).
      eapply counted_trans; [eapply CF, H1 | eapply CD, H]. }
    apply (walks_emit_before (Visit dir)); [reflexivity| |].
    2:{ intros s s' H. apply bind_ret_inv in H. destruct H as ([] & s1 & H1 & H).
        apply print_inv in H1. subst s1.
        apply (counted_trans _ (emitted (Print (LDir depth (node_name dir))) s));
          [apply counted_emit; reflexivity | eapply CB, H]. }
    apply (walks_emit_before (Print (LDir depth (node_name dir)))); [reflexivity| |exact CB].
    apply walks_seq; [| |exact CF|exact CD].
    + apply file_loop_chain. reflexivity.
    + apply (loop_chain
               (fun d => index_title prefix d :: plan fuel d (index_title prefix d))).
      * intros d _. apply (walks_emit_after Sleep); [reflexivity| |].
        -- apply upload_subdir_chain.
           ++ intros id. apply IH.
           ++ intros id p s0 s1. apply upload_directory_counted.
        -- intros s s'. apply upload_subdir_counted.
           intros id p s0 s1. apply upload_directory_counted.
      * exact CS.
Qed.

Lemma upload_tree_chain root root_id root_title :
  walks (plan_tree root root_title) (upload_tree X dry root root_id root_title).
Proof.
  unfold upload_tree, plan_tree.
  assert (CF : forall s s',
    for_ (sorted (filter md_file (dir_entries root)))
         (upload_file X dry LTopFile root_id root_title) s = Ret tt s' ->
    counted s s').
  { intros s s'. apply for_counted. intros f s0 s1. apply upload_file_counted. }
  assert (CS : forall d s s',
    upload_subdir X dry
      (fun sub folder_id prefix => upload_directory X (height sub) dry sub folder_id prefix 1)
      (node_name d) ("<p>Artefacts for <strong>" ++ node_name d ++ "</strong>.</p>")
      root_id d s = Ret tt s' -> counted s s').
  { intros d s s'. apply upload_subdir_counted.
    intros id p s0 s2. apply upload_directory_counted. }
  apply (walks_emit_before (Visit root)); [reflexivity| |].
  2:{ intros s s' H. apply bind_ret_inv in H. destruct H as ([] & s1 & H1 & H).
      eapply counted_trans; [eapply CF, H1|].
      eapply for_counted; [|exact H]. intros d s0 s2. apply CS. }
  apply walks_seq; [| |exact CF|].
  - apply file_loop_chain. reflexivity.
  - apply (loop_chain (fun d => node_name d :: plan (height d) d (node_name d))).
    + intros d _. apply upload_subdir_chain.
      * intros id. apply upload_directory_chain.
      * intros id p s0 s1. apply upload_directory_counted.
    + exact CS.
  - intros s s'. apply for_counted. exact CS.
Qed.

(** The root page and the tree below it. *)
Lemma upload_main_chain a root s r s2 s3 :
  arg_dry_run a = dry ->
  incl (plan_main a root) T -> Inv (before_root a root s) ->
  create_root X a root s = Ret r s2 ->
  upload_tree X dry root (shown r) (root_title_of a root) s2 = Ret tt s3 ->
  Good (before_root a root s) s3 ->
  truthy r = true /\ chain X dry (plan_main a root) (before_root a root s) s3 /\ Inv s3.
Proof.
  intros Hd Hin HI H1 H2 HG. unfold create_root in H1. rewrite Hd in H1.
  destruct (Good_split _ s2 _ (counted_call _ _ _ _ _ _ _ _ H1)
              (upload_tree_counted _ _ _ _ _ _ H2) HG) as [G1 G2].
  destruct (call_ok _ _ _ _ _ _ _ (Hin _ (or_introl eq_refl)) HI H1 G1) as [Hr I2].
  destruct (upload_tree_chain root (shown r) (root_title_of a root) s2 s3)
    as [C I3]; try assumption.
  { intros t Ht. apply Hin. now right. }
  split; [exact Hr|]. split; [|exact I3].
  unfold plan_main. eapply chain_call; eassumption.
Qed.

End Unpruned.

(** ** What the calls of an unpruned walk do to the space and the counters *)

Lemma run_upload_ret a s s' :
  has_auth X = true -> truthy (arg_delete a) = false ->
  run X a s = Ret tt s' ->
  exists root r s2 s3,
    source_dir X a = Some root /\ truthy (arg_dir a) = true /\
    create_root X a root s = Ret r s2 /\ truthy r = true /\
    upload_tree X (arg_dry_run a) root (shown r) (root_title_of a root) s2 = Ret tt s3 /\
    print_stats s3 = Ret tt s'.
Proof.
  intros Ha Hdel. rewrite (run_startup a s Ha), Hdel.
  destruct (truthy (arg_dir a)); cbn [negb]; [|discriminate].
  destruct (source_dir X a) as [root|]; [|discriminate].
  destruct (create_root X a root s) as [r s2| |] eqn:E; try discriminate.
  destruct (truthy r) eqn:Hr; cbn [negb]; [|discriminate].
  intros H. apply bind_ret_inv in H. destruct H as ([] & s3 & H3 & H).
  exists root, r, s2, s3. auto 10.
Qed.

Lemma run_upload_run a s root r s2 s3 :
  has_auth X = true -> truthy (arg_delete a) = false ->
  truthy (arg_dir a) = true -> source_dir X a = Some root ->
  create_root X a root s = Ret r s2 -> truthy r = true ->
  upload_tree X (arg_dry_run a) root (shown r) (root_title_of a root) s2 = Ret tt s3 ->
  run X a s = print_stats s3.
Proof.
  intros Ha Hdel Hdir Hsrc Hr Ht Hu.
  rewrite (run_startup a s Ha), Hdel, Hdir, Hsrc, Hr, Ht. cbn [negb].
  rewrite (bind_ret _ _ _ _ _ Hu). reflexivity.
Qed.

Lemma first_with_title_app t ps qs :
  first_with_title t (ps ++ qs) =
  match first_with_title t ps with
  | Some id => Some id
  | None => first_with_title t qs
  end.
Proof.
  unfold first_with_title. induction ps as [|p ps IH]; cbn; [reflexivity|].
  destruct (String.eqb (page_title p) t); [reflexivity | exact IH].
Qed.

Lemma first_with_title_none t ps :
  first_with_title t ps = None <-> has_title ps t = false.
Proof.
  unfold first_with_title, has_title, titles.
  induction ps as [|p ps IH]; cbn; [tauto|].
  rewrite (String.eqb_sym t). destruct (String.eqb (page_title p) t); cbn.
  - split; discriminate.
  - exact IH.
Qed.

Lemma first_with_title_found t ps :
  ids_nonempty ps -> has_title ps t = true ->
  exists id, first_with_title t ps = Some id /\ nonempty id = true.
Proof.
  unfold first_with_title, has_title, titles.
  induction ps as [|p ps IH]; cbn; [discriminate|]. intros Hn.
  inversion Hn as [|? ? Hp Hps]; subst.
  rewrite (String.eqb_sym t). destruct (String.eqb (page_title p) t); cbn.
  - intros _. eauto.
  - now apply IH.
Qed.

Lemma truthy_lookup_found s t :
  truthy (lookup X s t) = true ->
  exists id, lookup X s t = Some id /\ nonempty id = true /\
             first_with_title t (st_pages s) = Some id.
Proof.
  intros H. destruct (truthy_some _ H) as (id & E & Hid).
  exists id. split; [exact E|]. split; [exact Hid|].
  unfold lookup in E. destruct (_ =? _)%Z; [exact E | discriminate].
Qed.

(** The outcome of a call, by what the lookup answers. *)
Lemma call_found dry site t b p s r s' id :
  lookup X s t = Some id -> nonempty id = true ->
  call_create_page X dry site t b p s = Ret r s' ->
  r = Some id /\
  s' = emitted (Call site t p (Some id))
         (mkState (incr_skipped (st_stats s)) (st_pages s) (S (st_clock s))
                  (Print (LExists t id) :: HttpGet t :: st_trace s)).
Proof.
  intros Hl Hid H. apply call_create_page_inv in H. destruct H as (s1 & Ho & ->).
  inversion Ho; subst;
    try (rewrite Hl in *; cbn in *; congruence).
  rewrite Hl in H. injection H as <-. auto.
Qed.

Lemma call_truthy_real site t b p s r s' :
  call_create_page X false site t b p s = Ret r s' -> truthy r = true ->
  failed (st_stats s') = failed (st_stats s) /\
  created (st_stats s') + skipped (st_stats s') =
    S (created (st_stats s) + skipped (st_stats s)) /\
  ((truthy (lookup X s t) = true /\ st_pages s' = st_pages s /\
    created (st_stats s') = created (st_stats s)) \/
   (truthy (lookup X s t) = false /\
    st_pages s' = (st_pages s ++ [mkPage (new_id X (S (st_clock s))) t p])%list /\
    created (st_stats s') = S (created (st_stats s)))).
Proof.
  intros H Hr. apply call_create_page_inv in H. destruct H as (s1 & Ho & ->).
  inversion Ho; subst; cbn in *; try discriminate.
  - split; [reflexivity|]. split; [lia|]. left. rewrite H. cbn. auto.
  - split; [reflexivity|]. split; [lia|]. right. auto.
Qed.

Lemma call_dry site t b p s r s' :
  call_create_page X true site t b p s = Ret r s' ->
  truthy r = true /\ st_pages s' = st_pages s /\
  failed (st_stats s') = failed (st_stats s) /\
  created (st_stats s') =
    created (st_stats s) + (if truthy (lookup X s t) then 0 else 1).
Proof.
  intros H. apply call_create_page_inv in H. destruct H as (s1 & Ho & ->).
  inversion Ho; subst; cbn in *; try discriminate.
  - rewrite H. cbn. rewrite H0. repeat split; lia.
  - rewrite H. repeat split; lia.
Qed.

Lemma has_title_app ps qs t :
  has_title (ps ++ qs) t = has_title ps t || has_title qs t.
Proof. unfold has_title, titles. now rewrite map_app, existsb_app. Qed.

Lemma lookup_truthy_has_title s t :
  truthy (lookup X s t) = true -> has_title (st_pages s) t = true.
Proof.
  intros H. destruct (truthy_lookup_found _ _ H) as (id & _ & _ & E).
  destruct (has_title (st_pages s) t) eqn:Ht; [reflexivity|].
  apply first_with_title_none in Ht. congruence.
Qed.

Lemma lookup_answered s t :
  get_status X (st_clock s) t = 200%Z -> ids_nonempty (st_pages s) ->
  truthy (lookup X s t) = has_title (st_pages s) t.
Proof.
  intros Hg Hn. unfold lookup. rewrite Hg. cbn.
  destruct (has_title (st_pages s) t) eqn:Ht.
  - destruct (first_with_title_found t _ Hn Ht) as (id & -> & Hid). exact Hid.
  - apply first_with_title_none in Ht. now rewrite Ht.
Qed.

Lemma ids_nonempty_app ps qs :
  ids_nonempty ps -> ids_nonempty qs -> ids_nonempty (ps ++ qs).
Proof. unfold ids_nonempty. intros. apply Forall_app. auto. Qed.

(** A real walk in which every call came back with an id. *)
Lemma chain_real_effect ts s s' :
  (forall n, nonempty (new_id X n) = true) ->
  chain X false ts s s' -> ids_nonempty (st_pages s) ->
  ids_nonempty (st_pages s') /\
  (exists extra, st_pages s' = (st_pages s ++ extra)%list) /\
  failed (st_stats s') = failed (st_stats s) /\
  created (st_stats s') + skipped (st_stats s') =
    created (st_stats s) + skipped (st_stats s) + List.length ts /\
  (forall t, In t ts -> has_title (st_pages s') t = true) /\
  st_clock s <= st_clock s'.
Proof.
  intros Hid H. induction H as [s | e ts s s' He H IH | t ts site b p s r s1 s' Hc Hr H IH];
    intros Hn.
  - split; [exact Hn|]. split; [exists []; now rewrite app_nil_r|].
    split; [reflexivity|]. split; [cbn; lia|]. split; [intros t []|lia].
  - apply IH. exact Hn.
  - destruct (call_truthy_real _ _ _ _ _ _ _ Hc Hr) as (F & A & Hcase).
    assert (Hn1 : ids_nonempty (st_pages s1)).
    { destruct Hcase as [(_ & -> & _) | (_ & -> & _)]; [exact Hn|].
      apply ids_nonempty_app; [exact Hn|]. constructor; [apply Hid | constructor]. }
    assert (Ht1 : has_title (st_pages s1) t = true).
    { destruct Hcase as [(Hl & -> & _) | (_ & -> & _)].
      - now apply lookup_truthy_has_title.
      - rewrite has_title_app. apply orb_true_iff. right.
        unfold has_title. cbn. now rewrite String.eqb_refl. }
    assert (Hp1 : exists extra, st_pages s1 = (st_pages s ++ extra)%list).
    { destruct Hcase as [(_ & -> & _) | (_ & -> & _)];
        [exists []; now rewrite app_nil_r | eexists; reflexivity]. }
    assert (Hc1 : st_clock s <= st_clock s1).
    { apply call_create_page_inv in Hc. destruct Hc as (s0 & Ho & ->).
      destruct Ho; cbn; lia. }
    destruct (IH Hn1) as (I1 & (ex2 & I2) & I3 & I4 & I5 & I6).
    destruct Hp1 as (ex1 & Hp1).
    split; [exact I1|]. split.
    { exists (ex1 ++ ex2)%list. now rewrite I2, Hp1, app_assoc. }
    split; [congruence|]. split; [cbn [List.length]; lia|]. split; [|lia].
    intros u [<- | Hu]; [|now apply I5].
    rewrite I2, has_title_app, Ht1. reflexivity.
Qed.

(** A walk, real or dry, over titles that the space holds. *)
Lemma chain_present_effect c0 dry ts s s' :
  (forall n t, c0 <= n -> get_status X n t = 200%Z) ->
  chain X dry ts s s' -> c0 <= st_clock s -> ids_nonempty (st_pages s) ->
  (forall t, In t ts -> has_title (st_pages s) t = true) ->
  st_pages s' = st_pages s /\
  created (st_stats s') = created (st_stats s) /\
  failed (st_stats s') = failed (st_stats s) /\
  skipped (st_stats s') = skipped (st_stats s) + List.length ts /\
  exists new, since s s' new /\ count is_mutating new = 0.
Proof.
  intros Hg H. induction H as [s | e ts s s' He H IH | t ts site b p s r s1 s' Hc Hr H IH];
    intros Hc0 Hn Hts.
  - split; [reflexivity|]. split; [reflexivity|]. split; [reflexivity|].
    split; [cbn; lia|]. exists []. split; reflexivity.
  - destruct (IH Hc0 Hn Hts) as (I1 & I2 & I3 & I4 & new & I5 & I6).
    split; [exact I1|]. split; [exact I2|]. split; [exact I3|]. split; [exact I4|].
    exists (new ++ [e])%list. split.
    + unfold since in *. rewrite I5. cbn. now rewrite <- app_assoc.
    + rewrite count_app, I6. destruct e as [| | |l| | |]; try destruct l; cbn in *;
        try discriminate; reflexivity.
  - assert (Hl : truthy (lookup X s t) = true).
    { rewrite lookup_answered; [apply Hts; now left | now apply Hg | exact Hn]. }
    destruct (truthy_lookup_found _ _ Hl) as (id & E & Hid & _).
    destruct (call_found _ _ _ _ _ _ _ _ _ E Hid Hc) as (-> & ->).
    cbn [emitted st_pages st_clock st_stats st_trace] in IH.
    destruct IH as (I1 & I2 & I3 & I4 & new & I5 & I6).
    { lia. } { exact Hn. } { intros u Hu. apply Hts. now right. }
    cbn in I2, I3, I4.
    split; [exact I1|]. split; [exact I2|]. split; [exact I3|].
    split; [cbn [List.length]; lia|].
    exists (new ++ [Call site t p (Some id); Print (LExists t id); HttpGet t])%list.
    split.
    + unfold since in *. rewrite I5. cbn. now rewrite <- app_assoc.
    + rewrite count_app, I6. reflexivity.
Qed.

(** A dry walk creates nothing and counts as created what the space does
    not hold. *)
Lemma chain_dry_effect ts s s' :
  (forall n t, get_status X n t = 200%Z) ->
  chain X true ts s s' -> ids_nonempty (st_pages s) ->
  st_pages s' = st_pages s /\
  created (st_stats s') = created (st_stats s) + missing (st_pages s) ts.
Proof.
  intros Hg H. induction H as [s | e ts s s' He H IH | t ts site b p s r s1 s' Hc Hr H IH];
    intros Hn.
  - unfold missing. cbn. split; [reflexivity | lia].
  - apply IH. exact Hn.
  - destruct (call_dry _ _ _ _ _ _ _ Hc) as (_ & Hp & _ & Hcr).
    rewrite Hp in IH. destruct (IH Hn) as (I1 & I2).
    split; [congruence|]. rewrite I2, Hcr.
    rewrite lookup_answered by (auto using Hg).
    unfold missing. cbn [filter].
    destruct (has_title (st_pages s) t); cbn; lia.
Qed.

Lemma missing_app_fresh ps t p ts id :
  ~ In t ts -> missing (ps ++ [mkPage id t p]) ts = missing ps ts.
Proof.
  intros Hnin. unfold missing. f_equal. apply filter_ext_in.
  intros u Hu. rewrite has_title_app. f_equal.
  replace (has_title [mkPage id t p] u) with false; [apply orb_false_r|].
  unfold has_title. cbn. symmetry. rewrite orb_false_r.
  apply String.eqb_neq. intros ->. contradiction.
Qed.

(** A real walk without failures over pairwise distinct titles creates what
    the space does not hold. *)
Lemma chain_real_created ts s s' :
  (forall n t, get_status X n t = 200%Z) ->
  (forall n, nonempty (new_id X n) = true) ->
  chain X false ts s s' -> ids_nonempty (st_pages s) -> NoDup ts ->
  created (st_stats s') = created (st_stats s) + missing (st_pages s) ts.
Proof.
  intros Hg Hid H.
  induction H as [s | e ts s s' He H IH | t ts site b p s r s1 s' Hc Hr H IH];
    intros Hn Hnd.
  - unfold missing. cbn. lia.
  - now apply IH.
  - inversion Hnd as [|? ? Hnin Hnd']; subst.
    destruct (call_truthy_real _ _ _ _ _ _ _ Hc Hr) as (_ & _ & Hcase).
    pose proof (lookup_answered s t (Hg _ _) Hn) as Hl.
    destruct Hcase as [(Ht & Hp & Hcr) | (Ht & Hp & Hcr)].
    + rewrite Hp in IH. rewrite (IH Hn Hnd'), Hcr.
      unfold missing. cbn [filter]. rewrite <- Hl, Ht. reflexivity.
    + rewrite Hp in IH. rewrite IH; [|apply ids_nonempty_app;
        [exact Hn | constructor; [apply Hid | constructor]] | exact Hnd'].
      rewrite missing_app_fresh by exact Hnin. rewrite Hcr.
      unfold missing. cbn [filter]. rewrite <- Hl, Ht. cbn. lia.
Qed.

(** ** Dry runs *)

Lemma read_only_refl s : read_only s s.
Proof. exists []. repeat split. Qed.

Lemma read_only_trans s1 s2 s3 : read_only s1 s2 -> read_only s2 s3 -> read_only s1 s3.
Proof.
  intros (n1 & S1 & C1 & P1) (n2 & S2 & C2 & P2).
  exists (n2 ++ n1)%list. split; [eapply since_trans; eassumption|].
  rewrite count_app. split; [lia | congruence].
Qed.

Lemma read_only_emit e s : is_mutating e = false -> read_only s (emitted e s).
Proof.
  intros He. exists [e]. split; [apply since_emitted|].
  rewrite count_cons, He. repeat split.
Qed.

Lemma walker_event_not_mutating e : walker_event e = true -> is_mutating e = false.
Proof. destruct e as [| | |l| | |]; try destruct l; cbn; congruence. Qed.

Lemma read_only_call site t b p s r s' :
  call_create_page X true site t b p s = Ret r s' -> read_only s s'.
Proof.
  intros H. apply call_create_page_inv in H. destruct H as (s1 & Ho & ->).
  inversion Ho; subst; try discriminate.
  - exists [Call site t p (Some id); Print (LExists t id); HttpGet t]. repeat split.
  - exists [Call site t p (Some "dry-run-id"); Print (LWouldCreate t p); HttpGet t].
    repeat split.
Qed.

Lemma read_only_delete title s b s' :
  delete_page X true title s = Ret b s' -> read_only s s'.
Proof.
  rewrite delete_page_cases. cbv zeta.
  destruct (negb (truthy (lookup X s title))); intros [= _ <-].
  - exists [Print (LNotFound title); HttpGet title]. repeat split.
  - exists [Print (LWouldDelete title (shown (lookup X s title))); HttpGet title].
    repeat split.
Qed.

Lemma read_only_startup a s : read_only s (after_startup a s).
Proof.
  exists ((if arg_dry_run a then [Print LDryRunMode] else []) ++ [Print LBanner])%list.
  split; [|split; [destruct (arg_dry_run a); reflexivity | reflexivity]].
  unfold since, after_startup. cbn [st_trace]. now rewrite <- app_assoc.
Qed.

Lemma run_dry_read_only a s :
  arg_dry_run a = true ->
  exists s', final_state (run X a s) = Some s' /\ read_only s s'.
Proof.
  intros Hd. destruct (has_auth X) eqn:Ha.
  2:{ rewrite run_no_auth by assumption. eexists. split; [reflexivity|].
      now apply read_only_emit. }
  rewrite (run_startup a s Ha).
  pose proof (read_only_startup a s) as R0.
  destruct (truthy (arg_delete a)).
  { match goal with |- context [bind (delete_page X ?d ?t) _ ?s0] =>
      destruct (delete_page_total d t s0) as (b & s1 & E) end.
    rewrite (bind_ret _ _ _ _ _ E), print_stats_eq.
    eexists. split; [reflexivity|]. rewrite Hd in E. apply read_only_delete in E.
    eapply read_only_trans; [exact R0|].
    eapply read_only_trans; [|apply read_only_emit; reflexivity].
    eapply read_only_trans; [|exact E].
    eapply read_only_trans; apply read_only_emit; reflexivity. }
  destruct (negb (truthy (arg_dir a))).
  { eexists. split; [reflexivity|].
    eapply read_only_trans; [exact R0 | now apply read_only_emit]. }
  destruct (source_dir X a) as [root|].
  2:{ eexists. split; [reflexivity|].
      eapply read_only_trans; [exact R0 | now apply read_only_emit]. }
  unfold create_root.
  destruct (call_create_page_total (arg_dry_run a) RootSite (root_title_of a root)
              (root_body a root) (arg_parent_id a) (before_root a root s))
    as (r & s2 & E).
  rewrite E.
  assert (R2 : read_only s s2).
  { eapply read_only_trans; [exact R0|]. rewrite Hd in E. apply read_only_call in E.
    eapply read_only_trans; [|exact E]. unfold before_root.
    repeat (eapply read_only_trans; [|apply read_only_emit; reflexivity]).
    apply read_only_refl. }
  destruct (negb (truthy r)).
  { eexists. split; [reflexivity|].
    eapply read_only_trans; [exact R2 | now apply read_only_emit]. }
  destruct (upload_tree_total (arg_dry_run a) root (shown r) (root_title_of a root) s2)
    as (s3 & E3).
  rewrite (bind_ret _ _ _ _ _ E3), print_stats_eq.
  eexists. split; [reflexivity|].
  eapply read_only_trans; [exact R2|].
  eapply read_only_trans; [|apply read_only_emit; reflexivity].
  rewrite Hd in E3. revert E3. apply upload_tree_closed.
  - apply read_only_refl.
  - apply read_only_trans.
  - intros e s0 He. apply read_only_emit, walker_event_not_mutating, He.
  - intros site t b p s0 r0 s1. apply read_only_call.
Qed.

(** ** Three kinds of unpruned runs *)

Lemma failed_stays s s1 s2 :
  counted s s1 -> counted s1 s2 ->
  failed (st_stats s2) = failed (st_stats s) ->
  failed (st_stats s1) = failed (st_stats s) /\
  failed (st_stats s2) = failed (st_stats s1).
Proof.
  intros (_ & _ & _ & L1) (_ & _ & _ & L2) E. unfold stats_le in *. lia.
Qed.

(** A real run that reports no failure attempted every title of its plan. *)
Lemma real_run_chain a s s1 :
  has_auth X = true -> truthy (arg_delete a) = false -> arg_dry_run a = false ->
  (forall n, nonempty (new_id X n) = true) ->
  ids_nonempty (st_pages s) ->
  run X a s = Ret tt s1 -> failed (st_stats s1) = 0 ->
  exists root s3,
    source_dir X a = Some root /\ truthy (arg_dir a) = true /\
    chain X false (plan_main a root) (before_root a root s) s3 /\
    print_stats s3 = Ret tt s1.
Proof.
  intros Ha Hdel Hdry Hid Hn Hm Hf.
  destruct (run_upload_ret a s s1 Ha Hdel Hm) as (root & r & s2 & s3 & Hs & Hd & Hr & Ht & Hu & Hp).
  exists root, s3. split; [exact Hs|]. split; [exact Hd|]. split; [|exact Hp].
  rewrite Hdry in Hu.
  assert (Hr' : create_root X a root s = Ret r s2) by exact Hr.
  assert (HG : failed (st_stats s3) = failed (st_stats (before_root a root s))).
  { rewrite print_stats_eq in Hp. injection Hp as <-. cbn in Hf. cbn. exact Hf. }
  refine (proj1 (proj2 (upload_main_chain false (fun s0 => ids_nonempty (st_pages s0))
            (fun s0 s0' => failed (st_stats s0') = failed (st_stats s0))
            (plan_main a root) _ _ _ a root s r s2 s3 Hdry _ Hn Hr' Hu HG))).
  - intros e s0 H. exact H.
  - apply failed_stays.
  - intros site t b p s0 r0 s0' _ HI Hc HG'.
    apply call_create_page_inv in Hc. destruct Hc as (s4 & Ho & ->).
    cbn [emitted st_stats st_pages] in *.
    inversion Ho; subst; cbn in *; try discriminate.
    + auto.
    + split; [apply Hid|]. apply ids_nonempty_app; [exact HI|].
      constructor; [apply Hid | constructor].
    + lia.
  - intros t Ht'. exact Ht'.
Qed.

(** A run over a space that holds every title of the plan. *)
Lemma present_run_chain c0 a s root :
  has_auth X = true -> truthy (arg_delete a) = false ->
  truthy (arg_dir a) = true -> source_dir X a = Some root ->
  (forall n t, c0 <= n -> get_status X n t = 200%Z) ->
  c0 <= st_clock s -> ids_nonempty (st_pages s) ->
  (forall t, In t (plan_main a root) -> has_title (st_pages s) t = true) ->
  exists s3 s',
    run X a s = Ret tt s' /\ print_stats s3 = Ret tt s' /\
    chain X (arg_dry_run a) (plan_main a root) (before_root a root s) s3.
Proof.
  intros Ha Hdel Hdir Hsrc Hg Hc0 Hn Hts.
  destruct (call_create_page_total (arg_dry_run a) RootSite (root_title_of a root)
              (root_body a root) (arg_parent_id a) (before_root a root s))
    as (r & s2 & E).
  destruct (upload_tree_total (arg_dry_run a) root (shown r) (root_title_of a root) s2)
    as (s3 & E3).
  assert (K : truthy r = true /\
              chain X (arg_dry_run a) (plan_main a root) (before_root a root s) s3 /\
              (c0 <= st_clock s3 /\ st_pages s3 = st_pages s)).
  { refine (upload_main_chain (arg_dry_run a)
              (fun s0 => c0 <= st_clock s0 /\ st_pages s0 = st_pages s)
              (fun _ _ => True) (plan_main a root) _ _ _ a root s r s2 s3
              eq_refl _ _ E E3 I).
    - intros e s0 H. exact H.
    - intros. split; exact I.
    - intros site t b p s0 r0 s0' Ht (Hc & Hp) Hcall _.
      assert (Hl : truthy (lookup X s0 t) = true).
      { rewrite lookup_answered; [rewrite Hp; now apply Hts | now apply Hg
                                 | rewrite Hp; exact Hn]. }
      destruct (truthy_lookup_found _ _ Hl) as (id & El & Hid & _).
      destruct (call_found _ _ _ _ _ _ _ _ _ El Hid Hcall) as (-> & ->).
      cbn. split; [exact Hid|]. split; [lia | exact Hp].
    - intros t Ht. exact Ht.
    - cbn. split; [exact Hc0 | reflexivity]. }
  destruct K as (Hr & C & _).
  exists s3. destruct (print_stats s3) as [[] s'| |] eqn:Ep; try discriminate.
  exists s'. split; [|split; [reflexivity | exact C]].
  rewrite (run_upload_run a s root r s2 s3); assumption.
Qed.

(** A dry run in upload mode. *)
Lemma dry_run_chain a s root :
  has_auth X = true -> truthy (arg_delete a) = false ->
  truthy (arg_dir a) = true -> source_dir X a = Some root ->
  arg_dry_run a = true ->
  exists s3 s',
    run X a s = Ret tt s' /\ print_stats s3 = Ret tt s' /\
    chain X true (plan_main a root) (before_root a root s) s3.
Proof.
  intros Ha Hdel Hdir Hsrc Hdry.
  destruct (call_create_page_total (arg_dry_run a) RootSite (root_title_of a root)
              (root_body a root) (arg_parent_id a) (before_root a root s))
    as (r & s2 & E).
  destruct (upload_tree_total (arg_dry_run a) root (shown r) (root_title_of a root) s2)
    as (s3 & E3).
  rewrite Hdry in E3.
  assert (K : truthy r = true /\
              chain X true (plan_main a root) (before_root a root s) s3 /\ True).
  { refine (upload_main_chain true (fun _ => True) (fun _ _ => True)
              (plan_main a root) _ _ _ a root s r s2 s3 Hdry _ I E E3 I).
    - intros. exact I.
    - intros. split; exact I.
    - intros site t b p s0 r0 s0' _ _ Hcall _.
      destruct (call_dry _ _ _ _ _ _ _ Hcall) as (H & _). auto.
    - intros t Ht. exact Ht. }
  destruct K as (Hr & C & _).
  exists s3. destruct (print_stats s3) as [[] s'| |] eqn:Ep; try discriminate.
  exists s'. split; [|split; [reflexivity | exact C]].
  rewrite (run_upload_run a s root r s2 s3); try assumption. now rewrite Hdry.
Qed.

(** ** Running twice, and running dry *)

Lemma create_page_found dry t b p s id :
  lookup X s t = Some id -> nonempty id = true ->
  create_page X dry t b p s =
    Ret (Some id)
        (mkState (incr_skipped (st_stats s)) (st_pages s) (S (st_clock s))
                 (Print (LExists t id) :: HttpGet t :: st_trace s)).
Proof.
  intros Hl Hid. destruct (create_page_spec dry t b p s) as (r & s' & E & Ho).
  rewrite E. inversion Ho; subst; rewrite Hl in *; cbn in *; congruence.
Qed.

(** C1, amended.  A title that the space holds is not created again: when
    the search is answered 200 and the first page with the title has a
    non-empty id, [create_page] sends no create request, adds one to
    "skipped" and returns that id.  Hence, after a real upload that reports
    no failure, a second upload of the same tree against the space as the
    first left it creates nothing, fails nowhere, sends no request that
    changes the space, and skips every page-bearing node: its "skipped" is
    the first run's "created" plus the first run's "skipped". *)
Theorem rerun_skips_every_page :
  (forall dry t b p s id,
      first_with_title t (st_pages s) = Some id -> nonempty id = true ->
      get_status X (st_clock s) t = 200%Z ->
      create_page X dry t b p s =
        Ret (Some id)
            (mkState (incr_skipped (st_stats s)) (st_pages s) (S (st_clock s))
                     (Print (LExists t id) :: HttpGet t :: st_trace s))) /\
  (forall a s s1,
      has_auth X = true -> truthy (arg_delete a) = false -> arg_dry_run a = false ->
      (forall n, nonempty (new_id X n) = true) ->
      ids_nonempty (st_pages s) ->
      main X (Parsed a) s = Ret tt s1 -> failed (st_stats s1) = 0 ->
      (forall n t, st_clock s1 <= n -> get_status X n t = 200%Z) ->
      exists s2,
        main X (Parsed a) s1 = Ret tt s2 /\
        created (st_stats s2) = 0 /\ failed (st_stats s2) = 0 /\
        skipped (st_stats s2) = created (st_stats s1) + skipped (st_stats s1) /\
        read_only s1 s2).
Proof.
  cbv beta iota delta [main parse_args bind ret].
  split.
  - intros dry t b p s id Hf Hid Hg. apply create_page_found; [|exact Hid].
    unfold lookup. now rewrite Hg.
  - intros a s s1 Ha Hdel Hdry Hid Hn Hm Hf Hg.
    destruct (real_run_chain a s s1 Ha Hdel Hdry Hid Hn Hm Hf)
      as (root & s3 & Hs & Hd & C & Hp).
    destruct (chain_real_effect _ _ _ Hid C Hn) as (I1 & _ & _ & I4 & I5 & _).
    rewrite print_stats_eq in Hp. injection Hp as Hp.
    assert (P1 : st_pages s1 = st_pages s3) by (now rewrite <- Hp).
    assert (T1 : st_stats s1 = st_stats s3) by (now rewrite <- Hp).
    assert (K1 : st_clock s1 = st_clock s3) by (now rewrite <- Hp).
    destruct (present_run_chain (st_clock s1) a s1 root Ha Hdel Hd Hs Hg)
      as (s3' & s2 & Hm2 & Hp2 & C2).
    { lia. } { now rewrite P1. } { intros t Ht. rewrite P1. now apply I5. }
    destruct (chain_present_effect (st_clock s1) _ _ _ _ Hg C2)
      as (J1 & J2 & J3 & J4 & new & J5 & J6).
    { cbn. lia. } { cbn. now rewrite P1. }
    { intros t Ht. cbn. rewrite P1. now apply I5. }
    rewrite print_stats_eq in Hp2. injection Hp2 as Hp2.
    exists s2. split; [exact Hm2|]. rewrite <- Hp2.
    cbn [emitted st_stats st_pages] in *.
    unfold before_root, after_startup in J2, J3, J4, I4. cbn in J2, J3, J4, I4.
    split; [exact J2|]. split; [exact J3|]. split; [rewrite J4, T1; lia|].
    eapply read_only_trans; [apply (read_only_startup a s1)|].
    eapply read_only_trans; [|apply read_only_emit; reflexivity].
    assert (R : read_only (before_root a root s1) s3').
    { exists new. split; [exact J5|]. split; [exact J6 | exact J1]. }
    eapply read_only_trans; [|exact R]. unfold before_root.
    repeat (eapply read_only_trans; [|apply read_only_emit; reflexivity]).
    apply read_only_refl.
Qed.

Lemma create_page_simulated t b p s :
  truthy (lookup X s t) = false ->
  create_page X true t b p s =
    Ret (Some "dry-run-id")
        (mkState (incr_created (st_stats s)) (st_pages s) (S (st_clock s))
                 (Print (LWouldCreate t p) :: HttpGet t :: st_trace s)).
Proof.
  intros Hl. destruct (create_page_spec true t b p s) as (r & s' & E & Ho).
  rewrite E. inversion Ho; subst; try discriminate.
  - rewrite H in Hl. cbn in Hl. congruence.
  - reflexivity.
Qed.

(** C3, amended.  With the dry-run flag no request that changes the space
    is sent and the space stays as it is.  For a title that the lookup does
    not find, [create_page] prints what it would create, adds one to
    "created" and returns the id "dry-run-id"; for a title that the lookup
    finds, [delete_page] prints what it would delete and returns [True]
    after the lookup alone.  And when a real upload reports no failure, the
    service answers every search with 200 and gives non-empty ids, and the
    titles that the tree yields are pairwise distinct, the dry run of the
    same command from the same state reports the same "created". *)
Theorem dry_run_changes_nothing :
  (forall t b p s,
      truthy (lookup X s t) = false ->
      create_page X true t b p s =
        Ret (Some "dry-run-id")
            (mkState (incr_created (st_stats s)) (st_pages s) (S (st_clock s))
                     (Print (LWouldCreate t p) :: HttpGet t :: st_trace s))) /\
  (forall title s,
      truthy (lookup X s title) = true ->
      delete_page X true title s =
        Ret true (mkState (st_stats s) (st_pages s) (S (st_clock s))
                          (Print (LWouldDelete title (shown (lookup X s title)))
                           :: HttpGet title :: st_trace s))) /\
  (forall a s,
      arg_dry_run a = true ->
      exists s', final_state (main X (Parsed a) s) = Some s' /\ read_only s s') /\
  (forall a s s_real,
      has_auth X = true -> truthy (arg_delete a) = false -> arg_dry_run a = false ->
      (forall n, nonempty (new_id X n) = true) ->
      (forall n t, get_status X n t = 200%Z) ->
      ids_nonempty (st_pages s) ->
      (forall root, source_dir X a = Some root -> NoDup (plan_main a root)) ->
      main X (Parsed a) s = Ret tt s_real -> failed (st_stats s_real) = 0 ->
      exists s_dry,
        main X (Parsed (dry_run_of a)) s = Ret tt s_dry /\
        created (st_stats s_dry) = created (st_stats s_real)).
Proof.
  cbv beta iota delta [main parse_args bind ret].
  split; [|split; [|split]].
  - apply create_page_simulated.
  - intros title s Hl. rewrite delete_page_cases. cbv zeta. rewrite Hl. reflexivity.
  - apply run_dry_read_only.
  - intros a s s_real Ha Hdel Hdry Hid Hg Hn Hnd Hm Hf.
    destruct (real_run_chain a s s_real Ha Hdel Hdry Hid Hn Hm Hf)
      as (root & s3 & Hs & Hd & C & Hp).
    pose proof (chain_real_created _ _ _ Hg Hid C Hn (Hnd root Hs)) as Cr.
    rewrite print_stats_eq in Hp. injection Hp as Hp.
    destruct (dry_run_chain (dry_run_of a) s root Ha Hdel Hd Hs eq_refl)
      as (s3' & s_dry & Hm2 & Hp2 & C2).
    destruct (chain_dry_effect _ _ _ Hg C2 Hn) as (_ & Cd).
    rewrite print_stats_eq in Hp2. injection Hp2 as Hp2.
    exists s_dry. split; [exact Hm2|]. rewrite <- Hp2, <- Hp.
    cbn [emitted st_stats st_pages] in *. rewrite Cd, Cr.
    unfold before_root, after_startup. reflexivity.
Qed.

(** ** The converter

    What [md_to_storage] adds to the [markdown] package: blank output is
    replaced by a placeholder, anything else is passed on as it is. *)

Lemma md_to_storage_blank md :
  all_space (markdown X md) = true ->
  md_to_storage X md = "<p><em>Empty document</em></p>".
Proof. unfold md_to_storage. intros ->. reflexivity. Qed.

Lemma md_to_storage_passes md :
  all_space (markdown X md) = false -> md_to_storage X md = markdown X md.
Proof. unfold md_to_storage. intros ->. reflexivity. Qed.

Lemma md_to_storage_never_blank md : all_space (md_to_storage X md) = false.
Proof.
  unfold md_to_storage. destruct (all_space (markdown X md)) eqn:E; cbn; [reflexivity | exact E].
Qed.

(* ------------------------------------------------------------------ *)
(** ** Further properties of the client *)

(** X2.  When the search is answered with a status other than 200, a real
    [create_page] sends a create request even for a title that the space
    holds, and counts the call as created or failed, never as skipped. *)
Theorem create_page_after_failed_lookup t b p s :
  get_status X (st_clock s) t <> 200%Z ->
  exists r s',
    create_page X false t b p s = Ret r s' /\
    st_trace s' =
      Print (if created_status (post_status X (S (st_clock s)) t)
             then LCreated t (new_id X (S (st_clock s)))
             else LFailed t (post_status X (S (st_clock s)) t))
      :: HttpPost t p b :: HttpGet t :: st_trace s /\
    skipped (st_stats s') = skipped (st_stats s) /\
    created (st_stats s') + failed (st_stats s') =
      S (created (st_stats s) + failed (st_stats s)).
Proof.
  intros Hne.
  assert (Hl : lookup X s t = None).
  { unfold lookup. destruct (Z.eqb_spec (get_status X (st_clock s) t) 200);
      [contradiction | reflexivity]. }
  destruct (create_page_spec false t b p s) as (r & s' & E & Ho).
  exists r, s'. split; [exact E|].
  inversion Ho; subst; try congruence.
  - rewrite H1. cbn. repeat split; lia.
  - rewrite H1. cbn. repeat split; lia.
Qed.

(** X3.  Creating and then creating again: after a real [create_page] has
    created a page for a title that the space did not hold, under a
    non-empty id, a second call for the title, whose search is answered
    200, sends no create request, leaves the space as it is, counts one
    skip and returns the id of the page created by the first call. *)
Theorem create_page_twice dry t b p b' p' s s1 id :
  first_with_title t (st_pages s) = None ->
  create_page X false t b p s = Ret (Some id) s1 ->
  nonempty id = true ->
  get_status X (st_clock s1) t = 200%Z ->
  create_page X dry t b' p' s1 =
    Ret (Some id)
        (mkState (incr_skipped (st_stats s1)) (st_pages s1) (S (st_clock s1))
                 (Print (LExists t id) :: HttpGet t :: st_trace s1)).
Proof.
  intros Habs Hc Hid Hg. apply create_page_inv in Hc.
  apply create_page_found; [|exact Hid].
  unfold lookup. rewrite Hg. cbn.
  inversion Hc; subst; cbn; try discriminate.
  - unfold lookup in H0. rewrite Habs in H0. destruct (_ =? _)%Z; discriminate.
  - rewrite first_with_title_app, Habs. unfold first_with_title. cbn.
    now rewrite String.eqb_refl.
Qed.

(* ------------------------------------------------------------------ *)
(** ** Further properties of the entry point *)

Lemma descendants_keeps n : forall ids pages id,
  In id ids -> In id (descendants n ids pages).
Proof.
  induction n as [|n IH]; intros ids pages id H; cbn; [exact H|].
  apply IH. apply in_or_app. now left.
Qed.

Lemma remove_tree_removes id pages p :
  In p (remove_tree id pages) -> page_id p <> id.
Proof.
  unfold remove_tree. rewrite filter_In. intros [_ H] E.
  apply negb_true_iff in H.
  assert (T : existsb (String.eqb (page_id p))
                (descendants (List.length pages) [id] pages) = true).
  { apply existsb_exists. exists id. split.
    - apply descendants_keeps. now left.
    - rewrite E. apply String.eqb_refl. }
  congruence.
Qed.

(** X4.  A delete run in which the lookup finds the page and the delete
    request is answered 200 or 204 ends normally: one delete request was
    sent, for the id found; "deleted" is one and the other counters are
    zero; the tally shows the deleted line; and no page with that id is
    left in the space. *)
Theorem delete_run_deletes a s id s1 status s2 :
  has_auth X = true -> truthy (arg_delete a) = true -> arg_dry_run a = false ->
  find_page X (shown (arg_delete a)) (before_delete a s) = Ret (Some id) s1 ->
  nonempty id = true ->
  http_delete X id s1 = Ret status s2 -> deleted_status status = true ->
  exists s',
    main X (Parsed a) s = Ret tt s' /\
    st_stats s' = mkStats 0 0 0 1 /\
    st_trace s' =
      Print (LResults 0 0 0 (Some 1))
      :: Print (LDeleted (shown (arg_delete a)) id)
      :: HttpDelete id :: HttpGet (shown (arg_delete a))
      :: st_trace (before_delete a s) /\
    forall p, In p (st_pages s') -> page_id p <> id.
Proof.
  cbv beta iota delta [main parse_args bind ret].
  intros Ha Hdel Hdry Hf Hid Hd Hs.
  rewrite find_page_eq in Hf. injection Hf as Hl <-.
  unfold http_delete in Hd. cbn [tick st_clock st_pages st_stats st_trace] in Hd.
  injection Hd as Hst <-.
  rewrite (run_startup a s Ha), Hdel. fold (before_delete a s).
  assert (E : delete_page X (arg_dry_run a) (shown (arg_delete a)) (before_delete a s)
              = Ret true
                  (mkState (incr_deleted (st_stats (before_delete a s)))
                     (remove_tree id (st_pages (before_delete a s)))
                     (S (S (st_clock (before_delete a s))))
                     (Print (LDeleted (shown (arg_delete a)) id)
                      :: HttpDelete id :: HttpGet (shown (arg_delete a))
                      :: st_trace (before_delete a s)))).
  { rewrite delete_page_cases. cbv zeta. rewrite Hl, Hdry.
    cbn [truthy negb shown]. rewrite Hid. cbn [negb].
    change (st_clock (before_delete a s)) with (st_clock s).
    rewrite Hst, Hs. reflexivity. }
  rewrite (bind_ret _ _ _ _ _ E), print_stats_eq.
  eexists. split; [reflexivity|]. cbn [emitted st_stats st_pages st_trace].
  split; [reflexivity|]. split; [reflexivity|].
  intros p. apply remove_tree_removes.
Qed.

Lemma delete_page_events dry t s b s' :
  delete_page X dry t s = Ret b s' ->
  exists new, since s s' new /\
    count is_call new = 0 /\ count is_post new = 0 /\ count is_visit new = 0.
Proof.
  rewrite delete_page_cases. cbv zeta.
  destruct (negb (truthy (lookup X s t))).
  { intros [= _ <-]. exists [Print (LNotFound t); HttpGet t]. repeat split. }
  destruct dry.
  { intros [= _ <-].
    exists [Print (LWouldDelete t (shown (lookup X s t))); HttpGet t]. repeat split. }
  destruct (deleted_status _); intros [= _ <-].
  - exists [Print (LDeleted t (shown (lookup X s t)));
            HttpDelete (shown (lookup X s t)); HttpGet t]. repeat split.
  - eexists [Print (LDeleteFailed t _); HttpDelete (shown (lookup X s t)); HttpGet t].
    repeat split.
Qed.

(** X5.  With a non-empty [--delete] title nothing is uploaded, whatever
    [--dir] says: the run makes no call of [create_page], sends no create
    request, enters no directory, and leaves "created", "skipped" and
    "failed" as the client was built with them. *)
Theorem delete_mode_uploads_nothing a s :
  has_auth X = true -> truthy (arg_delete a) = true ->
  exists s' new,
    main X (Parsed a) s = Ret tt s' /\ since s s' new /\
    count is_call new = 0 /\ count is_post new = 0 /\ count is_visit new = 0 /\
    created (st_stats s') = 0 /\ skipped (st_stats s') = 0 /\
    failed (st_stats s') = 0.
Proof.
  cbv beta iota delta [main parse_args bind ret].
  intros Ha Hdel. rewrite (run_startup a s Ha), Hdel.
  fold (before_delete a s).
  destruct (delete_page_total (arg_dry_run a) (shown (arg_delete a)) (before_delete a s))
    as (b & s1 & E).
  rewrite (bind_ret _ _ _ _ _ E), print_stats_eq.
  destruct (delete_page_events _ _ _ _ _ E) as (new & Hs & C1 & C2 & C3).
  destruct (delete_page_counted _ _ _ _ _ E) as (_ & K1 & K2 & K3).
  eexists.
  exists ([Print (LResults (created (st_stats s1)) (skipped (st_stats s1))
                    (failed (st_stats s1))
                    (if deleted (st_stats s1) =? 0 then None
                     else Some (deleted (st_stats s1))))] ++
          new ++ [Print LBanner; Print (LDeleting (shown (arg_delete a)))] ++
          (if arg_dry_run a then [Print LDryRunMode] else []) ++ [Print LBanner])%list.
  split; [reflexivity|]. split.
  - unfold since in *. cbn [emitted st_trace]. rewrite Hs.
    unfold before_delete, after_startup. cbn [emitted st_trace].
    destruct (arg_dry_run a); cbn [app]; rewrite <- ?app_assoc; cbn [app];
      reflexivity.
  - rewrite !count_app, C1, C2, C3. cbn [emitted st_stats].
    rewrite K1, K2, K3.
    destruct (arg_dry_run a); cbn; repeat split.
Qed.


(** X6.  [--delete] with an empty title is upload mode: the run is the run
    of the same command line without [--delete]. *)
Theorem empty_delete_title_uploads a s :
  arg_delete a = Some "" -> main X (Parsed a) s = main X (Parsed (without_delete a)) s.
Proof.
  cbv beta iota delta [main parse_args bind ret].
  intros Hd. destruct (has_auth X) eqn:Ha.
  - rewrite (run_startup a s Ha), (run_startup (without_delete a) s Ha), Hd.
    reflexivity.
  - rewrite (run_no_auth a s Ha), (run_no_auth (without_delete a) s Ha).
    reflexivity.
Qed.

(** X7.  The command line is parsed before the secrets are read.  When a
    secret is missing or empty, a command line that the parser accepts ends
    the run with exit code 1 after the error lines alone: no request is
    sent, no counter set, nothing else printed, whatever the arguments.  A
    command line that the parser rejects ends the run with code 2 and a
    help request with code 0 even then, before the secrets are looked at. *)
Theorem missing_secret_exits_first s :
  environ_email X = None \/ environ_email X = Some "" \/
  environ_token X = None \/ environ_token X = Some "" ->
  (forall a, main X (Parsed a) s = Exit 1%Z (emitted (Print LAuthError) s)) /\
  main X Unparsable s = Exit 2%Z (emitted (Print LUsage) s) /\
  main X HelpRequested s = Exit 0%Z (emitted (Print LHelp) s).
Proof.
  intros H. split; [|split; reflexivity].
  intros a. rewrite main_parsed. apply run_no_auth. unfold has_auth.
  destruct H as [-> | [-> | [-> | ->]]]; cbn; try reflexivity;
    apply andb_false_r.
Qed.



(** A relation that the steps of an upload respect holds from the state in
    which the client was built to the state in which the run exits or prints
    its tally. *)
Lemma run_upload_closed (R : state -> state -> Prop) a s :
  (forall s0, R s0 s0) ->
  (forall s1 s2 s3, R s1 s2 -> R s2 s3 -> R s1 s3) ->
  (forall e s0, walker_event e = true \/ entry_event e = true ->
     R s0 (emitted e s0)) ->
  (forall site t b p s0 r s1,
     call_create_page X (arg_dry_run a) site t b p s0 = Ret r s1 -> R s0 s1) ->
  has_auth X = true -> truthy (arg_delete a) = false ->
  exists s3,
    R (after_startup a s) s3 /\
    (run X a s = print_stats s3 \/
     exists c, c <> 0%Z /\ run X a s = Exit c s3).
Proof.
  intros Rr Rt Re Rc Ha Hdel. rewrite (run_startup a s Ha), Hdel.
  destruct (negb (truthy (arg_dir a))).
  { eexists. split; [|right; exists 2%Z; split; [discriminate | reflexivity]].
    apply Re. now right. }
  destruct (source_dir X a) as [root|].
  2:{ eexists. split; [|right; exists 1%Z; split; [discriminate | reflexivity]].
      apply Re. now right. }
  unfold create_root.
  destruct (call_create_page_total (arg_dry_run a) RootSite (root_title_of a root)
              (root_body a root) (arg_parent_id a) (before_root a root s))
    as (r & s2 & E).
  rewrite E.
  assert (R2 : R (after_startup a s) s2).
  { eapply Rt; [|eapply Rc, E]. unfold before_root.
    repeat (eapply Rt; [|apply Re; right; reflexivity]). apply Rr. }
  destruct (negb (truthy r)).
  { eexists. split; [|right; exists 1%Z; split; [discriminate | reflexivity]].
    eapply Rt; [exact R2 | apply Re; now right]. }
  destruct (upload_tree_total (arg_dry_run a) root (shown r) (root_title_of a root) s2)
    as (s3 & E3).
  rewrite (bind_ret _ _ _ _ _ E3). exists s3. split; [|now left].
  eapply Rt; [exact R2|]. revert E3. apply upload_tree_closed; auto.
Qed.

Lemma never_refl p s : never p s s.
Proof. exists []. split; reflexivity. Qed.

Lemma never_trans p s1 s2 s3 : never p s1 s2 -> never p s2 s3 -> never p s1 s3.
Proof.
  intros (n1 & S1 & C1) (n2 & S2 & C2). exists (n2 ++ n1)%list.
  split; [eapply since_trans; eassumption|]. rewrite count_app. lia.
Qed.

Lemma never_emit p e s : p e = false -> never p s (emitted e s).
Proof.
  intros H. exists [e]. split; [apply since_emitted|].
  now rewrite count_cons, H.
Qed.

Lemma never_call p dry site t b q s r s' :
  (forall e, create_event e = true -> p e = false) ->
  call_create_page X dry site t b q s = Ret r s' -> never p s s'.
Proof.
  intros Hp H. apply call_create_page_inv in H. destruct H as (s1 & Ho & ->).
  assert (Z2 : forall a b l, p a = false -> p b = false -> count p l = 0 ->
                 count p (a :: b :: l) = 0).
  { intros a0 b0 l Ha Hb Hl. now rewrite !count_cons, Ha, Hb, Hl. }
  destruct Ho.
  - exists [Call site t q (Some id); Print (LExists t id); HttpGet t].
    split; [reflexivity|]. rewrite count_cons, Hp by reflexivity.
    apply Z2; try apply Hp; reflexivity.
  - exists [Call site t q (Some "dry-run-id"); Print (LWouldCreate t q); HttpGet t].
    split; [reflexivity|]. rewrite count_cons, Hp by reflexivity.
    apply Z2; try apply Hp; reflexivity.
  - exists [Call site t q (Some (new_id X (S (st_clock s))));
            Print (LCreated t (new_id X (S (st_clock s)))); HttpPost t q b; HttpGet t].
    split; [reflexivity|]. rewrite !count_cons, !Hp by reflexivity. reflexivity.
  - exists [Call site t q None; Print (LFailed t (post_status X (S (st_clock s)) t));
            HttpPost t q b; HttpGet t].
    split; [reflexivity|]. rewrite !count_cons, !Hp by reflexivity. reflexivity.
Qed.

Lemma never_startup p a s :
  p (Print LBanner) = false -> p (Print LDryRunMode) = false ->
  never p s (after_startup a s).
Proof.
  intros H1 H2.
  exists ((if arg_dry_run a then [Print LDryRunMode] else []) ++ [Print LBanner])%list.
  split.
  - unfold since, after_startup. cbn [st_trace]. now rewrite <- app_assoc.
  - destruct (arg_dry_run a); cbn [app]; rewrite ?count_cons, ?H1, ?H2; reflexivity.
Qed.



Lemma run_upload_final a s s3 :
  run X a s = print_stats s3 \/ (exists c, c <> 0%Z /\ run X a s = Exit c s3) ->
  exists s' tail,
    final_state (run X a s) = Some s' /\
    st_stats s' = st_stats s3 /\ st_pages s' = st_pages s3 /\
    st_trace s' = (tail ++ st_trace s3)%list /\
    forallb is_tally tail = true.
Proof.
  intros [E | (c & _ & E)]; rewrite E.
  - rewrite print_stats_eq. eexists _, [_]. repeat split.
  - exists s3, []. repeat split.
Qed.

(** X10.  An upload never deletes and never rewrites: in upload mode no
    delete request is sent, the pages that the space held are still there,
    unchanged and in their places, with new pages only added after them, and
    "deleted" is zero at the end. *)
Theorem upload_mode_only_adds a s :
  has_auth X = true -> truthy (arg_delete a) = false ->
  exists s' new extra,
    final_state (main X (Parsed a) s) = Some s' /\ since s s' new /\
    count is_delete_request new = 0 /\
    st_pages s' = (st_pages s ++ extra)%list /\
    deleted (st_stats s') = 0.
Proof.
  cbv beta iota delta [main parse_args bind ret].
  intros Ha Hdel.
  destruct (run_upload_closed
              (fun s0 s1 => never is_delete_request s0 s1 /\ appended s0 s1 /\
                            deleted (st_stats s1) = deleted (st_stats s0)) a s)
    as (s3 & (N & (extra & P) & D) & F); try assumption.
  - intros s0. split; [apply never_refl|]. split; [|reflexivity].
    exists []. now rewrite app_nil_r.
  - intros s1 s2 s4 (N1 & (e1 & P1) & D1) (N2 & (e2 & P2) & D2).
    split; [eapply never_trans; eassumption|]. split; [|congruence].
    exists (e1 ++ e2)%list. now rewrite P2, P1, app_assoc.
  - intros e s0 He. split; [|split; [|reflexivity]].
    + apply never_emit. destruct e as [| | |l| | |]; try reflexivity.
      destruct He; discriminate.
    + exists []. cbn. now rewrite app_nil_r.
  - intros site t b p s0 r s1 H. split.
    + eapply never_call; [|exact H].
      intros e He. destruct e; try reflexivity; discriminate.
    + apply call_create_page_inv in H. destruct H as (s2 & Ho & ->).
      destruct Ho; cbn; (split; [|reflexivity]);
        (exists []; now rewrite app_nil_r) || (eexists; reflexivity).
  - destruct (run_upload_final a s s3 F) as (s' & tail & Hf & Hst & Hp & Ht & Htl).
    destruct N as (new & Hs & Hc).
    destruct (never_startup is_delete_request a s eq_refl eq_refl) as (n0 & S0 & C0).
    exists s', (tail ++ new ++ n0)%list, extra.
    split; [exact Hf|]. split; [|split; [|split]].
    + unfold since in *. rewrite Ht, Hs, S0, <- !app_assoc. reflexivity.
    + rewrite !count_app, Hc, C0.
      assert (Z0 : count is_delete_request tail = 0).
      { clear - Htl. induction tail as [|e tail IH]; [reflexivity|].
        cbn in Htl. apply andb_true_iff in Htl. destruct Htl as [He Ht].
        rewrite count_cons, (IH Ht).
        destruct e as [| | |l| | |]; try discriminate. reflexivity. }
      rewrite Z0. reflexivity.
    + rewrite Hp, P. reflexivity.
    + rewrite Hst, D. reflexivity.
Qed.


(* ------------------------------------------------------------------ *)
(** ** Further properties of the walker *)

Lemma paced_refl s : paced 0 s s.
Proof. exists []. split; reflexivity. Qed.

Lemma paced_trans k1 k2 s1 s2 s3 :
  paced k1 s1 s2 -> paced k2 s2 s3 -> paced (k1 + k2) s1 s3.
Proof.
  intros (n1 & S1 & C1) (n2 & S2 & C2). exists (n2 ++ n1)%list.
  split; [eapply since_trans; eassumption|]. rewrite !count_app. lia.
Qed.

Lemma paced_trans0 s1 s2 s3 : paced 0 s1 s2 -> paced 0 s2 s3 -> paced 0 s1 s3.
Proof. apply (paced_trans 0 0). Qed.

Lemma paced_call dry site t b p s r s' :
  call_create_page X dry site t b p s = Ret r s' -> paced 1 s s'.
Proof.
  intros H. apply call_create_page_inv in H. destruct H as (s1 & Ho & ->).
  destruct Ho.
  - exists [Call site t p (Some id); Print (LExists t id); HttpGet t]. split; reflexivity.
  - exists [Call site t p (Some "dry-run-id"); Print (LWouldCreate t p); HttpGet t].
    split; reflexivity.
  - exists [Call site t p (Some (new_id X (S (st_clock s))));
            Print (LCreated t (new_id X (S (st_clock s)))); HttpPost t p b; HttpGet t].
    split; reflexivity.
  - exists [Call site t p None; Print (LFailed t (post_status X (S (st_clock s)) t));
            HttpPost t p b; HttpGet t].
    split; reflexivity.
Qed.

Lemma paced_sleep s s0 : paced 1 s0 s -> paced 0 s0 (emitted Sleep s).
Proof.
  intros (new & Hs & Hc). exists (Sleep :: new).
  split; [unfold since in *; cbn; now rewrite Hs|].
  rewrite !count_cons, Hc. cbn. lia.
Qed.

Lemma paced_quiet e s s' k :
  is_call e = false -> is_sleep e = false -> paced k (emitted e s) s' -> paced k s s'.
Proof.
  intros H1 H2 (new & Hs & Hc). exists (new ++ [e])%list. split.
  - unfold since in *. rewrite Hs. cbn. now rewrite <- app_assoc.
  - rewrite !count_app, !count_cons, H1, H2. cbn. lia.
Qed.

Lemma upload_file_paced dry announce parent prefix f s s' :
  upload_file X dry announce parent prefix f s = Ret tt s' -> paced 0 s s'.
Proof.
  intros H. unfold upload_file in H.
  apply bind_ret_inv in H. destruct H as ([] & s1 & H1 & H).
  apply bind_ret_inv in H. destruct H as (r & s2 & H2 & H).
  apply print_inv in H1. apply emit_inv in H. subst s1 s'.
  apply (paced_quiet (Print (announce (node_name f)))); [reflexivity..|].
  apply paced_sleep. eapply paced_call, H2.
Qed.

Lemma upload_subdir_paced dry recurse title body parent d s s' :
  (forall id prefix s0 s1, recurse d id prefix s0 = Ret tt s1 -> paced 0 s0 s1) ->
  upload_subdir X dry recurse title body parent d s = Ret tt s' -> paced 1 s s'.
Proof.
  intros Hr H. unfold upload_subdir in H.
  apply bind_ret_inv in H. destruct H as (r & s1 & H1 & H).
  apply paced_call in H1.
  destruct (truthy r).
  - apply Hr in H. apply (paced_trans 1 0 _ _ _ H1 H).
  - injection H as <-. exact H1.
Qed.

Lemma upload_directory_paced fuel : forall dry dir parent prefix depth s s',
  upload_directory X fuel dry dir parent prefix depth s = Ret tt s' -> paced 0 s s'.
Proof.
  induction fuel as [|fuel IH]; intros dry dir parent prefix depth s s' H.
  - discriminate.
  - cbn [upload_directory] in H. cbv zeta in H.
    apply bind_ret_inv in H. destruct H as ([] & s1 & H1 & H).
    apply bind_ret_inv in H. destruct H as ([] & s2 & H2 & H).
    apply bind_ret_inv in H. destruct H as ([] & s3 & H3 & H).
    apply emit_inv in H1. apply print_inv in H2. subst s1 s2.
    apply (paced_quiet (Visit dir)); [reflexivity..|].
    apply (paced_quiet (Print (LDir depth (node_name dir)))); [reflexivity..|].
    eapply paced_trans0.
    + eapply (for_closed (paced 0) paced_refl paced_trans0); [|exact H3].
      intros f s0 s4 _. apply upload_file_paced.
    + eapply (for_closed (paced 0) paced_refl paced_trans0); [|exact H].
      intros d s0 s4 _ Hd.
      apply bind_ret_inv in Hd. destruct Hd as ([] & s5 & H5 & Hd).
      apply emit_inv in Hd. subst s4. apply paced_sleep.
      eapply upload_subdir_paced; [|exact H5].
      intros id p s6 s7. apply IH.
Qed.

(** X12.  Pacing.  A walk of a directory pauses once for every call of
    [create_page] that it makes, whatever the call returns.  Below the root
    page, [main] pauses after the files at the top of the tree, not after
    the index pages of its top-level subdirectories: there are as many more
    calls than pauses as there are visible subdirectories at the top. *)
Theorem walker_paces_every_call :
  (forall fuel dry dir parent prefix depth s s',
      upload_directory X fuel dry dir parent prefix depth s = Ret tt s' ->
      exists new, since s s' new /\ count is_sleep new = count is_call new) /\
  (forall dry root root_id root_title s,
      exists s' new,
        upload_tree X dry root root_id root_title s = Ret tt s' /\
        since s s' new /\
        count is_call new = count is_sleep new + subdir_count root).
Proof.
  split.
  - intros fuel dry dir parent prefix depth s s' H.
    apply upload_directory_paced in H. destruct H as (new & Hs & Hc).
    exists new. split; [exact Hs | lia].
  - intros dry root root_id root_title s.
    destruct (upload_tree_total dry root root_id root_title s) as (s' & E).
    exists s'. pose proof E as H. unfold upload_tree in H.
    apply bind_ret_inv in H. destruct H as ([] & s1 & H1 & H).
    apply bind_ret_inv in H. destruct H as ([] & s3 & H3 & H).
    apply emit_inv in H1. subst s1.
    assert (F : paced 0 (emitted (Visit root) s) s3).
    { eapply (for_closed (paced 0) paced_refl paced_trans0); [|exact H3].
      intros f s0 s4 _. apply upload_file_paced. }
    assert (D : forall l s0 s4,
      for_ l (fun d =>
        upload_subdir X dry
          (fun sub folder_id prefix => upload_directory X (height sub) dry sub folder_id prefix 1)
          (node_name d) ("<p>Artefacts for <strong>" ++ node_name d ++ "</strong>.</p>")
          root_id d) s0 = Ret tt s4 ->
      paced (List.length l) s0 s4).
    { induction l as [|d l IHl]; intros s0 s4 Hl.
      - injection Hl as <-. apply paced_refl.
      - apply for_cons_inv in Hl. destruct Hl as (s5 & Hd & Hl).
        apply (paced_trans 1 (List.length l) s0 s5 s4); [|now apply IHl].
        eapply upload_subdir_paced; [|exact Hd].
        intros id p s6 s7. apply upload_directory_paced. }
    apply D in H. rewrite length_sorted in H.
    pose proof (paced_trans _ _ _ _ _ F H) as T.
    apply (paced_quiet (Visit root)) in T; [|reflexivity..].
    destruct T as (new & Hs & Hc). exists new.
    split; [exact E|]. split; [exact Hs|]. exact Hc.
Qed.

(** A relation that holds across the blocks of [main] holds across a run. *)
Lemma run_blocks (B : state -> state -> Prop) a s :
  (forall s0, B s0 s0) ->
  (forall s1 s2 s3, B s1 s2 -> B s2 s3 -> B s1 s3) ->
  (forall l s0, B s0 (emitted (Print l) s0)) ->
  B s (after_startup a s) ->
  (forall t s0 b s1, delete_page X (arg_dry_run a) t s0 = Ret b s1 -> B s0 s1) ->
  (forall root s0 r s1,
     call_create_page X (arg_dry_run a) RootSite (root_title_of a root)
       (root_body a root) (arg_parent_id a) s0 = Ret r s1 -> B s0 s1) ->
  (forall root root_id root_title s0 s1,
     upload_tree X (arg_dry_run a) root root_id root_title s0 = Ret tt s1 -> B s0 s1) ->
  exists s', final_state (run X a s) = Some s' /\ B s s'.
Proof.
  intros Br Bt Be B0 Bd Bc Bu.
  destruct (has_auth X) eqn:Ha.
  2:{ rewrite run_no_auth by assumption. eexists. split; [reflexivity|].
      apply Be. }
  rewrite (run_startup a s Ha).
  destruct (truthy (arg_delete a)).
  { match goal with |- context [bind (delete_page X ?d ?t) _ ?s0] =>
      destruct (delete_page_total d t s0) as (b & s1 & E) end.
    rewrite (bind_ret _ _ _ _ _ E), print_stats_eq.
    eexists. split; [reflexivity|].
    eapply Bt; [exact B0|]. eapply Bt; [|apply Be].
    eapply Bt; [|eapply Bd, E].
    eapply Bt; apply Be. }
  destruct (negb (truthy (arg_dir a))).
  { eexists. split; [reflexivity|]. eapply Bt; [exact B0 | apply Be]. }
  destruct (source_dir X a) as [root|].
  2:{ eexists. split; [reflexivity|]. eapply Bt; [exact B0 | apply Be]. }
  unfold create_root.
  destruct (call_create_page_total (arg_dry_run a) RootSite (root_title_of a root)
              (root_body a root) (arg_parent_id a) (before_root a root s))
    as (r & s2 & E).
  rewrite E.
  assert (B2 : B s s2).
  { eapply Bt; [exact B0|]. eapply Bt; [|eapply Bc, E]. unfold before_root.
    repeat (eapply Bt; [|apply Be]). apply Br. }
  destruct (negb (truthy r)).
  { eexists. split; [reflexivity|]. eapply Bt; [exact B2 | apply Be]. }
  destruct (upload_tree_total (arg_dry_run a) root (shown r) (root_title_of a root) s2)
    as (s3 & E3).
  rewrite (bind_ret _ _ _ _ _ E3), print_stats_eq.
  eexists. split; [reflexivity|].
  eapply Bt; [exact B2|]. eapply Bt; [eapply Bu, E3 | apply Be].
Qed.

Lemma upload_directory_visits fuel dry dir parent prefix depth s s' :
  upload_directory X fuel dry dir parent prefix depth s = Ret tt s' ->
  exists new, since s s' new /\ In (Visit dir) new.
Proof.
  destruct fuel as [|fuel]; [discriminate|]. intros H.
  cbn [upload_directory] in H. cbv zeta in H.
  apply bind_ret_inv in H. destruct H as ([] & s1 & H1 & H).
  apply emit_inv in H1. subst s1.
  assert (C : counted (emitted (Visit dir) s) s').
  { apply bind_ret_inv in H. destruct H as ([] & s2 & H2 & H).
    apply bind_ret_inv in H. destruct H as ([] & s3 & H3 & H).
    apply print_inv in H2. subst s2.
    apply (counted_trans _ (emitted (Print (LDir depth (node_name dir)))
                              (emitted (Visit dir) s)));
      [apply counted_emit; reflexivity|].
    eapply counted_trans.
    - eapply for_counted; [|exact H3]. intros f s0 s4. apply upload_file_counted.
    - eapply for_counted; [|exact H]. intros d s0 s4 Hd.
      apply bind_ret_inv in Hd. destruct Hd as ([] & s5 & H5 & Hd).
      apply emit_inv in Hd. subst s4.
      eapply counted_trans; [|apply counted_emit; reflexivity].
      eapply upload_subdir_counted; [|exact H5].
      intros id p s6 s7. apply upload_directory_counted. }
  destruct C as (new & Hs & _). exists (new ++ [Visit dir])%list. split.
  - unfold since in *. rewrite Hs. cbn. now rewrite <- app_assoc.
  - apply in_or_app. right. now left.
Qed.

Lemma upload_subdir_enters fuel depth dry title body parent d s s' :
  upload_subdir X dry
    (fun sub folder_id prefix => upload_directory X fuel dry sub folder_id prefix depth)
    title body parent d s = Ret tt s' ->
  exists new e, since s s' new /\ In e new /\
    exists r, e = Call IndexSite title parent r /\
              (truthy r = true -> In (Visit d) new).
Proof.
  intros H. unfold upload_subdir in H.
  apply bind_ret_inv in H. destruct H as (r & s1 & H1 & H).
  apply call_create_page_inv in H1. destruct H1 as (s3 & Ho & ->).
  destruct (create_outcome_since _ _ _ _ _ _ _ Ho) as (new & Hs & _).
  assert (S1 : since s (emitted (Call IndexSite title parent r) s3)
                 (Call IndexSite title parent r :: new)).
  { unfold since in *. cbn. now rewrite Hs. }
  destruct (truthy r) eqn:Hr.
  - apply upload_directory_visits in H. destruct H as (n2 & S2 & Hv).
    exists (n2 ++ Call IndexSite title parent r :: new)%list,
           (Call IndexSite title parent r).
    split; [eapply since_trans; eassumption|].
    split; [apply in_or_app; right; now left|].
    exists r. split; [reflexivity|]. intros _. apply in_or_app. now left.
  - injection H as <-.
    exists (Call IndexSite title parent r :: new), (Call IndexSite title parent r).
    split; [exact S1|]. split; [now left|]. exists r.
    split; [reflexivity | intros Hr'; congruence].
Qed.

(** Every element of a loop leaves in the trace a fact that later and
    earlier events do not disturb. *)
Lemma for_each_trace {A} (l : list A) body (P : A -> list event -> Prop) :
  (forall x n a b, P x n -> P x (a ++ n ++ b)%list) ->
  (forall x s s1, body x s = Ret tt s1 -> exists new, since s s1 new /\ P x new) ->
  forall s s', for_ l body s = Ret tt s' ->
  exists new, since s s' new /\ forall x, In x l -> P x new.
Proof.
  intros Hm Hb. induction l as [|x l IH]; intros s s' H.
  - injection H as <-. exists []. split; [apply since_refl | contradiction].
  - apply for_cons_inv in H. destruct H as (s1 & H1 & H2).
    apply Hb in H1. apply IH in H2.
    destruct H1 as (n1 & S1 & P1). destruct H2 as (n2 & S2 & P2).
    exists (n2 ++ n1)%list. split; [eapply since_trans; eassumption|].
    intros y [<- | Hy].
    + specialize (Hm x n1 n2 [] P1). now rewrite app_nil_r in Hm.
    + specialize (Hm y n2 [] n1 (P2 y Hy)). exact Hm.
Qed.

(** X14.  Titles at the top of the tree.  Below the root page, every
    markdown file of the source directory is attempted under the root title,
    " - " and its title-cased stem, and every visible subdirectory under its
    own name as it is, without the root title; both are attempted below the
    root page, and a subdirectory whose index page comes back with an id is
    entered. *)
Theorem top_level_titles dry root root_id root_title s :
  exists s' new,
    upload_tree X dry root root_id root_title s = Ret tt s' /\ since s s' new /\
    (forall f, In f (dir_entries root) -> md_file f = true ->
       exists r,
         In (Call LeafSite (root_title ++ " - " ++ pretty_title (stem (node_name f)))
                  root_id r) new) /\
    (forall d, In d (dir_entries root) -> visible_dir d = true ->
       exists r,
         In (Call IndexSite (node_name d) root_id r) new /\
         (truthy r = true -> In (Visit d) new)).
Proof.
  destruct (upload_tree_total dry root root_id root_title s) as (s' & E).
  exists s'. pose proof E as H. unfold upload_tree in H.
  apply bind_ret_inv in H. destruct H as ([] & s1 & H1 & H).
  apply bind_ret_inv in H. destruct H as ([] & s3 & H3 & H).
  apply emit_inv in H1. subst s1.
  apply (for_each_event _ _
           (fun f e => exists r, e = Call LeafSite (leaf_title root_title f) root_id r))
    in H3.
  2:{ intros f s0 s4. apply upload_file_event. }
  apply (for_each_trace _ _
           (fun d new => exists r,
              In (Call IndexSite (node_name d) root_id r) new /\
              (truthy r = true -> In (Visit d) new))) in H.
  2:{ intros d n a b (r & Hc & Hv). exists r. split.
      - apply in_or_app. right. apply in_or_app. now left.
      - intros Hr. apply in_or_app. right. apply in_or_app. left. now apply Hv. }
  2:{ intros d s0 s4 Hd. apply upload_subdir_enters in Hd.
      destruct Hd as (new & e & Hs & He & r & -> & Hv).
      exists new. split; [exact Hs|]. exists r. split; assumption. }
  destruct H3 as (n3 & S3 & I3). destruct H as (n4 & S4 & I4).
  exists (n4 ++ n3 ++ [Visit root])%list.
  split; [exact E|]. split; [|split].
  - unfold since in *. rewrite S4, S3. cbn. now rewrite <- !app_assoc.
  - intros f Hf Hm. destruct (I3 f) as (e & He & r & ->).
    { apply in_sorted, filter_In. split; assumption. }
    exists r. apply in_or_app. right. apply in_or_app. now left.
  - intros d Hd Hv. destruct (I4 d) as (r & Hc & Hvis).
    { apply in_sorted, filter_In. split; assumption. }
    exists r. split.
    + apply in_or_app. now left.
    + intros Hr. apply in_or_app. left. now apply Hvis.
Qed.

(** X15.  When the call for the root page comes back without an id, the run
    ends there with exit code 1: that one call is the only call of
    [create_page], no directory is entered and nothing is paused for. *)
Theorem root_failure_attempts_nothing_else a s root r s2 :
  has_auth X = true -> truthy (arg_delete a) = false ->
  truthy (arg_dir a) = true -> source_dir X a = Some root ->
  create_root X a root s = Ret r s2 -> truthy r = false ->
  main X (Parsed a) s = Exit 1%Z (emitted (Print LAbort) s2) /\
  exists new,
    since s (emitted (Print LAbort) s2) new /\
    count is_call new = 1 /\ count is_visit new = 0 /\ count is_sleep new = 0 /\
    In (Call RootSite (root_title_of a root) (arg_parent_id a) r) new.
Proof.
  cbv beta iota delta [main parse_args bind ret].
  intros Ha Hdel Hdir Hsrc Hc Hr.
  split.
  - rewrite (run_startup a s Ha), Hdel, Hdir, Hsrc, Hc, Hr. reflexivity.
  - unfold create_root in Hc. apply call_create_page_inv in Hc.
    destruct Hc as (s1 & Ho & ->).
    assert (Q : exists n1, since (before_root a root s) s1 n1 /\
                  count is_call n1 = 0 /\ count is_visit n1 = 0 /\ count is_sleep n1 = 0).
    { destruct Ho.
      - exists [Print (LExists (root_title_of a root) id); HttpGet (root_title_of a root)].
        repeat split.
      - eexists [Print (LWouldCreate _ _); HttpGet _]. repeat split.
      - eexists [Print (LCreated _ _); HttpPost _ _ _; HttpGet _]. repeat split.
      - eexists [Print (LFailed _ _); HttpPost _ _ _; HttpGet _]. repeat split. }
    destruct Q as (n1 & S1 & C1 & C2 & C3).
    exists ([Print LAbort; Call RootSite (root_title_of a root) (arg_parent_id a) r]
            ++ n1 ++
            [Print LBanner; Print (LRootPage (root_title_of a root));
             Print (LTarget (arg_instance a) (arg_space a) (arg_parent_id a));
             Print (LUploading (shown (arg_dir a)))] ++
            (if arg_dry_run a then [Print LDryRunMode] else []) ++ [Print LBanner])%list.
    split; [|split; [|split; [|split]]].
    + unfold since in *. cbn [emitted st_trace]. rewrite S1.
      unfold before_root, after_startup. cbn [emitted st_trace].
      destruct (arg_dry_run a); cbn [app]; rewrite <- ?app_assoc; cbn [app];
        reflexivity.
    + rewrite !count_app, C1. destruct (arg_dry_run a); reflexivity.
    + rewrite !count_app, C2. destruct (arg_dry_run a); reflexivity.
    + rewrite !count_app, C3. destruct (arg_dry_run a); reflexivity.
    + right. now left.
Qed.


(* ------------------------------------------------------------------ *)
(** ** Titles and names *)

Ltac each_ascii c :=
  destruct c as [[] [] [] [] [] [] [] []]; reflexivity.

Lemma to_upper_separator c :
  Ascii.eqb (to_upper c) "_" = Ascii.eqb c "_" /\
  Ascii.eqb (to_upper c) "-" = Ascii.eqb c "-".
Proof. split; each_ascii c. Qed.

Lemma to_lower_separator c :
  Ascii.eqb (to_lower c) "_" = Ascii.eqb c "_" /\
  Ascii.eqb (to_lower c) "-" = Ascii.eqb c "-".
Proof. split; each_ascii c. Qed.

Lemma case_twice c :
  to_upper (to_upper c) = to_upper c /\ to_lower (to_lower c) = to_lower c /\
  to_upper (to_lower c) = to_upper c /\ to_lower (to_upper c) = to_lower c /\
  is_cased (to_upper c) = is_cased c /\ is_cased (to_lower c) = is_cased c.
Proof. repeat split; each_ascii c. Qed.

Lemma length_replace_char a b s :
  String.length (replace_char a b s) = String.length s.
Proof. induction s as [|c s IH]; cbn; congruence. Qed.

Lemma length_title_from b s : String.length (title_from b s) = String.length s.
Proof. revert b. induction s as [|c s IH]; intros b; cbn; [reflexivity|]. now rewrite IH. Qed.

Lemma contains_title_from x b s :
  x = "_"%char \/ x = "-"%char ->
  contains x (title_from b s) = contains x s.
Proof.
  intros Hx. revert b. induction s as [|c s IH]; intros b; cbn; [reflexivity|].
  rewrite IH. f_equal.
  destruct (to_upper_separator c) as [U1 U2], (to_lower_separator c) as [L1 L2].
  destruct Hx as [-> | ->], b; assumption.
Qed.

Lemma contains_replaced a b s : a <> b -> contains a (replace_char a b s) = false.
Proof.
  intros Hab. induction s as [|c s IH]; cbn; [reflexivity|]. rewrite IH.
  destruct (Ascii.eqb_spec c a) as [-> | Hc]; rewrite orb_false_r.
  - apply Ascii.eqb_neq. congruence.
  - now apply Ascii.eqb_neq.
Qed.

Lemma contains_replace_other x a b s :
  x <> b -> contains x s = false -> contains x (replace_char a b s) = false.
Proof.
  intros Hxb. induction s as [|c s IH]; cbn; [reflexivity|].
  intros H. apply orb_false_iff in H. destruct H as [H1 H2].
  rewrite (IH H2), orb_false_r.
  destruct (Ascii.eqb c a); [|exact H1]. apply Ascii.eqb_neq. congruence.
Qed.

Lemma replace_char_absent a b s : contains a s = false -> replace_char a b s = s.
Proof.
  induction s as [|c s IH]; cbn; [reflexivity|]. intros H.
  apply orb_false_iff in H. destruct H as [H1 H2]. now rewrite H1, IH.
Qed.

Lemma pretty_title_separators s :
  contains "_" (pretty_title s) = false /\ contains "-" (pretty_title s) = false.
Proof.
  unfold pretty_title, py_title. split.
  - rewrite contains_title_from by auto.
    apply contains_replace_other; [discriminate|].
    apply contains_replaced. discriminate.
  - rewrite contains_title_from by auto.
    apply contains_replaced. discriminate.
Qed.

Lemma title_from_twice b s : title_from b (title_from b s) = title_from b s.
Proof.
  revert b. induction s as [|c s IH]; intros b; cbn; [reflexivity|].
  destruct (case_twice c) as (U & L & _ & _ & CU & CL).
  destruct b; rewrite ?U, ?L, ?CU, ?CL, IH; reflexivity.
Qed.

Lemma isascii_replace_char a b s :
  (code b <? 128) = true -> isascii s = true -> isascii (replace_char a b s) = true.
Proof.
  intros Hb. induction s as [|c s IH]; cbn; [reflexivity|].
  intros H. apply andb_true_iff in H. destruct H as [H1 H2].
  rewrite (IH H2), andb_true_r. now destruct (Ascii.eqb c a).
Qed.

Lemma isascii_case c :
  (code c <? 128) = true ->
  (code (to_upper c) <? 128) = true /\ (code (to_lower c) <? 128) = true.
Proof. destruct c as [[] [] [] [] [] [] [] []]; cbn; auto. Qed.

Lemma isascii_title_from b s : isascii s = true -> isascii (title_from b s) = true.
Proof.
  revert b. induction s as [|c s IH]; intros b; cbn; [reflexivity|].
  intros H. apply andb_true_iff in H. destruct H as [H1 H2].
  rewrite (IH _ H2), andb_true_r.
  destruct (isascii_case c H1) as [U L]. now destruct b.
Qed.

(** X16.  A title made by [pretty_title] from a stem of ASCII characters is
    as long as the stem, is made of ASCII characters, holds no underscore
    and no hyphen, and is left as it is when [pretty_title] is applied to
    it again. *)
Theorem pretty_title_shape s :
  isascii s = true ->
  String.length (pretty_title s) = String.length s /\
  isascii (pretty_title s) = true /\
  contains "_" (pretty_title s) = false /\
  contains "-" (pretty_title s) = false /\
  pretty_title (pretty_title s) = pretty_title s.
Proof.
  intros Ha.
  destruct (pretty_title_separators s) as [H1 H2].
  split; [|split; [|split; [exact H1|split; [exact H2|]]]].
  - unfold pretty_title, py_title.
    now rewrite length_title_from, !length_replace_char.
  - unfold pretty_title, py_title.
    apply isascii_title_from, isascii_replace_char; [reflexivity|].
    now apply isascii_replace_char.
  - unfold pretty_title at 1.
    rewrite (replace_char_absent "_" " " _ H1), (replace_char_absent "-" " " _ H2).
    unfold pretty_title, py_title. apply title_from_twice.
Qed.

Lemma replace_separators_swap s :
  replace_char "-" " " (replace_char "_" " " (replace_char "_" "-" s))
  = replace_char "-" " " (replace_char "_" " " s) /\
  replace_char "-" " " (replace_char "_" " " (replace_char "-" "_" s))
  = replace_char "-" " " (replace_char "_" " " s).
Proof.
  induction s as [|c s [IH1 IH2]]; cbn; [split; reflexivity|].
  rewrite IH1, IH2. split; f_equal; each_ascii c.
Qed.

Lemma title_from_case b s :
  title_from b (replace_char "-" " " (replace_char "_" " " (string_map to_upper s)))
  = title_from b (replace_char "-" " " (replace_char "_" " " s)) /\
  title_from b (replace_char "-" " " (replace_char "_" " " (string_map to_lower s)))
  = title_from b (replace_char "-" " " (replace_char "_" " " s)).
Proof.
  revert b. induction s as [|c s IH]; intros b; cbn; [split; reflexivity|].
  assert (E : forall d : bool,
    (if d then
       to_lower (if Ascii.eqb (if Ascii.eqb (to_upper c) "_" then " " else to_upper c) "-"
                 then " " else if Ascii.eqb (to_upper c) "_" then " " else to_upper c)
     else
       to_upper (if Ascii.eqb (if Ascii.eqb (to_upper c) "_" then " " else to_upper c) "-"
                 then " " else if Ascii.eqb (to_upper c) "_" then " " else to_upper c))%char
    = (if d then
         to_lower (if Ascii.eqb (if Ascii.eqb c "_" then " " else c) "-"
                   then " " else if Ascii.eqb c "_" then " " else c)
       else
         to_upper (if Ascii.eqb (if Ascii.eqb c "_" then " " else c) "-"
                   then " " else if Ascii.eqb c "_" then " " else c))%char /\
    (if d then
       to_lower (if Ascii.eqb (if Ascii.eqb (to_lower c) "_" then " " else to_lower c) "-"
                 then " " else if Ascii.eqb (to_lower c) "_" then " " else to_lower c)
     else
       to_upper (if Ascii.eqb (if Ascii.eqb (to_lower c) "_" then " " else to_lower c) "-"
                 then " " else if Ascii.eqb (to_lower c) "_" then " " else to_lower c))%char
    = (if d then
         to_lower (if Ascii.eqb (if Ascii.eqb c "_" then " " else c) "-"
                   then " " else if Ascii.eqb c "_" then " " else c)
       else
         to_upper (if Ascii.eqb (if Ascii.eqb c "_" then " " else c) "-"
                   then " " else if Ascii.eqb c "_" then " " else c))%char).
  { intros d. split; destruct d; each_ascii c. }
  assert (C :
    is_cased (if Ascii.eqb (if Ascii.eqb (to_upper c) "_" then " " else to_upper c) "-"
              then " " else if Ascii.eqb (to_upper c) "_" then " " else to_upper c)%char
    = is_cased (if Ascii.eqb (if Ascii.eqb c "_" then " " else c) "-"
                then " " else if Ascii.eqb c "_" then " " else c)%char /\
    is_cased (if Ascii.eqb (if Ascii.eqb (to_lower c) "_" then " " else to_lower c) "-"
              then " " else if Ascii.eqb (to_lower c) "_" then " " else to_lower c)%char
    = is_cased (if Ascii.eqb (if Ascii.eqb c "_" then " " else c) "-"
                then " " else if Ascii.eqb c "_" then " " else c)%char).
  { split; each_ascii c. }
  destruct (E b) as [E1 E2]. destruct C as [C1 C2].
  rewrite E1, E2, C1, C2.
  split; f_equal; apply IH.
Qed.

(** X17.  Titles do not tell names (of ASCII characters) apart that differ
    in the kind of separator or in letter case: turning underscores into
    hyphens or hyphens into underscores, or upper-casing or lower-casing
    the stem, gives the same title. *)
Theorem pretty_title_ignores_separator_and_case s :
  isascii s = true ->
  pretty_title (replace_char "_" "-" s) = pretty_title s /\
  pretty_title (replace_char "-" "_" s) = pretty_title s /\
  pretty_title (string_map to_upper s) = pretty_title s /\
  pretty_title (string_map to_lower s) = pretty_title s.
Proof.
  intros _. unfold pretty_title, py_title.
  destruct (replace_separators_swap s) as [S1 S2].
  destruct (title_from_case false s) as [C1 C2].
  rewrite S1, S2. auto.
Qed.






Lemma blank_not_letter : is_letter " " = false.
Proof. reflexivity. Qed.





Lemma length_append_string a b :
  String.length (a ++ b) = String.length a + String.length b.
Proof. induction a as [|c a IH]; cbn; congruence. Qed.

Lemma substring_whole s : substring 0 (String.length s) s = s.
Proof. induction s as [|c s IH]; cbn; congruence. Qed.

Lemma substring_front a b : substring 0 (String.length a) (a ++ b) = a.
Proof.
  induction a as [|c a IH]; cbn; [now destruct b | congruence].
Qed.

Lemma substring_back a b :
  substring (String.length a) (String.length b) (a ++ b) = b.
Proof.
  induction a as [|c a IH]; cbn; [apply substring_whole | exact IH].
Qed.

Lemma substring_split k : forall s,
  k <= String.length s ->
  s = substring 0 k s ++ substring k (String.length s - k) s.
Proof.
  induction k as [|k IH]; intros s Hk.
  - rewrite Nat.sub_0_r, substring_whole. now destruct s.
  - destruct s as [|c s]; cbn in *; [lia|].
    f_equal. apply IH. lia.
Qed.

Lemma endswith_iff suf s :
  endswith suf s = true <-> exists base, s = base ++ suf.
Proof.
  unfold endswith. rewrite andb_true_iff, Nat.leb_le, String.eqb_eq. split.
  - intros [Hl He].
    exists (substring 0 (String.length s - String.length suf) s).
    assert (Hk : String.length s - String.length suf <= String.length s) by lia.
    pose proof (substring_split _ s Hk) as Sp.
    replace (String.length s - (String.length s - String.length suf))
      with (String.length suf) in Sp by lia.
    rewrite He in Sp. exact Sp.
  - intros (base & ->). rewrite length_append_string. split; [lia|].
    replace (String.length base + String.length suf - String.length suf)
      with (String.length base) by lia.
    apply substring_back.
Qed.

Lemma rfind_dot_md base : forall i,
  rfind_dot (base ++ ".md") i = Some (i + String.length base).
Proof.
  induction base as [|c base IH]; intros i; cbn.
  - f_equal. lia.
  - rewrite IH. f_equal. lia.
Qed.

Lemma stem_md base : base <> "" -> stem (base ++ ".md") = base.
Proof.
  intros Hb. unfold stem. rewrite rfind_dot_md. cbn [Nat.add].
  assert (C : (0 <? String.length base) &&
              (String.length base <? String.length (base ++ ".md") - 1) = true).
  { rewrite length_append_string. apply andb_true_iff.
    split; apply Nat.ltb_lt.
    - destruct base; [contradiction | cbn; lia].
    - cbn [String.length]. lia. }
  rewrite C. apply substring_front.
Qed.

(** X18.  Which files are uploaded, and under which title.  An entry is
    taken as a document exactly when it is a regular file whose name is some
    base followed by [.md].  With a non-empty base the title is the prefix,
    " - " and the title made from the base, other dots in the base
    included; the file named [.md] alone is uploaded under the title made
    from its whole name. *)
Theorem document_names_and_titles :
  (forall e, md_file e = true <->
             is_file e = true /\ exists base, node_name e = base ++ ".md") /\
  (forall title_prefix base content,
      base <> "" ->
      leaf_title title_prefix (File (base ++ ".md") content)
      = title_prefix ++ " - " ++ pretty_title base) /\
  (forall title_prefix content,
      leaf_title title_prefix (File ".md" content) = title_prefix ++ " - .Md").
Proof.
  split; [|split].
  - intros e. unfold md_file. rewrite andb_true_iff, endswith_iff. tauto.
  - intros title_prefix base content Hb. unfold leaf_title. cbn [node_name].
    now rewrite stem_md.
  - intros title_prefix content. reflexivity.
Qed.


(* ------------------------------------------------------------------ *)
(** ** Page bodies *)

Lemma bodies_refl s : bodies_not_blank s s.
Proof. exists []. split; [reflexivity | constructor]. Qed.

Lemma bodies_trans s1 s2 s3 :
  bodies_not_blank s1 s2 -> bodies_not_blank s2 s3 -> bodies_not_blank s1 s3.
Proof.
  intros (n1 & S1 & F1) (n2 & S2 & F2). exists (n2 ++ n1)%list.
  split; [eapply since_trans; eassumption | apply Forall_app; auto].
Qed.

Lemma bodies_emit e s : body_not_blank e -> bodies_not_blank s (emitted e s).
Proof.
  intros H. exists [e]. split; [apply since_emitted | repeat constructor; exact H].
Qed.

Lemma bodies_call dry site t b p s r s' :
  all_space b = false ->
  call_create_page X dry site t b p s = Ret r s' -> bodies_not_blank s s'.
Proof.
  intros Hb H. apply call_create_page_inv in H. destruct H as (s1 & Ho & ->).
  destruct Ho.
  - exists [Call site t p (Some id); Print (LExists t id); HttpGet t].
    split; [reflexivity | repeat constructor].
  - exists [Call site t p (Some "dry-run-id"); Print (LWouldCreate t p); HttpGet t].
    split; [reflexivity | repeat constructor].
  - exists [Call site t p (Some (new_id X (S (st_clock s))));
            Print (LCreated t (new_id X (S (st_clock s)))); HttpPost t p b; HttpGet t].
    split; [reflexivity | repeat constructor; exact Hb].
  - exists [Call site t p None; Print (LFailed t (post_status X (S (st_clock s)) t));
            HttpPost t p b; HttpGet t].
    split; [reflexivity | repeat constructor; exact Hb].
Qed.

Lemma upload_file_bodies dry announce parent prefix f s s' :
  upload_file X dry announce parent prefix f s = Ret tt s' -> bodies_not_blank s s'.
Proof.
  intros H. unfold upload_file in H.
  apply bind_ret_inv in H. destruct H as ([] & s1 & H1 & H).
  apply bind_ret_inv in H. destruct H as (r & s2 & H2 & H).
  apply print_inv in H1. apply emit_inv in H. subst s1 s'.
  eapply bodies_trans; [apply (bodies_emit (Print (announce (node_name f)))); exact I|].
  eapply bodies_trans; [eapply bodies_call; [apply md_to_storage_never_blank | exact H2]|].
  apply bodies_emit. exact I.
Qed.

Lemma upload_subdir_bodies dry recurse title body parent d s s' :
  all_space body = false ->
  (forall id prefix s0 s1, recurse d id prefix s0 = Ret tt s1 -> bodies_not_blank s0 s1) ->
  upload_subdir X dry recurse title body parent d s = Ret tt s' ->
  bodies_not_blank s s'.
Proof.
  intros Hb Hr H. unfold upload_subdir in H.
  apply bind_ret_inv in H. destruct H as (r & s1 & H1 & H).
  eapply bodies_trans; [eapply bodies_call; [exact Hb | exact H1]|].
  destruct (truthy r); [eapply Hr, H | injection H as <-; apply bodies_refl].
Qed.

Lemma upload_directory_bodies fuel : forall dry dir parent prefix depth s s',
  upload_directory X fuel dry dir parent prefix depth s = Ret tt s' ->
  bodies_not_blank s s'.
Proof.
  induction fuel as [|fuel IH]; intros dry dir parent prefix depth s s' H.
  - discriminate.
  - cbn [upload_directory] in H. cbv zeta in H.
    apply bind_ret_inv in H. destruct H as ([] & s1 & H1 & H).
    apply bind_ret_inv in H. destruct H as ([] & s2 & H2 & H).
    apply bind_ret_inv in H. destruct H as ([] & s3 & H3 & H).
    apply emit_inv in H1. apply print_inv in H2. subst s1 s2.
    eapply bodies_trans; [apply (bodies_emit (Visit dir)); exact I|].
    eapply bodies_trans;
      [apply (bodies_emit (Print (LDir depth (node_name dir)))); exact I|].
    eapply bodies_trans.
    + eapply (for_closed bodies_not_blank bodies_refl bodies_trans); [|exact H3].
      intros f s0 s4 _. apply upload_file_bodies.
    + eapply (for_closed bodies_not_blank bodies_refl bodies_trans); [|exact H].
      intros d s0 s4 _ Hd.
      apply bind_ret_inv in Hd. destruct Hd as ([] & s5 & H5 & Hd).
      apply emit_inv in Hd. subst s4.
      eapply bodies_trans; [|apply (bodies_emit Sleep); exact I].
      refine (upload_subdir_bodies _ _ _ _ _ _ _ _ _ _ H5); [reflexivity|].
      intros id p s6 s7. apply IH.
Qed.

Lemma upload_tree_bodies dry root root_id root_title s s' :
  upload_tree X dry root root_id root_title s = Ret tt s' -> bodies_not_blank s s'.
Proof.
  intros H. unfold upload_tree in H.
  apply bind_ret_inv in H. destruct H as ([] & s1 & H1 & H).
  apply bind_ret_inv in H. destruct H as ([] & s3 & H3 & H).
  apply emit_inv in H1. subst s1.
  eapply bodies_trans; [apply (bodies_emit (Visit root)); exact I|].
  eapply bodies_trans.
  - eapply (for_closed bodies_not_blank bodies_refl bodies_trans); [|exact H3].
    intros f s0 s4 _. apply upload_file_bodies.
  - eapply (for_closed bodies_not_blank bodies_refl bodies_trans); [|exact H].
    intros d s0 s4 _ Hd.
    refine (upload_subdir_bodies _ _ _ _ _ _ _ _ _ _ Hd); [reflexivity|].
    intros id p s6 s7. apply upload_directory_bodies.
Qed.

(** X19.  The body that [md_to_storage] returns is never blank: it is what
    the [markdown] package returns when that is not blank, and the
    placeholder paragraph otherwise.  Accordingly no create request of any
    run, for a document, an index page or the root page, carries a blank
    body. *)
Theorem page_bodies_never_blank :
  (forall md,
      all_space (md_to_storage X md) = false /\
      md_to_storage X md =
        (if all_space (markdown X md) then "<p><em>Empty document</em></p>"
         else markdown X md)) /\
  (forall a s,
      exists s' new,
        final_state (main X (Parsed a) s) = Some s' /\ since s s' new /\
        forall t p b, In (HttpPost t p b) new -> all_space b = false).
Proof.
  cbv beta iota delta [main parse_args bind ret].
  split.
  - intros md. split; [apply md_to_storage_never_blank|].
    unfold md_to_storage. now destruct (all_space (markdown X md)).
  - intros a s.
    destruct (run_blocks bodies_not_blank a s) as (s' & Hf & new & Hs & HF).
    + apply bodies_refl.
    + apply bodies_trans.
    + intros l s0. apply bodies_emit. exact I.
    + exists ((if arg_dry_run a then [Print LDryRunMode] else []) ++ [Print LBanner])%list.
      split.
      * unfold since, after_startup. cbn [st_trace]. now rewrite <- app_assoc.
      * destruct (arg_dry_run a); repeat constructor.
    + intros t s0 b s1 H. rewrite delete_page_cases in H. cbv zeta in H.
      destruct (negb (truthy (lookup X s0 t))).
      { injection H as _ <-. exists [Print (LNotFound t); HttpGet t].
        split; [reflexivity | repeat constructor]. }
      destruct (arg_dry_run a).
      { injection H as _ <-.
        exists [Print (LWouldDelete t (shown (lookup X s0 t))); HttpGet t].
        split; [reflexivity | repeat constructor]. }
      destruct (deleted_status _); injection H as _ <-.
      * exists [Print (LDeleted t (shown (lookup X s0 t)));
                HttpDelete (shown (lookup X s0 t)); HttpGet t].
        split; [reflexivity | repeat constructor].
      * eexists [Print (LDeleteFailed t _); HttpDelete (shown (lookup X s0 t)); HttpGet t].
        split; [reflexivity | repeat constructor].
    + intros root s0 r s1. apply bodies_call. reflexivity.
    + intros root root_id root_title s0 s1. apply upload_tree_bodies.
    + exists s', new. split; [exact Hf|]. split; [exact Hs|].
      intros t p b Hin. rewrite Forall_forall in HF. exact (HF _ Hin).
Qed.


(* ------------------------------------------------------------------ *)
(** ** Runs that an uncaught exception ends *)

Section Exceptions.

Variable raises : state -> operation -> bool.

Lemma follows_refl {A} (m : M A) : follows m m.
Proof. intros s. now left. Qed.

Lemma follows_bind {A B} (mr m : M A) (kr k : A -> M B) :
  follows mr m -> (forall a, follows (kr a) (k a)) ->
  follows (bind mr kr) (bind m k).
Proof.
  intros Hm Hk s. unfold bind. destruct (Hm s) as [E | E].
  - rewrite E. destruct (m s) as [a s1| |]; [apply Hk | now left | now left].
  - destruct (mr s) as [a s1|c s1|]; try discriminate. now right.
Qed.

Lemma follows_guard {A} op (mr m : M A) :
  follows mr m -> follows (Raising.guard raises op ;; mr) m.
Proof.
  intros H s. unfold bind, Raising.guard.
  destruct (raises s op); [now right | apply H].
Qed.

Lemma follows_for {A} (l : list A) (br b : A -> M unit) :
  (forall x, follows (br x) (b x)) -> follows (for_ l br) (for_ l b).
Proof.
  intros H. induction l as [|x l IH]; cbn [for_]; [apply follows_refl|].
  apply follows_bind; [apply H | intros _; exact IH].
Qed.

Lemma print_follows l : follows (Raising.print raises l) (print l).
Proof. apply follows_guard, follows_refl. Qed.

Lemma find_page_follows t :
  follows (Raising.find_page X raises t) (find_page X t).
Proof.
  apply follows_bind; [apply follows_guard, follows_refl|].
  intros resp. destruct (fst resp =? 200)%Z; [|apply follows_refl].
  apply follows_guard, follows_refl.
Qed.

Lemma create_page_follows dry t b p :
  follows (Raising.create_page X raises dry t b p) (create_page X dry t b p).
Proof.
  apply follows_bind; [apply find_page_follows|]. intros existing.
  destruct (truthy existing).
  { apply follows_bind; [apply print_follows | intros _; apply follows_refl]. }
  destruct dry.
  { apply follows_bind; [apply print_follows | intros _; apply follows_refl]. }
  apply follows_bind; [apply follows_guard, follows_refl|]. intros resp.
  destruct (created_status (fst resp)).
  - apply follows_guard.
    apply follows_bind; [apply print_follows | intros _; apply follows_refl].
  - apply follows_bind; [apply print_follows | intros _; apply follows_refl].
Qed.

Lemma delete_page_follows dry t :
  follows (Raising.delete_page X raises dry t) (delete_page X dry t).
Proof.
  apply follows_bind; [apply find_page_follows|]. intros page_id.
  destruct (negb (truthy page_id)).
  { apply follows_bind; [apply print_follows | intros _; apply follows_refl]. }
  cbv zeta. destruct dry.
  { apply follows_bind; [apply print_follows | intros _; apply follows_refl]. }
  apply follows_bind; [apply follows_guard, follows_refl|]. intros status.
  destruct (deleted_status status);
    (apply follows_bind; [apply print_follows | intros _; apply follows_refl]).
Qed.

Lemma print_stats_follows : follows (Raising.print_stats raises) print_stats.
Proof. intros s. unfold Raising.print_stats, print_stats. apply print_follows. Qed.

Lemma call_create_page_follows dry site t b p :
  follows (Raising.call_create_page X raises dry site t b p)
          (call_create_page X dry site t b p).
Proof.
  apply follows_bind; [apply create_page_follows | intros r; apply follows_refl].
Qed.

Lemma upload_file_follows dry announce parent prefix f :
  follows (Raising.upload_file X raises dry announce parent prefix f)
          (upload_file X dry announce parent prefix f).
Proof.
  unfold Raising.upload_file, upload_file. cbv zeta.
  apply follows_bind; [apply print_follows | intros _].
  apply follows_guard.
  apply follows_bind; [apply call_create_page_follows | intros _].
  apply follows_refl.
Qed.

Lemma upload_subdir_follows dry rr r title body parent d :
  (forall sub id prefix, follows (rr sub id prefix) (r sub id prefix)) ->
  follows (Raising.upload_subdir X raises dry rr title body parent d)
          (upload_subdir X dry r title body parent d).
Proof.
  intros H. apply follows_bind; [apply call_create_page_follows|].
  intros folder_id. destruct (truthy folder_id); [apply H | apply follows_refl].
Qed.

Lemma upload_directory_follows fuel : forall dry dir parent prefix depth,
  follows (Raising.upload_directory X raises fuel dry dir parent prefix depth)
          (upload_directory X fuel dry dir parent prefix depth).
Proof.
  induction fuel as [|fuel IH]; intros dry dir parent prefix depth.
  - apply follows_refl.
  - cbn [Raising.upload_directory upload_directory]. cbv zeta.
    apply follows_bind; [apply follows_refl | intros _].
    apply follows_bind; [apply print_follows | intros _].
    apply follows_guard.
    apply follows_bind; [apply follows_for; intros f; apply upload_file_follows|].
    intros _. apply follows_for. intros d.
    apply follows_bind; [|intros _; apply follows_refl].
    apply upload_subdir_follows. intros sub id p. apply IH.
Qed.

Lemma upload_tree_follows dry root root_id root_title :
  follows (Raising.upload_tree X raises dry root root_id root_title)
          (upload_tree X dry root root_id root_title).
Proof.
  unfold Raising.upload_tree, upload_tree. cbv zeta.
  apply follows_bind; [apply follows_refl | intros _].
  apply follows_guard.
  apply follows_bind; [apply follows_for; intros f; apply upload_file_follows|].
  intros _. apply follows_for. intros d.
  apply upload_subdir_follows. intros sub id p. apply upload_directory_follows.
Qed.

Lemma get_auth_follows : follows (Raising.get_auth X raises) (get_auth X).
Proof.
  unfold Raising.get_auth, get_auth. cbv zeta.
  destruct (negb (truthy (environ_email X)) || negb (truthy (environ_token X)));
    [|apply follows_refl].
  apply follows_bind; [apply print_follows | intros _; apply follows_refl].
Qed.

Lemma run_follows a : follows (Raising.run X raises a) (run X a).
Proof.
  unfold Raising.run, run.
  apply follows_bind; [apply get_auth_follows | intros _].
  apply follows_bind; [apply follows_refl | intros _].
  apply follows_bind; [apply print_follows | intros _].
  apply follows_bind.
  { destruct (arg_dry_run a); [apply print_follows | apply follows_refl]. }
  intros _. destruct (truthy (arg_delete a)).
  { apply follows_bind; [apply print_follows | intros _].
    apply follows_bind; [apply print_follows | intros _].
    apply follows_bind; [apply delete_page_follows | intros _].
    apply print_stats_follows. }
  destruct (negb (truthy (arg_dir a))); [apply follows_refl|].
  destruct (source_dir X a) as [root|].
  2:{ apply follows_bind; [apply print_follows | intros _; apply follows_refl]. }
  cbv zeta.
  apply follows_bind; [apply print_follows | intros _].
  apply follows_bind; [apply print_follows | intros _].
  apply follows_bind; [apply print_follows | intros _].
  apply follows_bind; [apply print_follows | intros _].
  apply follows_bind; [apply call_create_page_follows | intros root_id].
  destruct (negb (truthy root_id)).
  { apply follows_bind; [apply print_follows | intros _; apply follows_refl]. }
  apply follows_bind; [apply upload_tree_follows | intros _].
  apply print_stats_follows.
Qed.

Lemma main_follows c : follows (Raising.main X raises c) (main X c).
Proof.
  apply follows_bind; [apply follows_refl | intros a; apply run_follows].
Qed.

End Exceptions.

(** With operations that never raise, the program with exceptions is the
    program without. *)
Lemma main_never_raises c s : Raising.main X never_raises c s = main X c s.
Proof. destruct c; reflexivity. Qed.




(** C2, amended.  The calls of [create_page] and the visits of a run that
    no uncaught exception ends are laid out as the tree is.  A walk of a
    directory returns, and in it the directory is visited, each of its
    [.md] files is attempted once, and each of its visible subdirectories
    gets one call for its index page; the subdirectory is walked, below the
    id, exactly when that call came back with an id, and otherwise nothing
    below it is visited or attempted.  An upload calls for the root page
    and, when that has an id, treats the source directory in the same way.
    Hence in every such run the calls made for the content of a file are as
    many as the [.md] files of the directories visited, and the visits as
    many as the calls for root or index pages that came back with an id. *)
Theorem leaf_attempts_match_visited_files :
  (forall raises fuel dry dir parent prefix depth s,
      is_dir dir = true -> height dir <= fuel ->
      crashed (Raising.upload_directory X raises fuel dry dir parent prefix
                 depth s) = false ->
      exists s' new,
        Raising.upload_directory X raises fuel dry dir parent prefix depth s
        = Ret tt s' /\
        since s s' new /\ walk dir parent prefix (steps new)) /\
  (forall raises a s root,
      has_auth X = true -> truthy (arg_delete a) = false ->
      truthy (arg_dir a) = true -> source_dir X a = Some root ->
      crashed (Raising.main X raises (Parsed a) s) = false ->
      exists r s' new,
        final_state (Raising.main X raises (Parsed a) s) = Some s' /\
        since s s' new /\ upload_steps a root r (steps new)) /\
  (forall raises c s,
      crashed (Raising.main X raises c s) = false ->
      exists s' new,
        final_state (Raising.main X raises c s) = Some s' /\ since s s' new /\
        count is_leaf_call new = visited_md new /\
        count is_visit new = count is_dir_call_ok new).
Proof.
  destruct walks_laid_out as (W1 & W2 & W3).
  split; [|split].
  - intros raises fuel dry dir parent prefix depth s Hd Hh Hc.
    destruct (upload_directory_follows raises fuel dry dir parent prefix depth s)
      as [E | E]; [|congruence].
    rewrite E. now apply W1.
  - intros raises a s root Ha Hdel Hdir Hsrc Hc.
    destruct (main_follows raises (Parsed a) s) as [E | E]; [|congruence].
    rewrite E.
    destruct (W2 a s root Ha Hdel Hdir Hsrc) as (r & s2 & s' & new & _ & F & Hs & U).
    exists r, s', new. auto.
  - intros raises c s Hc.
    destruct (main_follows raises c s) as [E | E]; [|congruence].
    rewrite E. apply W3.
Qed.

End Facts.

(* ------------------------------------------------------------------ *)
(** * Instances *)

Lemma accepting_ids n : nonempty (new_id accepting n) = true.
Proof. reflexivity. Qed.

Lemma delete_page_not_found_witness :
  (exists s',
      delete_page accepting false "Artefacts" fresh = Ret false s' /\
      st_stats s' = st_stats fresh /\ st_pages s' = st_pages fresh /\
      st_trace s' = Print (LNotFound "Artefacts") :: HttpGet "Artefacts"
                      :: st_trace fresh) /\
  (exists s',
      main accepting (Parsed delete_artefacts) fresh = Ret tt s' /\
      exit_status (main accepting (Parsed delete_artefacts) fresh) = Some 0%Z /\
      st_stats s' = no_stats /\
      count is_mutating (st_trace s') = count is_mutating (st_trace fresh)).
Proof.
  split.
  - eapply (proj1 (delete_page_not_found accepting)); reflexivity.
  - eapply (proj2 (delete_page_not_found accepting)); reflexivity.
Defined.

Lemma delete_page_request_fails_witness :
  (exists s',
      delete_page refusing false "Artefacts" (with_pages [artefacts_page])
        = Ret false s' /\
      st_stats s' = no_stats /\ failed (st_stats s') = 0 /\
      st_trace s' = [Print (LDeleteFailed "Artefacts" 500); HttpDelete "p1";
                     HttpGet "Artefacts"]) /\
  (exists s',
      main refusing (Parsed delete_artefacts) (with_pages [artefacts_page]) = Ret tt s' /\
      st_stats s' = no_stats /\
      hd_error (st_trace s') = Some (Print (LResults 0 0 0 None))).
Proof.
  split.
  - eapply (proj1 (delete_page_request_fails refusing)
              "Artefacts" (with_pages [artefacts_page]) "p1"); reflexivity.
  - eapply (proj2 (delete_page_request_fails refusing)
              delete_artefacts (with_pages [artefacts_page]) "p1"); reflexivity.
Defined.


(** The run of [picky] over [sample_library]: the index pages of [notes]
    and of [guides/deep] fail, nothing below them is attempted, and the
    directories after them are walked.  The file [x.md] below [guides/deep]
    cannot be read, and is never opened. *)
Lemma leaf_attempts_match_visited_files_witness :
  (exists s' new,
      Raising.upload_directory picky never_raises 3 false sample_library
        "p1" "Docs" 0 fresh = Ret tt s' /\
      since fresh s' new /\ walk sample_library "p1" "Docs" (steps new)) /\
  (exists r s' new,
      final_state (Raising.main picky (unreadable "x.md") (Parsed upload_docs) fresh)
      = Some s' /\
      since fresh s' new /\
      upload_steps upload_docs sample_library r (steps new)) /\
  (exists s' new,
      final_state (Raising.main picky (unreadable "x.md") (Parsed upload_docs) fresh)
      = Some s' /\
      since fresh s' new /\
      count is_leaf_call new = visited_md new /\
      count is_visit new = count is_dir_call_ok new) /\
  steps (st_trace match Raising.main picky (unreadable "x.md")
                          (Parsed upload_docs) fresh with
                  | Ret _ s' => s'
                  | _ => fresh
                  end) =
    [ Call RootSite "Docs" "71499794" (Some "p1");
      Visit sample_library;
      Call LeafSite "Docs - Intro" "p1" (Some "p3");
      Call IndexSite "guides" "p1" (Some "p5");
      Visit (Dir "guides"
               [ File "setup.md" "Setup"; Dir "deep" [File "x.md" "x"];
                 Dir "more" [File "y.md" "y"] ]);
      Call LeafSite "guides - Setup" "p5" (Some "p7");
      Call IndexSite "guides / deep" "p5" None;
      Call IndexSite "guides / more" "p5" (Some "p11");
      Visit (Dir "more" [File "y.md" "y"]);
      Call LeafSite "guides / more - Y" "p11" (Some "p13");
      Call IndexSite "notes" "p1" None;
      Call IndexSite "zeta" "p1" (Some "p17");
      Visit (Dir "zeta" [File "last.md" "z"]);
      Call LeafSite "zeta - Last" "p17" (Some "p19") ].
Proof.
  destruct (leaf_attempts_match_visited_files picky) as (H1 & H2 & H3).
  split; [|split; [|split]].
  - apply H1; [reflexivity | cbn; lia | vm_compute; reflexivity].
  - apply H2; [reflexivity | reflexivity | reflexivity | reflexivity
               | vm_compute; reflexivity].
  - apply H3. vm_compute. reflexivity.
  - vm_compute. reflexivity.
Defined.



Lemma rerun_skips_every_page_witness :
  create_page accepting false "Artefacts" "body" "71499794"
    (with_pages [artefacts_page])
  = Ret (Some "p1")
        (mkState (mkStats 0 1 0 0) [artefacts_page] 1
                 [Print (LExists "Artefacts" "p1"); HttpGet "Artefacts"]) /\
  exists s2,
    main accepting (Parsed upload_docs)
      match main accepting (Parsed upload_docs) fresh with Ret _ s1 => s1 | _ => fresh end
    = Ret tt s2 /\
    created (st_stats s2) = 0 /\ failed (st_stats s2) = 0 /\
    skipped (st_stats s2) = 4 /\
    read_only
      match main accepting (Parsed upload_docs) fresh with Ret _ s1 => s1 | _ => fresh end
      s2.
Proof.
  destruct (rerun_skips_every_page accepting) as (H1 & H2).
  split.
  - apply (H1 false "Artefacts" "body" "71499794" (with_pages [artefacts_page]) "p1");
      vm_compute; reflexivity.
  - pose (s1 := match main accepting (Parsed upload_docs) fresh with
                | Ret _ s => s
                | _ => fresh
                end).
    assert (E : main accepting (Parsed upload_docs) fresh = Ret tt s1)
      by (vm_compute; reflexivity).
    assert (F : failed (st_stats s1) = 0) by (vm_compute; reflexivity).
    assert (S : created (st_stats s1) + skipped (st_stats s1) = 4)
      by (vm_compute; reflexivity).
    destruct (H2 upload_docs fresh s1 eq_refl eq_refl eq_refl accepting_ids
                (Forall_nil _) E F (fun n t _ => eq_refl))
      as (s2 & K1 & K2 & K3 & K4 & K5).
    exists s2. fold s1. rewrite <- S, <- K4. auto.
Defined.

Lemma dry_run_changes_nothing_witness :
  create_page accepting true "Docs" "body" "71499794" fresh
  = Ret (Some "dry-run-id")
        (mkState (mkStats 1 0 0 0) [] 1
                 [Print (LWouldCreate "Docs" "71499794"); HttpGet "Docs"]) /\
  delete_page accepting true "Artefacts" (with_pages [artefacts_page])
  = Ret true
        (mkState no_stats [artefacts_page] 1
                 [Print (LWouldDelete "Artefacts" "p1"); HttpGet "Artefacts"]) /\
  (exists s',
      final_state (main accepting (Parsed (dry_run_of upload_docs)) fresh) = Some s' /\
      read_only fresh s') /\
  (exists s_dry,
      main accepting (Parsed (dry_run_of upload_docs)) fresh = Ret tt s_dry /\
      created (st_stats s_dry) = 4).
Proof.
  destruct (dry_run_changes_nothing accepting) as (H1 & H2 & H3 & H4).
  split; [|split; [|split]].
  - apply (H1 "Docs" "body" "71499794" fresh). vm_compute. reflexivity.
  - apply (H2 "Artefacts" (with_pages [artefacts_page])). vm_compute. reflexivity.
  - apply (H3 (dry_run_of upload_docs) fresh). reflexivity.
  - pose (s1 := match main accepting (Parsed upload_docs) fresh with
                | Ret _ s => s
                | _ => fresh
                end).
    assert (E : main accepting (Parsed upload_docs) fresh = Ret tt s1)
      by (vm_compute; reflexivity).
    assert (F : failed (st_stats s1) = 0) by (vm_compute; reflexivity).
    assert (S : created (st_stats s1) = 4) by (vm_compute; reflexivity).
    assert (N : forall root, source_dir accepting upload_docs = Some root ->
                  NoDup (plan_main upload_docs root)).
    { intros root Hr. vm_compute in Hr. injection Hr as <-. vm_compute.
      repeat (constructor; [cbn; intuition discriminate|]). constructor. }
    destruct (H4 upload_docs fresh s1 eq_refl eq_refl eq_refl accepting_ids
                (fun n t => eq_refl) (Forall_nil _) N E F)
      as (s_dry & K1 & K2).
    exists s_dry. split; [exact K1 | congruence].
Defined.

(** C1 as stated fails.  Two file names that yield one title: the first
    upload into an empty space creates two pages and skips the third
    attempt, without any failure; the second upload skips three. *)
Lemma rerun_skipped_differs_from_created :
  exists s1 s2,
    main accepting_twins (Parsed upload_docs) fresh = Ret tt s1 /\
    st_stats s1 = mkStats 2 1 0 0 /\
    main accepting_twins (Parsed upload_docs) s1 = Ret tt s2 /\
    st_stats s2 = mkStats 0 3 0 0 /\
    skipped (st_stats s2) <> created (st_stats s1).
Proof.
  eexists _, _. split; [vm_compute; reflexivity|].
  split; [reflexivity|]. split; [vm_compute; reflexivity|].
  split; [reflexivity|]. cbn. discriminate.
Qed.

(** C3 as stated fails.  For the same tree and the same empty space the dry
    run reports three pages as created; the real run, in which nothing
    fails, creates two and skips one. *)
Lemma dry_created_differs_from_real :
  exists s_real s_dry,
    main accepting_twins (Parsed upload_docs) fresh = Ret tt s_real /\
    st_stats s_real = mkStats 2 1 0 0 /\
    main accepting_twins (Parsed (dry_run_of upload_docs)) fresh = Ret tt s_dry /\
    st_stats s_dry = mkStats 3 0 0 0 /\
    created (st_stats s_dry) <> created (st_stats s_real).
Proof.
  eexists _, _. split; [vm_compute; reflexivity|].
  split; [reflexivity|]. split; [vm_compute; reflexivity|].
  split; [reflexivity|]. cbn. discriminate.
Qed.


(** C2 as stated fails.  Of three documents in the source directory the
    second cannot be read as UTF-8 text: the exception ends the run with
    status 1 after one attempt, in a directory that holds three [.md]
    files. *)
Lemma unreadable_file_ends_the_walk :
  exit_status (Raising.main accepting_trio (unreadable "b.md")
                 (Parsed upload_docs) fresh) = Some 1%Z /\
  crashed (Raising.main accepting_trio (unreadable "b.md")
             (Parsed upload_docs) fresh) = true /\
  (exists s' new,
      final_state (Raising.main accepting_trio (unreadable "b.md")
                     (Parsed upload_docs) fresh) = Some s' /\
      since fresh s' new /\
      count is_leaf_call new = 1 /\ visited_md new = 3) /\
  ~ leaf_attempts_equal_visited_files fresh
      (Raising.main accepting_trio (unreadable "b.md") (Parsed upload_docs) fresh).
Proof.
  pose (s1 := match final_state (Raising.main accepting_trio (unreadable "b.md")
                                   (Parsed upload_docs) fresh) with
              | Some s => s
              | None => fresh
              end).
  assert (F : final_state (Raising.main accepting_trio (unreadable "b.md")
                             (Parsed upload_docs) fresh) = Some s1)
    by (vm_compute; reflexivity).
  assert (S : since fresh s1 (st_trace s1))
    by (unfold since; cbn [fresh st_trace]; now rewrite app_nil_r).
  assert (L : count is_leaf_call (st_trace s1) = 1) by (vm_compute; reflexivity).
  assert (V : visited_md (st_trace s1) = 3) by (vm_compute; reflexivity).
  split; [vm_compute; reflexivity|]. split; [vm_compute; reflexivity|]. split.
  - exists s1, (st_trace s1). auto.
  - intros H. specialize (H s1 (st_trace s1) F S). rewrite L, V in H. discriminate.
Qed.

(* ------------------------------------------------------------------ *)
(** * Instances of the further properties *)

Lemma create_page_after_failed_lookup_witness :
  exists r s',
    create_page search_down false "Artefacts" "body" "71499794"
      (with_pages [artefacts_page]) = Ret r s' /\
    skipped (st_stats s') = 0 /\
    created (st_stats s') + failed (st_stats s') = 1.
Proof.
  destruct (create_page_after_failed_lookup search_down "Artefacts" "body" "71499794"
              (with_pages [artefacts_page]))
    as (r & s' & E & _ & K1 & K2).
  - cbn. discriminate.
  - exists r, s'. auto.
Defined.

Lemma create_page_twice_witness :
  create_page accepting false "Docs" "other body" "1"
    (mkState (mkStats 1 0 0 0) [docs_page] 2
       [Print (LCreated "Docs" "p1"); HttpPost "Docs" "71499794" "body"; HttpGet "Docs"])
  = Ret (Some "p1")
        (mkState (mkStats 1 1 0 0) [docs_page] 3
           [Print (LExists "Docs" "p1"); HttpGet "Docs";
            Print (LCreated "Docs" "p1"); HttpPost "Docs" "71499794" "body";
            HttpGet "Docs"]).
Proof.
  apply (create_page_twice accepting false "Docs" "body" "71499794" "other body" "1"
           fresh); vm_compute; reflexivity.
Defined.

Lemma delete_run_deletes_witness :
  exists s',
    main accepting (Parsed delete_artefacts) (with_pages [artefacts_page]) = Ret tt s' /\
    st_stats s' = mkStats 0 0 0 1 /\
    forall p, In p (st_pages s') -> page_id p <> "p1".
Proof.
  pose (s1 := match find_page accepting "Artefacts"
                      (before_delete delete_artefacts (with_pages [artefacts_page])) with
              | Ret _ s => s
              | _ => fresh
              end).
  pose (s2 := match http_delete accepting "p1" s1 with
              | Ret _ s => s
              | _ => fresh
              end).
  assert (E1 : find_page accepting (shown (arg_delete delete_artefacts))
                 (before_delete delete_artefacts (with_pages [artefacts_page]))
               = Ret (Some "p1") s1) by (vm_compute; reflexivity).
  assert (E2 : http_delete accepting "p1" s1 = Ret 204%Z s2) by (vm_compute; reflexivity).
  destruct (delete_run_deletes accepting delete_artefacts (with_pages [artefacts_page])
              "p1" s1 204%Z s2 eq_refl eq_refl eq_refl E1 eq_refl E2 eq_refl)
    as (s' & K1 & K2 & _ & K4).
  exists s'. auto.
Defined.

Lemma delete_mode_uploads_nothing_witness :
  exists s' new,
    main accepting (Parsed (sample_args (Some "docs") (Some "Artefacts") false)) fresh
      = Ret tt s' /\
    since fresh s' new /\ count is_call new = 0 /\ count is_visit new = 0.
Proof.
  destruct (delete_mode_uploads_nothing accepting
              (sample_args (Some "docs") (Some "Artefacts") false) fresh
              eq_refl eq_refl)
    as (s' & new & K1 & K2 & K3 & _ & K5 & _).
  exists s', new. auto.
Defined.

Lemma empty_delete_title_uploads_witness :
  main accepting (Parsed (sample_args (Some "docs") (Some "") false)) fresh
  = main accepting (Parsed (without_delete (sample_args (Some "docs") (Some "") false))) fresh.
Proof.
  apply (empty_delete_title_uploads accepting). reflexivity.
Defined.

Lemma missing_secret_exits_first_witness :
  (forall a, main empty_token (Parsed a) fresh
             = Exit 1%Z (emitted (Print LAuthError) fresh)) /\
  main empty_token Unparsable fresh = Exit 2%Z (emitted (Print LUsage) fresh) /\
  main empty_token HelpRequested fresh = Exit 0%Z (emitted (Print LHelp) fresh).
Proof.
  apply (missing_secret_exits_first empty_token). right. right. right. reflexivity.
Defined.

Lemma upload_mode_only_adds_witness :
  exists s' new extra,
    final_state (main accepting (Parsed upload_docs) (with_pages [artefacts_page])) = Some s' /\
    since (with_pages [artefacts_page]) s' new /\
    count is_delete_request new = 0 /\
    st_pages s' = (artefacts_page :: extra)%list /\
    deleted (st_stats s') = 0.
Proof.
  exact (upload_mode_only_adds accepting upload_docs (with_pages [artefacts_page])
           eq_refl eq_refl).
Defined.


Lemma walker_paces_every_call_witness :
  (exists new,
      since fresh
        match upload_directory accepting 2 false sample_docs "p1" "Docs" 0 fresh with
        | Ret _ s' => s'
        | _ => fresh
        end new /\
      count is_sleep new = count is_call new) /\
  (exists s' new,
      upload_tree accepting false sample_docs "p1" "Docs" fresh = Ret tt s' /\
      since fresh s' new /\
      count is_call new = count is_sleep new + 1).
Proof.
  destruct (walker_paces_every_call accepting) as (H1 & H2).
  split.
  - apply (H1 2 false sample_docs "p1" "Docs" 0 fresh). vm_compute. reflexivity.
  - exact (H2 false sample_docs "p1" "Docs" fresh).
Defined.

Lemma root_failure_attempts_nothing_else_witness :
  main refusing (Parsed upload_docs) fresh
  = Exit 1%Z
      (emitted (Print LAbort)
         match create_root refusing upload_docs sample_docs fresh with
         | Ret _ s2 => s2
         | _ => fresh
         end).
Proof.
  pose (s2 := match create_root refusing upload_docs sample_docs fresh with
              | Ret _ s => s
              | _ => fresh
              end).
  assert (E : create_root refusing upload_docs sample_docs fresh = Ret None s2)
    by (vm_compute; reflexivity).
  exact (proj1 (root_failure_attempts_nothing_else refusing upload_docs fresh
                  sample_docs None s2 eq_refl eq_refl eq_refl eq_refl E eq_refl)).
Defined.

Lemma document_names_and_titles_witness :
  md_file (File "release-notes.v2.md" "text") = true /\
  leaf_title "Docs" (File "release-notes.v2.md" "text") = "Docs - Release Notes.V2".
Proof.
  destruct (document_names_and_titles) as (H1 & H2 & _).
  split.
  - apply H1. split; [reflexivity|]. exists "release-notes.v2". reflexivity.
  - assert (N : "release-notes.v2" <> "") by discriminate.
    exact (H2 "Docs" "release-notes.v2" "text" N).
Defined.

Lemma pretty_title_shape_witness :
  String.length (pretty_title "release-notes_v2") = 16 /\
  isascii (pretty_title "release-notes_v2") = true /\
  contains "_" (pretty_title "release-notes_v2") = false /\
  contains "-" (pretty_title "release-notes_v2") = false /\
  pretty_title (pretty_title "release-notes_v2") = pretty_title "release-notes_v2".
Proof.
  apply (pretty_title_shape "release-notes_v2"). reflexivity.
Defined.

Lemma pretty_title_ignores_separator_and_case_witness :
  pretty_title "release_notes-v2" = pretty_title "release-notes-v2" /\
  pretty_title "release_notes-v2" = "Release Notes V2" /\
  pretty_title (string_map to_upper "release_notes-v2") = "Release Notes V2".
Proof.
  destruct (pretty_title_ignores_separator_and_case "release_notes-v2"
              eq_refl) as (H1 & _ & H3 & _).
  split; [|split].
  - symmetry. exact H1.
  - vm_compute. reflexivity.
  - rewrite H3. vm_compute. reflexivity.
Defined.
